(** * Claim verification engine of AIEarningsAnalyst, embedded in Rocq.

    Shallow embedding of
    - backend/services/extraction/normalizer.py      (parse_period, normalize_claimed_value,
                                                      detect_scale_from_text, extract_numeric_from_text)
    - backend/services/verification/period_resolver.py (resolve_periods)
    - backend/services/verification/compute.py       (growth, margin, absolute comparison)
    - backend/services/verification/tolerances.py    (tolerance matrix)
    - backend/services/verification/metric_catalog.py
    - backend/services/verification/verdict_engine.py (verify_single_claim and helpers)
    - backend/services/misleading/heuristics.py
    - backend/services/pipeline.py                   (_downgrade_conflicting_mismatches,
                                                      _shift_period_string, _claim_with_period_shift)

    Python floats are modelled as exact rationals [Q]; the only non-finite
    float the code produces, [float("inf")], is the [Inf] case of [ext].
    Python strings are modelled as [string] (characters read as code points
    0..255).  Exceptions the code can raise are the [Raise] case of [Res]:
    arithmetic on a missing value ([None]) raises [TypeError]; every
    division of the code sits behind a test of its divisor, so [/] on [Q]
    is used behind the same tests. *)

From Stdlib Require Import ZArith QArith Qabs Lqa String Ascii List Bool Lia DecimalString DecimalNat.
Import ListNotations.
Open Scope string_scope.

(* ------------------------------------------------------------------ *)
(** ** Python values *)

(** A float as the code can produce it: finite or [float("inf")]. *)
Inductive ext : Type :=
| Fin (q : Q)
| Inf.

Definition ext_le (x : ext) (t : Q) : bool :=
  match x with Fin q => Qle_bool q t | Inf => false end.

Definition ext_abs (x : ext) : ext :=
  match x with Fin q => Fin (Qabs q) | Inf => Inf end.

(** Exceptions a call can raise. *)
Inductive exn : Type :=
| TypeError.

Inductive Res (A : Type) : Type :=
| Ok (a : A)
| Raise (e : exn).
Arguments Ok {A} a.
Arguments Raise {A} e.

Definition bind {A B} (m : Res A) (k : A -> Res B) : Res B :=
  match m with Ok a => k a | Raise e => Raise e end.

Notation "x <- m ;; k" := (bind m (fun x => k))
  (at level 61, m at next level, right associativity).

(** Arithmetic on a value that may be [None]: Python raises [TypeError]. *)
Definition num (o : option Q) : Res Q :=
  match o with Some q => Ok q | None => Raise TypeError end.

Definition Qneqb (a b : Q) : bool := negb (Qeq_bool a b).

(* ------------------------------------------------------------------ *)
(** ** Characters and strings *)

Definition code (c : ascii) : nat := nat_of_ascii c.

(** [str.isspace] / regex [\s] on code points 0..255. *)
Definition is_space (c : ascii) : bool :=
  let n := code c in
  (Nat.leb 9 n && Nat.leb n 13) || (Nat.leb 28 n && Nat.leb n 32)
  || Nat.eqb n 133 || Nat.eqb n 160.

Definition is_digit (c : ascii) : bool :=
  let n := code c in Nat.leb 48 n && Nat.leb n 57.

Definition is_lower (c : ascii) : bool :=
  let n := code c in Nat.leb 97 n && Nat.leb n 122.

Definition is_upper (c : ascii) : bool :=
  let n := code c in Nat.leb 65 n && Nat.leb n 90.

Definition to_lower_c (c : ascii) : ascii :=
  if is_upper c then ascii_of_nat (code c + 32)%nat else c.

Definition to_upper_c (c : ascii) : ascii :=
  if is_lower c then ascii_of_nat (code c - 32)%nat else c.

Fixpoint str_map (f : ascii -> ascii) (s : string) : string :=
  match s with
  | EmptyString => EmptyString
  | String c s' => String (f c) (str_map f s')
  end.

(** [str.lower] and [str.upper] *)
Definition lower (s : string) : string := str_map to_lower_c s.
Definition upper (s : string) : string := str_map to_upper_c s.

Fixpoint lstrip (s : string) : string :=
  match s with
  | String c s' => if is_space c then lstrip s' else s
  | EmptyString => EmptyString
  end.

Fixpoint rev_str (s : string) (acc : string) : string :=
  match s with
  | EmptyString => acc
  | String c s' => rev_str s' (String c acc)
  end.

(** [str.strip] *)
Definition strip (s : string) : string :=
  rev_str (lstrip (rev_str (lstrip s) EmptyString)) EmptyString.

Fixpoint starts_with (p s : string) : bool :=
  match p, s with
  | EmptyString, _ => true
  | String a p', String b s' => Ascii.eqb a b && starts_with p' s'
  | _, _ => false
  end.

(** Python [p in s] for strings. *)
Fixpoint contains (p s : string) : bool :=
  starts_with p s ||
  match s with
  | EmptyString => false
  | String _ s' => contains p s'
  end.

(** [any(w in s for w in ws)] *)
Definition any_in (ws : list string) (s : string) : bool :=
  existsb (fun w => contains w s) ws.

(* ------------------------------------------------------------------ *)
(** ** Regular expressions of the engine ([re.search] semantics)

    A regular expression is matched by Brzozowski derivatives.  The
    keyword tables of verdict_engine.py are compiled with [re.IGNORECASE]
    and searched in [quote_text.lower()], so each is written here in lower
    case. *)

Inductive regex : Type :=
| RNone
| REps
| RChr (p : ascii -> bool)
| RCat (r1 r2 : regex)
| RAlt (r1 r2 : regex)
| RStar (r : regex).

Definition rcat (r1 r2 : regex) : regex :=
  match r1, r2 with
  | RNone, _ => RNone
  | _, RNone => RNone
  | REps, _ => r2
  | _, REps => r1
  | _, _ => RCat r1 r2
  end.

Definition ralt (r1 r2 : regex) : regex :=
  match r1, r2 with
  | RNone, _ => r2
  | _, RNone => r1
  | _, _ => RAlt r1 r2
  end.

Fixpoint nullable (r : regex) : bool :=
  match r with
  | RNone | RChr _ => false
  | REps | RStar _ => true
  | RCat r1 r2 => nullable r1 && nullable r2
  | RAlt r1 r2 => nullable r1 || nullable r2
  end.

Fixpoint deriv (c : ascii) (r : regex) : regex :=
  match r with
  | RNone | REps => RNone
  | RChr p => if p c then REps else RNone
  | RCat r1 r2 =>
      if nullable r1 then ralt (rcat (deriv c r1) r2) (deriv c r2)
      else rcat (deriv c r1) r2
  | RAlt r1 r2 => ralt (deriv c r1) (deriv c r2)
  | RStar r1 => rcat (deriv c r1) (RStar r1)
  end.

(** Some prefix of [s] matches [r] and is followed by end of input or by
    a character that is not in [stop] (a negative look-ahead). *)
Fixpoint prefix_match (stop : ascii -> bool) (r : regex) (s : string) : bool :=
  (nullable r &&
     match s with EmptyString => true | String c _ => negb (stop c) end) ||
  match s with
  | EmptyString => false
  | String c s' => prefix_match stop (deriv c r) s'
  end.

(** A match starts at some position whose preceding character is not in
    [stop_before] (a negative look-behind) and ends before a character not
    in [stop_after]. *)
Fixpoint search_from (stop_before stop_after : ascii -> bool) (prev_ok : bool)
    (r : regex) (s : string) : bool :=
  (prev_ok && prefix_match stop_after r s) ||
  match s with
  | EmptyString => false
  | String c s' => search_from stop_before stop_after (negb (stop_before c)) r s'
  end.

Definition never (_ : ascii) : bool := false.

(** [re.search(r, s)] *)
Definition re_search (r : regex) (s : string) : bool :=
  search_from never never true r s.

Definition chr (a : ascii) : regex := RChr (fun c => Ascii.eqb c a).
Definition plus (r : regex) : regex := RCat r (RStar r).
Definition opt (r : regex) : regex := RAlt REps r.
Definition ws0 : regex := RStar (RChr is_space).
Definition ws1 : regex := plus (RChr is_space).
Definition digits1 : regex := plus (RChr is_digit).
(** [.] : any character but a newline *)
Definition anychar : regex := RChr (fun c => negb (Ascii.eqb c "010"%char)).

(** A literal; each space of the text stands for [\s+]. *)
Fixpoint lit (s : string) : regex :=
  match s with
  | EmptyString => REps
  | String c s' =>
      if Ascii.eqb c " "%char then RCat ws1 (lit s') else RCat (chr c) (lit s')
  end.

Fixpoint alts (rs : list regex) : regex :=
  match rs with
  | [] => RNone
  | [r] => r
  | r :: rs' => RAlt r (alts rs')
  end.

Fixpoint cats (rs : list regex) : regex :=
  match rs with
  | [] => REps
  | [r] => r
  | r :: rs' => RCat r (cats rs')
  end.

(** Raw text without the [\s+] convention for spaces. *)
Fixpoint raw (s : string) : regex :=
  match s with
  | EmptyString => REps
  | String c s' => RCat (chr c) (raw s')
  end.

(** [_TTM_KEYWORDS] *)
Definition TTM_KEYWORDS : regex :=
  alts [ cats [raw "trailing"; ws1; alts [raw "twelve"; raw "12"];
               RChr (fun c => Ascii.eqb c "-"%char || Ascii.eqb c " "%char); raw "month"];
         raw "ttm";
         cats [raw "last"; ws1; raw "12"; ws1; raw "months"];
         cats [raw "past"; ws1; raw "year"];
         cats [raw "first"; ws1; raw "half"];
         cats [raw "first"; ws1; raw "nine"; ws1; raw "months"];
         cats [raw "year"; RChr (fun c => Ascii.eqb c "-"%char || Ascii.eqb c " "%char); raw "to";
               RChr (fun c => Ascii.eqb c "-"%char || Ascii.eqb c " "%char); raw "date"];
         raw "ytd";
         cats [raw "through"; ws1; raw "the"; ws1; raw "first"; ws1; raw "half"] ].

Definition financ_e_ed : regex := cats [raw "financ"; alts [raw "e"; raw "ed"]].

(** [_CAPEX_LEASE_KEYWORDS] *)
Definition CAPEX_LEASE_KEYWORDS : regex :=
  alts [ cats [raw "including"; RStar anychar; financ_e_ed; ws1; raw "lease"; opt (raw "s")];
         cats [raw "plus"; RStar anychar; financ_e_ed; ws1; raw "lease"; opt (raw "s")];
         cats [financ_e_ed; ws1; raw "lease"] ].

(** [_TOTAL_EXPENSES_KEYWORDS] *)
Definition TOTAL_EXPENSES_KEYWORDS : regex :=
  alts [ cats [raw "total"; ws1;
               opt (cats [raw "cost"; opt (raw "s"); ws1; raw "and"; ws1]); raw "expenses"];
         cats [raw "cost"; opt (raw "s"); ws1; raw "and"; ws1; raw "expenses"] ].

Definition basis_points : regex :=
  cats [raw "basis"; ws0; raw "point"; opt (raw "s")].

Definition deleverag : regex := cats [raw "deleverag"; alts [raw "e"; raw "ed"; raw "ing"]].

(** [_BPS_CHANGE_KEYWORDS] *)
Definition BPS_CHANGE_KEYWORDS : regex :=
  cats [ alts [ cats [raw "expand"; opt (raw "ed")];
                cats [raw "contract"; opt (raw "ed")];
                cats [raw "improv"; opt (raw "ed")];
                cats [raw "declin"; opt (raw "ed")];
                cats [raw "increas"; opt (raw "ed")];
                cats [raw "decreas"; opt (raw "ed")];
                deleverag ];
         ws1; digits1; ws0; basis_points ].

(** [_BPS_CHANGE_KEYWORDS2] *)
Definition BPS_CHANGE_KEYWORDS2 : regex :=
  cats [ digits1; ws0; basis_points; ws0; opt (cats [raw "of"; ws1]);
         alts [raw "expansion"; raw "contraction"; raw "improvement"; raw "decline"; deleverag] ].

(** [SEGMENT_KEYWORDS] of verdict_engine.py *)
Definition SEGMENT_KEYWORDS : list string :=
  [ "iphone"; "in mac"; "mac,"; "mac revenue"; "ipad"; "wearable";
    "services,"; "services business"; "from services"; "to services";
    "products revenue"; "apple intelligence";
    "cloud"; "azure"; "office"; "linkedin"; "gaming"; "windows"; "xbox";
    "intelligent cloud"; "productivity and business"; "more personal computing";
    "advertising"; "youtube"; "google search"; "pixel"; "google cloud";
    "aws"; "north america"; "third-party"; "first-party";
    "international"; "subscriptions"; "device"; "greater china";
    "europe"; "japan"; "rest of asia"; "americas";
    "consumer banking"; "investment banking"; "asset management";
    "commercial banking";
    "pharmaceutical"; "medtech"; "innovative medicine";
    "sam's club"; "walmart u.s."; "walmart international";
    "automotive"; "energy generation"; "energy storage";
    "data center"; "professional visualization"; "compute & networking";
    "reality labs"; "family of apps" ].

(** [[a-z0-9]] under [re.IGNORECASE] *)
Definition is_alnum_ci (c : ascii) : bool := is_lower c || is_upper c || is_digit c.

(** [_keyword_to_regex(kw).search(s)]:
    [(?<![a-z0-9])kw(?![a-z0-9])] where each escaped space became [\s+]. *)
Definition keyword_search (kw : string) (s : string) : bool :=
  search_from is_alnum_ci is_alnum_ci true (lit kw) s.

(** Regex word characters [\w] *)
Definition is_word (c : ascii) : bool := is_alnum_ci c || Ascii.eqb c "_"%char.

(** [re.search(r"\bytd\b", s)] *)
Definition ytd_word_search (s : string) : bool :=
  search_from is_word is_word true (raw "ytd") s.

(* ------------------------------------------------------------------ *)
(** ** normalizer.py *)

Definition digit_val (c : ascii) : Z := Z.of_nat (code c - 48).

(** [(\d{4})] at the start of [s] *)
Definition four_digits (s : string) : option Z :=
  match s with
  | String a (String b (String c (String d _))) =>
      if is_digit a && is_digit b && is_digit c && is_digit d
      then Some (1000 * digit_val a + 100 * digit_val b + 10 * digit_val c + digit_val d)%Z
      else None
  | _ => None
  end.

Fixpoint drop_spaces (s : string) : string :=
  match s with
  | String c s' => if is_space c then drop_spaces s' else s
  | EmptyString => EmptyString
  end.

Definition drop_prefix (p s : string) : option string :=
  if starts_with p s then Some (substring (String.length p) (String.length s) s) else None.

(** [\s*(?:FY)?(\d{4})] at the start of [s] (greedy, with backtracking) *)
Definition ws_fy_year (s : string) : option Z :=
  let r := drop_spaces s in
  match option_map four_digits (drop_prefix "FY" r) with
  | Some (Some y) => Some y
  | _ => four_digits r
  end.

(** The part of [FISCAL\s*(?:YEAR\s*...)?(\d{4})] after ["FISCAL"] *)
Definition ws_year_year (s : string) : option Z :=
  let r := drop_spaces s in
  match option_map (fun t => four_digits (drop_spaces t)) (drop_prefix "YEAR" r) with
  | Some (Some y) => Some y
  | _ => four_digits r
  end.

(** [Q(\d)\s*(?:FY)?(\d{4})]: "Q3 2024", "Q3 FY2024" *)
Definition pat_q_n (s : string) : option (Z * Z) :=
  match s with
  | String q (String d rest) =>
      if Ascii.eqb q "Q"%char && is_digit d then
        option_map (fun y => (y, digit_val d)) (ws_fy_year rest)
      else None
  | _ => None
  end.

(** [(\d)Q\s*(?:FY)?(\d{4})]: "3Q 2024", "3Q2024" *)
Definition pat_n_q (s : string) : option (Z * Z) :=
  match s with
  | String d (String q rest) =>
      if is_digit d && Ascii.eqb q "Q"%char then
        option_map (fun y => (y, digit_val d)) (ws_fy_year rest)
      else None
  | _ => None
  end.

(** [(\d)Q(\d{2})$]: "3Q24" *)
Definition pat_n_q_yy (s : string) : option (Z * Z) :=
  match s with
  | String d (String q (String a (String b EmptyString))) =>
      if is_digit d && Ascii.eqb q "Q"%char && is_digit a && is_digit b
      then Some (2000 + 10 * digit_val a + digit_val b, digit_val d)%Z
      else None
  | _ => None
  end.

(** [FY\s*(\d{4})]: "FY 2024", "FY2024" *)
Definition pat_fy (s : string) : option (Z * Z) :=
  match drop_prefix "FY" s with
  | Some rest => option_map (fun y => (y, 0%Z)) (four_digits (drop_spaces rest))
  | None => None
  end.

(** ["FISCAL"], spaces, optionally ["YEAR"] and spaces, then [(\d{4})]: "FISCAL 2024" *)
Definition pat_fiscal (s : string) : option (Z * Z) :=
  match drop_prefix "FISCAL" s with
  | Some rest => option_map (fun y => (y, 0%Z)) (ws_year_year rest)
  | None => None
  end.

Definition first_some {A} (xs : list (option A)) : option A :=
  fold_right (fun o acc => match o with Some a => Some a | None => acc end) None xs.

(** The five [re.match] patterns of [parse_period], tried in order. *)
Definition parse_period_upper (s : string) : option (Z * Z) :=
  first_some [pat_q_n s; pat_n_q s; pat_n_q_yy s; pat_fy s; pat_fiscal s].

(** [parse_period(period_str)]; [None] stands for a missing value. *)
Definition parse_period (period_str : option string) : option (Z * Z) :=
  match period_str with
  | None => None
  | Some EmptyString => None
  | Some s => parse_period_upper (upper (strip s))
  end.

(** [SCALE_MULTIPLIERS.get(scale, 1)] *)
Definition scale_multiplier (scale : option string) : Q :=
  match scale with
  | None => 1
  | Some "ones" => 1
  | Some "thousands" => 1000
  | Some "millions" => 1000000
  | Some "billions" => 1000000000
  | Some "trillions" => 1000000000000
  | Some _ => 1
  end.

(** [normalize_claimed_value(claimed_value, unit, scale)]; a missing
    [claimed_value] is Python's [None]. *)
Definition normalize_claimed_value (claimed_value : option Q) (unit : string)
    (scale : option string) : Res (option Q) :=
  if String.eqb unit "percent" then Ok claimed_value
  else if String.eqb unit "basis_points" then
    v <- num claimed_value ;; Ok (Some (v / 100))
  else if String.eqb unit "per_share" then Ok claimed_value
  else if String.eqb unit "ratio" then Ok claimed_value
  else v <- num claimed_value ;; Ok (Some (v * scale_multiplier scale)).

(* ------------------------------------------------------------------ *)
(** ** Claim records and the fact store *)

(** An extracted claim (a JSON object).  [None] is a key absent from the
    object; the getters below apply the defaults of the [claim.get] calls. *)
Record Claim : Type := mkClaim {
  claim_id : option string;
  metric_type : option string;
  claim_type : option string;
  claimed_value : option Q;
  unit : option string;
  scale : option string;
  period : option string;
  comparison_period : option string;
  gaap_classification : option string;
  is_approximate_flag : bool;   (* claim.get("is_approximate", False) *)
  qualifiers : list string;
  metric_context : option string;
  quote_text : option string
}.

Definition get_or (o : option string) (d : string) : string :=
  match o with Some s => s | None => d end.

Definition quote_lower_of (c : Claim) : string := lower (get_or (quote_text c) "").

(** A financial fact: [{"field", "fy", "fq", "value"}] *)
Record Fact : Type := mkFact { f_field : string; f_fy : Z; f_fq : Z; f_value : Q }.

(** [fmp_data]: a dict from [(year, quarter)] to a dict from metric to
    value, with the entries ["_metric_sources"] and ["_calendar_aliases"].
    Dicts are association lists; a lookup finds the first binding. *)
Record FactStore : Type := mkStore {
  periods_data : list ((Z * Z) * list (string * Q));
  metric_sources : list ((Z * Z * string) * string);
  calendar_aliases : list ((Z * Z) * (Z * Z))
}.

Definition yq_eqb (a b : Z * Z) : bool :=
  Z.eqb (fst a) (fst b) && Z.eqb (snd a) (snd b).

Fixpoint assoc {K V} (eqb : K -> K -> bool) (k : K) (l : list (K * V)) : option V :=
  match l with
  | [] => None
  | (k', v) :: l' => if eqb k k' then Some v else assoc eqb k l'
  end.

Definition row (fmp : FactStore) (yq : Z * Z) : option (list (string * Q)) :=
  assoc yq_eqb yq (periods_data fmp).

(** [fmp_data[yq].get(metric)] guarded by [yq in fmp_data] *)
Definition cell (fmp : FactStore) (yq : Z * Z) (metric : string) : option Q :=
  match row fmp yq with
  | Some r => assoc String.eqb metric r
  | None => None
  end.

Definition ysm_eqb (a b : Z * Z * string) : bool :=
  yq_eqb (fst a) (fst b) && String.eqb (snd a) (snd b).

(** [source_map.get((year, quarter, metric), "fmp")] *)
Definition source_of (fmp : FactStore) (y q : Z) (metric : string) : string :=
  match assoc ysm_eqb (y, q, metric) (metric_sources fmp) with
  | Some s => s
  | None => "fmp"
  end.

(** [lookup_value(fmp_data, metric, year, quarter, use_calendar_alias)] *)
Definition lookup_value (fmp : FactStore) (metric : string) (year quarter : Z)
    (use_calendar_alias : bool) : option (Q * string) :=
  match cell fmp (year, quarter) metric with
  | Some v => Some (v, source_of fmp year quarter metric)
  | None =>
      if use_calendar_alias then
        match assoc yq_eqb (year, quarter) (calendar_aliases fmp) with
        | Some fyq =>
            match cell fmp fyq metric with
            | Some v => Some (v, source_of fmp (fst fyq) (snd fyq) metric ++ "_calendar_alias")
            | None => None
            end
        | None => None
        end
      else None
  end.

(* ------------------------------------------------------------------ *)
(** ** metric_catalog.py *)

Inductive CatalogEntry : Type :=
| Direct (fmp_field : string)
| Ratio (numerator denominator : string).

(** [get_catalog_entry(metric)] *)
Definition get_catalog_entry (metric : string) : option CatalogEntry :=
  match metric with
  | "revenue" => Some (Direct "revenue")
  | "eps_basic" => Some (Direct "eps_basic")
  | "eps_diluted" => Some (Direct "eps_diluted")
  | "gross_profit" => Some (Direct "gross_profit")
  | "gross_margin" => Some (Ratio "gross_profit" "revenue")
  | "operating_income" => Some (Direct "operating_income")
  | "operating_margin" => Some (Ratio "operating_income" "revenue")
  | "net_income" => Some (Direct "net_income")
  | "ebitda" => Some (Direct "ebitda")
  | "free_cash_flow" => Some (Direct "free_cash_flow")
  | "operating_cash_flow" => Some (Direct "operating_cash_flow")
  | "cost_of_revenue" => Some (Direct "cost_of_revenue")
  | "capital_expenditures" => Some (Direct "capital_expenditures")
  | "operating_expenses" => Some (Direct "operating_expenses")
  | "research_and_development" => Some (Direct "research_and_development")
  | "cash_and_marketable_securities" => Some (Direct "cash_and_marketable_securities")
  | "total_debt" => Some (Direct "total_debt")
  | "net_cash" => Some (Direct "net_cash")
  | _ => None
  end.

(** [catalog.get("fmp_field", metric)] *)
Definition catalog_field (e : CatalogEntry) (metric : string) : string :=
  match e with Direct f => f | Ratio _ _ => metric end.

(* ------------------------------------------------------------------ *)
(** ** tolerances.py *)

Record Tol : Type := mkTol { tight : Q; loose : Q }.

(** [TOLERANCES]: (tight, loose, approx) *)
Definition TOLERANCES (metric : string) : option (Q * Q * Q) :=
  match metric with
  | "revenue" => Some (5#1000, 2#100, 5#100)
  | "net_income" => Some (1#100, 3#100, 5#100)
  | "eps_basic" => Some (1#100, 2#100, 5#100)
  | "eps_diluted" => Some (1#100, 2#100, 5#100)
  | "gross_profit" => Some (5#1000, 2#100, 5#100)
  | "gross_margin" => Some (3#1000, 1#100, 2#100)
  | "operating_income" => Some (1#100, 3#100, 5#100)
  | "operating_margin" => Some (3#1000, 1#100, 2#100)
  | "ebitda" => Some (1#100, 3#100, 5#100)
  | "free_cash_flow" => Some (2#100, 5#100, 10#100)
  | "operating_cash_flow" => Some (1#100, 3#100, 5#100)
  | "cost_of_revenue" => Some (5#1000, 2#100, 5#100)
  | "capital_expenditures" => Some (2#100, 5#100, 10#100)
  | "operating_expenses" => Some (1#100, 3#100, 5#100)
  | "research_and_development" => Some (1#100, 3#100, 5#100)
  | "other" => Some (2#100, 5#100, 10#100)
  | _ => None
  end.

(** [EPS_ABSOLUTE_TOLERANCE = 0.015] *)
Definition EPS_ABSOLUTE_TOLERANCE : Q := 15#1000.
Definition GROWTH_RATE_TOLERANCE_PP : Q := 1.
Definition GROWTH_RATE_LOOSE_PP : Q := 2.

Definition APPROXIMATE_QUALIFIERS : list string :=
  ["approximately"; "about"; "roughly"; "nearly"; "around"; "close to"].

(** [is_approximate(qualifiers)] *)
Definition is_approximate (qs : list string) : bool :=
  existsb (fun q => existsb (String.eqb (lower q)) APPROXIMATE_QUALIFIERS) qs.

(** [get_tolerance(metric, is_approx)] *)
Definition get_tolerance (metric : string) (is_approx : bool) : Tol :=
  let '(t, l, a) := match TOLERANCES metric with
                    | Some x => x
                    | None => (2#100, 5#100, 10#100)
                    end in
  if is_approx then mkTol a (a * (3#2)) else mkTol t l.

(** [get_growth_tolerance(is_approx)] *)
Definition get_growth_tolerance (is_approx : bool) : Tol :=
  if is_approx then mkTol (GROWTH_RATE_TOLERANCE_PP * 2) (GROWTH_RATE_LOOSE_PP * 2)
  else mkTol GROWTH_RATE_TOLERANCE_PP GROWTH_RATE_LOOSE_PP.

(* ------------------------------------------------------------------ *)
(** ** compute.py *)

(** [compute_yoy_growth] and [compute_qoq_growth] (the same formula) *)
Definition compute_yoy_growth (current prior : Q) : option Q :=
  if Qeq_bool prior 0 then None else Some ((current - prior) / Qabs prior * 100).
Definition compute_qoq_growth (current prior : Q) : option Q :=
  if Qeq_bool prior 0 then None else Some ((current - prior) / Qabs prior * 100).

(** [compute_margin] *)
Definition compute_margin (numerator denominator : Q) : option Q :=
  if Qeq_bool denominator 0 then None else Some (numerator / denominator * 100).

Record AbsComp : Type := mkAbsComp { ac_difference : Q; ac_difference_pct : ext }.

(** [verify_absolute(claimed, actual)]; [claimed] may be [None]. *)
Definition verify_absolute (claimed : option Q) (actual : Q) : Res AbsComp :=
  c <- num claimed ;;
  let diff := c - actual in
  let pct := if Qneqb actual 0 then Fin (Qabs (diff / actual) * 100)
             else if Qneqb c 0 then Inf else Fin 0 in
  Ok (mkAbsComp diff pct).

Record GrowthComp : Type := mkGrowthComp {
  gc_actual_pct : Q; gc_difference_pp : Q; gc_abs_difference_pp : Q }.

(** [verify_growth(claimed_pct, current, prior)]; [None] is the
    [{"error": "zero_denominator"}] dict. *)
Definition verify_growth (claimed_pct : option Q) (current prior : Q) : Res (option GrowthComp) :=
  match compute_yoy_growth current prior with
  | None => Ok None
  | Some g =>
      c <- num claimed_pct ;;
      Ok (Some (mkGrowthComp g (c - g) (Qabs (c - g))))
  end.

Record MarginComp : Type := mkMarginComp {
  mc_actual_margin : Q; mc_difference_pp : Q; mc_abs_difference_pp : Q }.

(** [verify_margin(claimed_margin, numerator, denominator)] *)
Definition verify_margin (claimed_margin : option Q) (numerator denominator : Q)
    : Res (option MarginComp) :=
  match compute_margin numerator denominator with
  | None => Ok None
  | Some m =>
      c <- num claimed_margin ;;
      Ok (Some (mkMarginComp m (c - m) (Qabs (c - m))))
  end.

(* ------------------------------------------------------------------ *)
(** ** period_resolver.py *)

Record Periods : Type := mkPeriods {
  target : Z * Z;
  baseline : option (Z * Z);
  error : option string
}.

(** [if comp_period:] (a non-empty string) *)
Definition truthy (o : option string) : option string :=
  match o with Some EmptyString | None => None | Some s => Some s end.

(** [resolve_periods(claim, transcript_year, transcript_quarter)] *)
Definition resolve_periods (claim : Claim) (transcript_year transcript_quarter : Z) : Periods :=
  let '(ty, tq) := match parse_period (period claim) with
                   | Some p => p
                   | None => (transcript_year, transcript_quarter)
                   end in
  if Z.eqb tq 0 then mkPeriods (ty, 0%Z) None (Some "full_year")
  else
    let ct := get_or (claim_type claim) "" in
    if String.eqb ct "yoy_growth" then
      match option_map (fun cp => parse_period (Some cp)) (truthy (comparison_period claim)) with
      | Some (Some b) => mkPeriods (ty, tq) (Some b) None
      | _ => mkPeriods (ty, tq) (Some (ty - 1, tq)%Z) None
      end
    else if String.eqb ct "qoq_growth" then
      if Z.eqb tq 1 then mkPeriods (ty, tq) (Some (ty - 1, 4)%Z) None
      else mkPeriods (ty, tq) (Some (ty, tq - 1)%Z) None
    else mkPeriods (ty, tq) None None.

(* ------------------------------------------------------------------ *)
(** ** Verdict records *)

Inductive Label : Type :=
| Verified
| CloseMatch
| Mismatch
| Misleading
| Unverifiable.

Definition label_eqb (a b : Label) : bool :=
  match a, b with
  | Verified, Verified | CloseMatch, CloseMatch | Mismatch, Mismatch
  | Misleading, Misleading | Unverifiable, Unverifiable => true
  | _, _ => false
  end.

(** A value interpolated into an f-string. *)
Inductive Arg : Type :=
| AStr (s : string)
| ANum (x : ext)
| AInt (z : Z).

(** An f-string: its literal template (with [{}] holes) and the values
    interpolated into it. *)
Record Piece : Type := piece { template : string; args : list Arg }.

Definition txt (s : string) : Piece := piece s [].

(** An entry of [computation_steps]: its ["step"] and ["formula"] texts,
    its ["result"] and its further numeric keys. *)
Record Step : Type := mkStep {
  st_step : Piece; st_formula : Piece; st_result : ext; st_extra : list (string * ext) }.

(** The verdict dict built by [verify_single_claim].  [v_explanation] is the
    explanation text as the list of f-strings it is the concatenation of;
    [v_verdict = None] is the ["verdict"] key not yet set. *)
Record Verdict : Type := mkVerdict {
  v_claim_id : string;
  v_claimed_value : option Q;
  v_actual_value : option Q;
  v_difference : option Q;
  v_difference_pct : option ext;
  v_tolerance_used : option Q;
  v_computation_detail : option Piece;
  v_computation_steps : list Step;
  v_financial_facts_used : list Fact;
  v_evidence_source : option string;
  v_flags : list string;
  v_misleading_flags : list string;
  v_misleading_reasons : list Piece;
  v_explanation : list Piece;
  v_verdict : option Label
}.

(** Assignments [result[key] = value]. *)
Definition set_verdict (l : Label) (r : Verdict) : Verdict :=
  mkVerdict (v_claim_id r) (v_claimed_value r) (v_actual_value r) (v_difference r)
    (v_difference_pct r) (v_tolerance_used r) (v_computation_detail r)
    (v_computation_steps r) (v_financial_facts_used r) (v_evidence_source r) (v_flags r)
    (v_misleading_flags r) (v_misleading_reasons r) (v_explanation r) (Some l).

Definition set_explanation (e : list Piece) (r : Verdict) : Verdict :=
  mkVerdict (v_claim_id r) (v_claimed_value r) (v_actual_value r) (v_difference r)
    (v_difference_pct r) (v_tolerance_used r) (v_computation_detail r)
    (v_computation_steps r) (v_financial_facts_used r) (v_evidence_source r) (v_flags r)
    (v_misleading_flags r) (v_misleading_reasons r) e (v_verdict r).

Definition set_flags (fl : list string) (r : Verdict) : Verdict :=
  mkVerdict (v_claim_id r) (v_claimed_value r) (v_actual_value r) (v_difference r)
    (v_difference_pct r) (v_tolerance_used r) (v_computation_detail r)
    (v_computation_steps r) (v_financial_facts_used r) (v_evidence_source r) fl
    (v_misleading_flags r) (v_misleading_reasons r) (v_explanation r) (v_verdict r).

(** [result["actual_value"]], [result["evidence_source"]] and
    [result["financial_facts_used"].extend(facts)] *)
Definition set_evidence (actual : option Q) (src : option string) (facts : list Fact)
    (r : Verdict) : Verdict :=
  mkVerdict (v_claim_id r) (v_claimed_value r) actual (v_difference r)
    (v_difference_pct r) (v_tolerance_used r) (v_computation_detail r)
    (v_computation_steps r) (v_financial_facts_used r ++ facts) src (v_flags r)
    (v_misleading_flags r) (v_misleading_reasons r) (v_explanation r) (v_verdict r).

(** [result["difference"]], [["difference_pct"]], [["tolerance_used"]],
    [["computation_detail"]] and [result["computation_steps"].append(step)] *)
Definition set_comparison (d : Q) (dp : ext) (tol : Q) (detail : Piece) (steps : list Step)
    (r : Verdict) : Verdict :=
  mkVerdict (v_claim_id r) (v_claimed_value r) (v_actual_value r) (Some d)
    (Some dp) (Some tol) (Some detail)
    (v_computation_steps r ++ steps) (v_financial_facts_used r) (v_evidence_source r) (v_flags r)
    (v_misleading_flags r) (v_misleading_reasons r) (v_explanation r) (v_verdict r).

Definition set_misleading (fl : list string) (rs : list Piece) (r : Verdict) : Verdict :=
  mkVerdict (v_claim_id r) (v_claimed_value r) (v_actual_value r) (v_difference r)
    (v_difference_pct r) (v_tolerance_used r) (v_computation_detail r)
    (v_computation_steps r) (v_financial_facts_used r) (v_evidence_source r) (v_flags r)
    fl rs (v_explanation r) (v_verdict r).

(** [result["computation_steps"].append(step)] *)
Definition add_step (st : Step) (r : Verdict) : Verdict :=
  mkVerdict (v_claim_id r) (v_claimed_value r) (v_actual_value r) (v_difference r)
    (v_difference_pct r) (v_tolerance_used r) (v_computation_detail r)
    (v_computation_steps r ++ [st]) (v_financial_facts_used r) (v_evidence_source r) (v_flags r)
    (v_misleading_flags r) (v_misleading_reasons r) (v_explanation r) (v_verdict r).

Definition add_flag (f : string) (r : Verdict) : Verdict := set_flags (v_flags r ++ [f]) r.

(** [result["verdict"] = "unverifiable"; result["explanation"] = e;
    result["flags"].append(f) for f in fl; return result] *)
Definition unverifiable (e : Piece) (fl : list string) (r : Verdict) : Res Verdict :=
  Ok (set_flags (v_flags r ++ fl) (set_explanation [e] (set_verdict Unverifiable r))).

(** The initial [result] dict. *)
Definition init_result (claim : Claim) : Verdict :=
  mkVerdict (get_or (claim_id claim) "") (claimed_value claim) None None None None None
    [] [] None [] [] [] [] None.

(** The tight/loose bands written out at each comparison of the engine:
    [if d <= tight: verified elif d <= loose: close_match else: mismatch] *)
Definition band (d : ext) (t : Tol) : Label :=
  if ext_le d (tight t) then Verified
  else if ext_le d (loose t) then CloseMatch
  else Mismatch.

(* ------------------------------------------------------------------ *)
(** ** Periods and aggregation (verdict_engine.py) *)

Definition Z_to_string (z : Z) : string := NilEmpty.string_of_int (Z.to_int z).

(** [f"Q{quarter} {year}"] *)
Definition period_label (y q : Z) : string := "Q" ++ Z_to_string q ++ " " ++ Z_to_string y.

(** [_previous_quarter(year, quarter)] *)
Definition previous_quarter (y q : Z) : Z * Z :=
  if Z.eqb q 1 then (y - 1, 4)%Z else (y, q - 1)%Z.

(** [if x not in xs: xs.append(x)] *)
Definition append_new (x : string) (xs : list string) : list string :=
  if existsb (String.eqb x) xs then xs else xs ++ [x].

Record SumResult : Type := mkSum {
  sum_total : option Q;
  sum_sources : list string;
  sum_facts : list Fact;
  sum_missing : list string
}.

(** The loop of [_sum_metric_for_periods]: (total, sources, facts, missing). *)
Fixpoint sum_loop (fmp : FactStore) (metric : string) (alias : bool) (periods : list (Z * Z))
    (total : Q) (sources : list string) (facts : list Fact) (missing : list string)
    : Q * list string * list Fact * list string :=
  match periods with
  | [] => (total, sources, facts, missing)
  | (y, q) :: ps =>
      match lookup_value fmp metric y q alias with
      | None => sum_loop fmp metric alias ps total sources facts (missing ++ [period_label y q])
      | Some (v, src) =>
          sum_loop fmp metric alias ps (total + v) (append_new src sources)
            (facts ++ [mkFact metric y q v]) missing
      end
  end.

(** [_sum_metric_for_periods(fmp_data, metric, periods, use_calendar_alias)] *)
Definition sum_metric_for_periods (fmp : FactStore) (metric : string) (periods : list (Z * Z))
    (alias : bool) : SumResult :=
  let '(total, sources, facts, missing) := sum_loop fmp metric alias periods 0 [] [] [] in
  match missing with
  | [] => mkSum (Some total) sources facts []
  | _ => mkSum None sources facts missing
  end.

(** [_full_year_periods(year)] *)
Definition full_year_periods (y : Z) : list (Z * Z) := [(y, 1); (y, 2); (y, 3); (y, 4)]%Z.

(** [_ttm_periods(target_year, target_quarter)] *)
Definition ttm_periods (y q : Z) : list (Z * Z) :=
  let p1 := previous_quarter y q in
  let p2 := previous_quarter (fst p1) (snd p1) in
  let p3 := previous_quarter (fst p2) (snd p2) in
  [(y, q); p1; p2; p3].

Definition in_1_4 (q : Z) : bool := Z.leb 1 q && Z.leb q 4.

(** [[(target_year, q) for q in range(1, target_quarter + 1)]] *)
Definition ytd_periods (y q : Z) : list (Z * Z) :=
  map (fun i => (y, Z.of_nat i)) (seq 1 (Z.to_nat q)).

(** [_determine_multiperiod_periods(quote_lower, target_year, target_quarter)] *)
Definition determine_multiperiod_periods (quote_lower : string) (y q : Z)
    : option (list (Z * Z) * string) :=
  if any_in ["trailing twelve"; "trailing 12"; "ttm"; "last 12 months"; "past year"] quote_lower
  then Some (ttm_periods y q, "TTM")
  else if contains "first half" quote_lower then Some ([(y, 1); (y, 2)]%Z, "first_half")
  else if contains "first nine months" quote_lower
  then Some ([(y, 1); (y, 2); (y, 3)]%Z, "first_nine_months")
  else if contains "year-to-date" quote_lower || ytd_word_search quote_lower then
    if in_1_4 q then Some (ytd_periods y q, "ytd") else None
  else None.

(** [_sum_full_year_metric(fmp_data, metric, year, use_calendar_alias)] *)
Definition sum_full_year_metric (fmp : FactStore) (metric : string) (y : Z) (alias : bool)
    : SumResult :=
  sum_metric_for_periods fmp metric (full_year_periods y) alias.

(** [list(dict.fromkeys(xs))]: drop later duplicates *)
Definition dedup (xs : list string) : list string := fold_left (fun acc x => append_new x acc) xs [].

Record FYMargin : Type := mkFYMargin {
  fym_margin : option Q; fym_sources : list string; fym_facts : list Fact;
  fym_missing : list string; fym_num : option Q; fym_den : option Q }.

(** [_compute_full_year_margin(fmp_data, numerator_metric, denominator_metric, year)] *)
Definition compute_full_year_margin (fmp : FactStore) (num_m den_m : string) (y : Z)
    (alias : bool) : FYMargin :=
  let n := sum_full_year_metric fmp num_m y alias in
  let d := sum_full_year_metric fmp den_m y alias in
  let missing := dedup (sum_missing n ++ sum_missing d)%list in
  let sources := dedup (sum_sources n ++ sum_sources d)%list in
  let facts := (sum_facts n ++ sum_facts d)%list in
  match sum_total n, sum_total d with
  | Some ns, Some ds =>
      if Qneqb ds 0 then mkFYMargin (Some (ns / ds * 100)) sources facts [] (Some ns) (Some ds)
      else mkFYMargin None sources facts missing (Some ns) (Some ds)
  | _, _ => mkFYMargin None sources facts missing (sum_total n) (sum_total d)
  end.

Definition BPS_NEGATIVE_WORDS : list string :=
  ["down"; "decline"; "decrease"; "decreased"; "contraction"; "contracted"].
Definition BPS_POSITIVE_WORDS : list string :=
  ["up"; "increase"; "increased"; "expansion"; "expanded"; "improvement"; "improved"].
Definition SEQUENTIAL_WORDS : list string :=
  ["sequential"; "sequentially"; "qoq"; "quarter over quarter"; "versus the prior quarter"].
Definition YOY_WORDS : list string :=
  ["year over year"; "yoy"; "versus last year"; "from a year ago"].

Definition MONTH_QUARTER_KEYWORDS : list string :=
  [ "january quarter"; "february quarter"; "march quarter";
    "april quarter"; "may quarter"; "june quarter";
    "july quarter"; "august quarter"; "september quarter";
    "october quarter"; "november quarter"; "december quarter" ].

Definition ANNUAL_SUM_METRICS : list string :=
  [ "revenue"; "net_income"; "gross_profit"; "operating_income"; "ebitda";
    "free_cash_flow"; "operating_cash_flow"; "cost_of_revenue";
    "capital_expenditures"; "operating_expenses"; "research_and_development" ].

Definition mem (x : string) (xs : list string) : bool := existsb (String.eqb x) xs.

(** [s.replace("_", " ")] *)
Definition spaced (s : string) : string :=
  str_map (fun c => if Ascii.eqb c "_"%char then " "%char else c) s.

(** [_signed_bps_value(claimed_bps, quote_lower)] *)
Definition signed_bps_value (claimed_bps : option Q) (quote_lower : string) : Res Q :=
  c <- num claimed_bps ;;
  let base := Qabs c in
  if any_in BPS_NEGATIVE_WORDS quote_lower then Ok (- base)
  else if any_in BPS_POSITIVE_WORDS quote_lower then Ok base
  else Ok c.

(** [_resolve_margin_change_baseline(claim, target_year, target_quarter, quote_lower)] *)
Definition resolve_margin_change_baseline (claim : Claim) (y q : Z) (quote_lower : string)
    : option (Z * Z) :=
  let from_comp :=
    match option_map (fun cp => parse_period (Some cp)) (truthy (comparison_period claim)) with
    | Some (Some p) => if in_1_4 (snd p) then Some p else None
    | _ => None
    end in
  match from_comp with
  | Some p => Some p
  | None =>
      if negb (in_1_4 q) then None
      else if any_in YOY_WORDS quote_lower then Some (y - 1, q)%Z
      else if any_in SEQUENTIAL_WORDS quote_lower then Some (previous_quarter y q)
      else Some (previous_quarter y q)
  end.

Definition Qlt (a b : Q) : bool := negb (Qle_bool b a).
Definition Qgt (a b : Q) : bool := Qlt b a.

(** [_definition_gap_check(metric, normalized, actual_value, quote_lower)];
    [normalized] may be [None]. *)
Definition definition_gap_check (metric : string) (normalized : option Q) (actual_value : Q)
    (quote_lower : string) : Res (option (string * Piece)) :=
  if Qeq_bool actual_value 0 then Ok None else
  n <- num normalized ;;
  let ratio := n / actual_value in
  let pct_diff := Qabs (n - actual_value) / Qabs actual_value in
  if mem metric ["cash_and_marketable_securities"; "total_debt"; "net_cash"]
     && Qgt pct_diff (5#100) then
    Ok (Some ("balance_sheet_definition_gap",
              piece "Claimed {} ({:,.0f}) differs from available data ({:,.0f}) by {:.1f}%. Companies may use definitions that include or exclude items (for example, marketable securities classes, short-term borrowings, or lease-related obligations) not aligned with this dataset."
                [AStr (spaced metric); ANum (Fin n); ANum (Fin actual_value); ANum (Fin (pct_diff * 100))]))
  else if String.eqb metric "revenue" && Qlt (1#2) ratio && Qlt ratio (8#10)
          && any_in ["net revenue"; "managed revenue"; "net interest"] quote_lower then
    Ok (Some ("bank_net_vs_gross_revenue",
              piece "This claim references net revenue (${:.1f}B) which excludes provisions and interest expense. Our data source reports gross revenue (${:.1f}B). Net and gross revenue are different measures for financial institutions."
                [ANum (Fin (n / 1000000000)); ANum (Fin (actual_value / 1000000000))]))
  else if String.eqb metric "revenue" && Qlt (1#2) ratio && Qlt ratio (8#10) then
    Ok (Some ("revenue_definition_mismatch",
              piece "Claimed revenue (${:.1f}B) is {:.0f}% of data source revenue (${:.1f}B). This likely reflects a difference in revenue definition (e.g., net revenue vs gross revenue for financial institutions)."
                [ANum (Fin (n / 1000000000)); ANum (Fin (ratio * 100)); ANum (Fin (actual_value / 1000000000))]))
  else if Qgt ratio (13#10) then
    Ok (Some ("value_exceeds_actual",
              piece "Claimed value ({:,.0f}) is {:.1f}x the reported {} ({:,.0f}). This likely reflects a different time period (TTM, annual, or fiscal year offset) or includes items beyond this metric."
                [ANum (Fin n); ANum (Fin ratio); AStr (spaced metric); ANum (Fin actual_value)]))
  else if mem metric ["capital_expenditures"; "capital_expenditure"] && Qlt (105#100) ratio
          && Qlt ratio (15#10) then
    Ok (Some ("capex_definition_gap",
              piece "Claimed CapEx (${:.1f}B) exceeds reported cash CapEx (${:.1f}B) by {:.0f}%. Companies often report CapEx including finance leases on calls, while data sources report cash CapEx only."
                [ANum (Fin (n / 1000000000)); ANum (Fin (actual_value / 1000000000)); ANum (Fin ((ratio - 1) * 100))]))
  else if mem metric ["capital_expenditures"; "capital_expenditure"] && Qlt (7#10) ratio
          && Qlt ratio (95#100) then
    Ok (Some ("capex_definition_gap",
              piece "Claimed CapEx (${:.1f}B) is {:.0f}% below reported CapEx (${:.1f}B). This likely reflects a definition difference (for example, net vs gross presentation or inclusion/exclusion of specific asset classes)."
                [ANum (Fin (n / 1000000000)); ANum (Fin ((1 - ratio) * 100)); ANum (Fin (actual_value / 1000000000))]))
  else if String.eqb metric "free_cash_flow" && Qlt (8#10) ratio && Qlt ratio (96#100) then
    Ok (Some ("fcf_definition_gap",
              piece "Claimed FCF (${:.1f}B) is {:.0f}% below reported FCF (${:.1f}B). Companies sometimes report FCF net of finance lease principal payments, resulting in a lower figure than the standard definition."
                [ANum (Fin (n / 1000000000)); ANum (Fin ((1 - ratio) * 100)); ANum (Fin (actual_value / 1000000000))]))
  else Ok None.

(** [_remap_other_metric(metric, quote_lower)] *)
Definition remap_other_metric (metric quote_lower : string) : string :=
  if negb (String.eqb metric "other") then metric
  else if contains "net cash" quote_lower then "net_cash"
  else if contains "cash and marketable securities" quote_lower then "cash_and_marketable_securities"
  else if contains "cash and investments" quote_lower then "cash_and_marketable_securities"
  else if contains "cash and cash equivalents" quote_lower then "cash_and_marketable_securities"
  else if contains "total debt" quote_lower || contains " in debt" quote_lower then "total_debt"
  else if contains "free cash flow" quote_lower then "free_cash_flow"
  else if contains "operating cash flow" quote_lower || contains "cash flow from operations" quote_lower
  then "operating_cash_flow"
  else if contains "capital expenditures" quote_lower || contains "capital expenditure" quote_lower
          || contains "capex" quote_lower then "capital_expenditures"
  else if contains "research and development" quote_lower || contains "r&d" quote_lower
  then "research_and_development"
  else metric.

(** [_is_segment_claim(claim)] *)
Definition is_segment_claim (claim : Claim) : bool :=
  let ctx := lower (strip (get_or (metric_context claim) "")) in
  if negb (String.eqb ctx "") && negb (mem ctx ["total"; "company"; "overall"; "consolidated"; ""])
  then true
  else existsb (fun kw => keyword_search kw (quote_lower_of claim)) SEGMENT_KEYWORDS.

(** [_should_use_calendar_alias(claim, transcript_year, transcript_quarter)] *)
Definition should_use_calendar_alias (claim : Claim) (ty tq : Z) : bool :=
  match parse_period (period claim) with
  | None => false
  | Some p =>
      if yq_eqb p (ty, tq) then false
      else any_in MONTH_QUARTER_KEYWORDS (quote_lower_of claim)
  end.

(* ------------------------------------------------------------------ *)
(** ** misleading/heuristics.py *)

Definition claimed_or_zero (c : Claim) : Q :=
  match claimed_value c with Some v => v | None => 0 end.

Definition has_row (fmp : FactStore) (yq : Z * Z) : bool :=
  match row fmp yq with Some _ => true | None => false end.

(** [check_cherry_picking_timeframe] *)
Definition check_cherry_picking_timeframe (claim : Claim) (fmp : FactStore) (y q : Z)
    : list string * list Piece :=
  let ct := get_or (claim_type claim) "" in
  let cv := claimed_or_zero claim in
  let metric := get_or (metric_type claim) "" in
  if negb (String.eqb ct "qoq_growth") || Qle_bool cv 0 then ([], []) else
  if negb (has_row fmp (y, q) && has_row fmp (y - 1, q)%Z) then ([], []) else
  match cell fmp (y, q) metric, cell fmp (y - 1, q)%Z metric with
  | Some cur, Some prior =>
      match compute_yoy_growth cur prior with
      | Some g =>
          if Qlt g (-5) then
            (["cherry_picking_timeframe"],
             [piece "Cited positive QoQ growth ({:.1f}%) while YoY {} declined {:.1f}%. May be selectively highlighting favorable comparison."
                [ANum (Fin cv); AStr metric; ANum (Fin g)]])
          else ([], [])
      | None => ([], [])
      end
  | _, _ => ([], [])
  end.

Definition NONGAAP_KEYWORDS : list string :=
  ["adjusted"; "non-gaap"; "non gaap"; "excluding"; "pro forma"].

(** [check_gaap_nongaap_mixing] *)
Definition check_gaap_nongaap_mixing (claim : Claim) (fmp : FactStore) (y q : Z)
    : list string * list Piece :=
  let gaap := get_or (gaap_classification claim) "unknown" in
  let metric := get_or (metric_type claim) "" in
  let ct := get_or (claim_type claim) "" in
  let quote := quote_lower_of claim in
  if negb (String.eqb gaap "unknown") || negb (String.eqb ct "absolute") then ([], []) else
  if negb (mem metric ["eps_basic"; "eps_diluted"; "ebitda"]) then ([], []) else
  match claimed_value claim with
  | None => ([], [])
  | Some cv =>
      match cell fmp (y, q) metric with
      | None => ([], [])
      | Some g =>
          if Qeq_bool g 0 then ([], []) else
          let pct_diff := (cv - g) / Qabs g in
          if Qgt pct_diff (15#100) && negb (any_in NONGAAP_KEYWORDS quote) then
            (["gaap_nongaap_mixing"],
             [piece "Claimed {} value ({:.2f}) is {:.0f}% higher than GAAP ({:.2f}) without non-GAAP disclosure in quote."
                [AStr metric; ANum (Fin cv); ANum (Fin (pct_diff * 100)); ANum (Fin g)]])
          else ([], [])
      end
  end.

(** [check_low_base_exaggeration] *)
Definition check_low_base_exaggeration (claim : Claim) (fmp : FactStore) (y q : Z)
    : list string * list Piece :=
  let ct := get_or (claim_type claim) "" in
  let cv := claimed_or_zero claim in
  let metric := get_or (metric_type claim) "" in
  if negb (mem ct ["yoy_growth"; "qoq_growth"]) then ([], []) else
  if Qlt (Qabs cv) 50 then ([], []) else
  let b := if String.eqb ct "yoy_growth" then (y - 1, q)%Z
           else if Z.gtb q 1 then (y, q - 1)%Z else (y - 1, 4)%Z in
  if negb (has_row fmp b && has_row fmp (y, q)) then ([], []) else
  match cell fmp b metric, cell fmp (y, q) "revenue" with
  | Some bv, Some rev =>
      if Qeq_bool rev 0 then ([], []) else
      let base_ratio := Qabs bv / Qabs rev in
      if Qlt base_ratio (1#100) then
        (["low_base_exaggeration"],
         [piece "{:.0f}% growth on base of {:,.0f} which is <1% of revenue ({:,.0f}). Small denominator exaggerates significance."
            [ANum (Fin (Qabs cv)); ANum (Fin bv); ANum (Fin rev)]])
      else ([], [])
  | _, _ => ([], [])
  end.

(** [run_all_heuristics] *)
Definition run_all_heuristics (claim : Claim) (fmp : FactStore) (y q : Z)
    : list string * list Piece :=
  let '(f1, r1) := check_cherry_picking_timeframe claim fmp y q in
  let '(f2, r2) := check_gaap_nongaap_mixing claim fmp y q in
  let '(f3, r3) := check_low_base_exaggeration claim fmp y q in
  ((f1 ++ f2 ++ f3)%list, (r1 ++ r2 ++ r3)%list).

(** [_apply_misleading_checks(result, claim, fmp_data, target_year, target_quarter)];
    the text appended to the explanation is [" HOWEVER: "] followed by the
    reasons (joined by ["; "]). *)
Definition apply_misleading_checks (r : Verdict) (claim : Claim) (fmp : FactStore) (y q : Z)
    : Res Verdict :=
  match v_verdict r with
  | Some Unverifiable => Ok r
  | _ =>
      let '(fl, rs) := run_all_heuristics claim fmp y q in
      match fl with
      | [] => Ok r
      | _ =>
          let r1 := set_misleading fl rs r in
          match v_verdict r1 with
          | Some Verified | Some CloseMatch =>
              Ok (set_explanation (v_explanation r1 ++ [txt " HOWEVER: "] ++ rs)%list
                    (set_verdict Misleading r1))
          | _ => Ok r1
          end
      end
  end.

(* ------------------------------------------------------------------ *)
(** ** verify_single_claim *)

(** The local variables of [verify_single_claim] once the periods are
    resolved and the catalog entry is found. *)
Record Ctx : Type := mkCtx {
  c_claim : Claim;
  c_ticker : string;
  c_transcript_quarter : Z;
  c_fmp : FactStore;
  c_metric : string;
  c_claim_type : string;
  c_claimed : option Q;
  c_unit : string;
  c_scale : option string;
  c_gaap : string;
  c_approx : bool;
  c_quote : string;
  c_multiperiod : bool;
  c_bps_margin_change : bool;
  c_periods : Periods;
  c_year : Z;
  c_quarter : Z;
  c_alias : bool;
  c_catalog : CatalogEntry
}.

Definition SEGMENT_METRICS : list string :=
  [ "revenue"; "cost_of_revenue"; "gross_profit"; "operating_income"; "net_income";
    "operating_expenses"; "research_and_development" ].

Definition VALUE_CHECK_METRICS : list string :=
  [ "revenue"; "cost_of_revenue"; "gross_profit"; "operating_income"; "operating_expenses";
    "capital_expenditures"; "net_income"; "free_cash_flow"; "operating_cash_flow" ].

(** [(claim.get("metric_context") or "segment").strip()] *)
Definition ctx_label (claim : Claim) : string :=
  match metric_context claim with
  | None | Some EmptyString => "segment"
  | Some s => strip s
  end.

Definition join_sources (srcs : list string) : string :=
  match srcs with
  | [] => "fmp"
  | s :: rest => fold_left (fun acc x => acc ++ ", " ++ x) rest s
  end.

Definition join_missing (ms : list string) : string :=
  match ms with
  | [] => ""
  | s :: rest => fold_left (fun acc x => acc ++ ", " ++ x) rest s
  end.

Definition missing_piece (ms : list string) : Piece :=
  piece "Missing data for period(s): {}" [AStr (join_missing ms)].

(** [abs(diff) / abs(actual) if actual != 0 else float("inf")] *)
Definition rel_diff (diff actual : Q) : ext :=
  if Qneqb actual 0 then Fin (Qabs diff / Qabs actual) else Inf.

(** The comparison of a claimed value against an aggregate (TTM, YTD,
    first half, first nine months, full year): shared text of both
    aggregation blocks of the absolute branch. *)
Definition compare_aggregate (x : Ctx) (r : Verdict) (normalized : option Q) (total : Q)
    (sr : SumResult) (label_text : string) (formula : Piece) (expl : Piece) : Res Verdict :=
  let r := set_evidence (Some total) (Some (join_sources (sum_sources sr))) (sum_facts sr) r in
  gap <- definition_gap_check (c_metric x) normalized total (c_quote x) ;;
  match gap with
  | Some (flag, e) => unverifiable e [flag] r
  | None =>
      comp <- verify_absolute normalized total ;;
      n <- num normalized ;;
      let tol := get_tolerance (c_metric x) (c_approx x) in
      let pct := rel_diff (ac_difference comp) total in
      let r := set_verdict (band pct tol) r in
      let r := set_comparison (ac_difference comp) (ac_difference_pct comp) (tight tol)
                 (piece "{} {}: claimed {:,.2f} vs actual {:,.2f}. Diff: {:.2f}% (threshold: {:.1f}%)."
                    [AStr label_text; AStr (spaced (c_metric x)); ANum (Fin n); ANum (Fin total);
                     ANum (ac_difference_pct comp); ANum (Fin (tight tol * 100))])
                 [mkStep (piece "{} aggregation" [AStr label_text]) formula (Fin total) []] r in
      let r := set_explanation [expl] r in
      apply_misleading_checks r (c_claim x) (c_fmp x) (c_year x) (c_quarter x)
  end.

(** TTM / YTD / first-half / first-nine-months block of the absolute branch. *)
Definition absolute_multiperiod (x : Ctx) (r : Verdict) (normalized : option Q) : Res Verdict :=
  if negb (mem (c_metric x) ANNUAL_SUM_METRICS) then
    unverifiable (txt "This multi-period claim references a metric that is not supported for deterministic aggregation.")
      ["ttm_or_multiperiod"] r
  else
  let anchor := if in_1_4 (c_quarter x) then c_quarter x else c_transcript_quarter x in
  match determine_multiperiod_periods (c_quote x) (c_year x) anchor with
  | None =>
      unverifiable (txt "This claim references a trailing twelve-month (TTM), year-to-date, or multi-period figure. Could not determine exact aggregation window.")
        ["ttm_or_multiperiod"] r
  | Some (ps, label) =>
      let sr := sum_metric_for_periods (c_fmp x) (catalog_field (c_catalog x) (c_metric x)) ps (c_alias x) in
      match sum_total sr with
      | None => unverifiable (missing_piece (sum_missing sr)) ["ttm_or_multiperiod"] r
      | Some total =>
          compare_aggregate x r normalized total sr (upper (spaced label))
            (piece "{}" [AStr (join_missing (map (fun p => period_label (fst p) (snd p)) ps))])
            (piece "{} claim verified by summing quarterly {} over {} quarters."
               [AStr (upper (spaced label)); AStr (spaced (c_metric x)); AInt (Z.of_nat (length ps))])
      end
  end.

(** Full-year block of the absolute branch ([target_quarter == 0]). *)
Definition absolute_full_year (x : Ctx) (r : Verdict) (normalized : option Q) : Res Verdict :=
  if negb (mem (c_metric x) ANNUAL_SUM_METRICS) then
    Ok (set_explanation [piece "Full-year verification is not supported for metric '{}'." [AStr (c_metric x)]]
          (set_verdict Unverifiable r))
  else
  let sr := sum_full_year_metric (c_fmp x) (catalog_field (c_catalog x) (c_metric x)) (c_year x) (c_alias x) in
  match sum_total sr with
  | None => Ok (set_explanation [missing_piece (sum_missing sr)] (set_verdict Unverifiable r))
  | Some total =>
      compare_aggregate x r normalized total sr "Full-year"
        (piece "Q1 {} + Q2 {} + Q3 {} + Q4 {}" [AInt (c_year x); AInt (c_year x); AInt (c_year x); AInt (c_year x)])
        (piece "Full-year claim verified against sum of Q1-Q4 {} {}." [AInt (c_year x); AStr (spaced (c_metric x))])
  end.

(** Numeric comparison of the single-quarter absolute path (the EPS
    absolute tolerance first, then the generic bands): the label it
    assigns and whether it returned through the EPS branch. *)
Definition absolute_numeric_verdict (metric : string) (approx : bool) (n actual_value : Q)
    : Label * bool :=
  if mem metric ["eps_basic"; "eps_diluted"]
     && Qle_bool (Qabs (n - actual_value)) EPS_ABSOLUTE_TOLERANCE then (Verified, true)
  else (band (rel_diff (n - actual_value) actual_value) (get_tolerance metric approx), false).

(** Single-quarter absolute comparison, from the catalog lookup of the
    target quarter to [_apply_misleading_checks]. *)
Definition absolute_single (x : Ctx) (r : Verdict) (normalized : option Q) : Res Verdict :=
  let metric := c_metric x in
  let fmp_field := catalog_field (c_catalog x) metric in
  match lookup_value (c_fmp x) fmp_field (c_year x) (c_quarter x) (c_alias x) with
  | None =>
      unverifiable (piece "No {} data found for {} Q{} {}."
                      [AStr metric; AStr (c_ticker x); AInt (c_quarter x); AInt (c_year x)]) [] r
  | Some (actual_value, source) =>
  let fact := mkFact metric (c_year x) (c_quarter x) actual_value in
  gap <- definition_gap_check metric normalized actual_value (c_quote x) ;;
  match gap with
  | Some (flag, e) =>
      unverifiable e [flag] (set_evidence (Some actual_value) (Some source) [fact] r)
  | None =>
  n <- num normalized ;;
  if String.eqb metric "revenue" && Qlt 0 actual_value
     && Qlt (1#2) (n / actual_value) && Qlt (n / actual_value) (8#10)
     && any_in ["net revenue"; "managed revenue"; "net interest"] (c_quote x) then
    unverifiable (piece "This claim references net revenue (${:.1f}B) which excludes provisions and interest expense. Our data source reports gross revenue (${:.1f}B). Net and gross revenue are different measures for financial institutions."
                    [ANum (Fin (n / 1000000000)); ANum (Fin (actual_value / 1000000000))])
      ["bank_net_vs_gross_revenue"] r
  else if mem metric VALUE_CHECK_METRICS && Qlt 0 actual_value && Qlt n (actual_value * (1#2)) then
    unverifiable (piece "Claimed {:,.0f} is much less than total {} {:,.0f} -- likely a segment, subset, or incremental amount."
                    [ANum (Fin n); AStr (spaced metric); ANum (Fin actual_value)])
      ["segment_claim_by_value"] r
  else if String.eqb metric "revenue" && Qlt 0 actual_value
          && Qlt (1#2) (n / actual_value) && Qlt (n / actual_value) (8#10) then
    unverifiable (piece "Claimed revenue (${:.1f}B) is {:.0f}% of data source revenue (${:.1f}B). This likely reflects a difference in revenue definition (e.g., net revenue vs gross revenue for financial institutions)."
                    [ANum (Fin (n / 1000000000)); ANum (Fin (n / actual_value * 100)); ANum (Fin (actual_value / 1000000000))])
      ["revenue_definition_mismatch"] r
  else if Qlt 0 actual_value && Qgt n (actual_value * (13#10)) then
    unverifiable (piece "Claimed value ({:,.0f}) is {:.1f}x the reported {} ({:,.0f}). This likely reflects a different time period (TTM, annual, or fiscal year offset) or includes items beyond this metric."
                    [ANum (Fin n); ANum (Fin (n / actual_value)); AStr (spaced metric); ANum (Fin actual_value)])
      ["value_exceeds_actual"] r
  else if mem metric ["capital_expenditures"; "capital_expenditure"] && Qlt 0 actual_value
          && Qlt (105#100) (n / actual_value) && Qlt (n / actual_value) (15#10) then
    unverifiable (piece "Claimed CapEx (${:.1f}B) exceeds reported cash CapEx (${:.1f}B) by {:.0f}%. Companies often report CapEx including finance leases on calls, while data sources report cash CapEx only."
                    [ANum (Fin (n / 1000000000)); ANum (Fin (actual_value / 1000000000)); ANum (Fin ((n / actual_value - 1) * 100))])
      ["capex_definition_gap"] r
  else if String.eqb metric "free_cash_flow" && Qlt 0 actual_value
          && Qlt (8#10) (n / actual_value) && Qlt (n / actual_value) (96#100) then
    unverifiable (piece "Claimed FCF (${:.1f}B) is {:.0f}% below reported FCF (${:.1f}B). Companies sometimes report FCF net of finance lease principal payments, resulting in a lower figure than the standard definition."
                    [ANum (Fin (n / 1000000000)); ANum (Fin ((1 - n / actual_value) * 100)); ANum (Fin (actual_value / 1000000000))])
      ["fcf_definition_gap"] r
  else
  let r := set_evidence (Some actual_value) (Some source) [fact] r in
  match absolute_numeric_verdict metric (c_approx x) n actual_value with
  | (lbl, true) =>
      (* EPS: check absolute tolerance first *)
      let abs_diff := Qabs (n - actual_value) in
      let r := set_verdict lbl r in
      let r := set_comparison (n - actual_value)
                 (if Qneqb actual_value 0 then Fin (abs_diff / Qabs actual_value * 100) else Fin 0)
                 EPS_ABSOLUTE_TOLERANCE
                 (piece "EPS: claimed ${:.2f} vs actual ${:.2f}. Diff ${:.3f} within ${} tolerance."
                    [ANum (Fin n); ANum (Fin actual_value); ANum (Fin abs_diff); ANum (Fin EPS_ABSOLUTE_TOLERANCE)])
                 [mkStep (txt "EPS absolute comparison")
                    (piece "|{:.2f} - {:.2f}| = {:.3f}" [ANum (Fin n); ANum (Fin actual_value); ANum (Fin abs_diff)])
                    (Fin abs_diff) [("threshold", Fin EPS_ABSOLUTE_TOLERANCE)]] r in
      let r := set_explanation [piece "Verified: claimed ${:.2f} matches actual ${:.2f}."
                                  [ANum (Fin n); ANum (Fin actual_value)]] r in
      apply_misleading_checks r (c_claim x) (c_fmp x) (c_year x) (c_quarter x)
  | (lbl, false) =>
      (* General absolute comparison *)
      comp <- verify_absolute normalized actual_value ;;
      let tol := get_tolerance metric (c_approx x) in
      let pct := rel_diff (ac_difference comp) actual_value in
      let r := set_verdict lbl r in
      let r := set_comparison (ac_difference comp) (ac_difference_pct comp) (tight tol)
                 (piece "Claimed {:,.2f} vs Actual {:,.2f}. Diff: {:.2f}% (threshold: {:.1f}%)"
                    [ANum (Fin n); ANum (Fin actual_value); ANum (ac_difference_pct comp); ANum (Fin (tight tol * 100))])
                 [mkStep (txt "Absolute comparison")
                    (piece "|{:,.2f} - {:,.2f}| / |{:,.2f}|" [ANum (Fin n); ANum (Fin actual_value); ANum (Fin actual_value)])
                    pct [("threshold", Fin (tight tol))]] r in
      let r := set_explanation [piece "{}: claimed {:,.2f} vs actual {:,.2f} from {}."
                                  [AStr (match lbl with Verified => "Verified" | CloseMatch => "Close Match" | _ => "Mismatch" end);
                                   ANum (Fin n); ANum (Fin actual_value); AStr source]] r in
      (* Check for possible undisclosed non-GAAP *)
      let r := if String.eqb (c_gaap x) "unknown" && label_eqb lbl Mismatch && Qgt n actual_value
                  && mem metric ["net_income"; "eps_basic"; "eps_diluted"; "operating_income"; "ebitda"]
               then set_explanation [piece "Claimed value ({:,.2f}) exceeds GAAP data ({:,.2f}) by {:.1f}%. Speaker did not specify GAAP or non-GAAP basis."
                                       [ANum (Fin n); ANum (Fin actual_value); ANum (ac_difference_pct comp)]]
                      (set_verdict Misleading (add_flag "possible_non_gaap_without_disclosure" r))
               else r in
      apply_misleading_checks r (c_claim x) (c_fmp x) (c_year x) (c_quarter x)
  end
  end
  end.

(** "Total expenses" = COGS + OpEx block of the absolute branch; [None]
    when the code falls through to the single-metric comparison. *)
Definition absolute_total_expenses (x : Ctx) (r : Verdict) (normalized : option Q)
    : option (Res Verdict) :=
  if negb (String.eqb (c_metric x) "operating_expenses") then None else
  let cogs := lookup_value (c_fmp x) "cost_of_revenue" (c_year x) (c_quarter x) (c_alias x) in
  let opex := lookup_value (c_fmp x) "operating_expenses" (c_year x) (c_quarter x) (c_alias x) in
  let by_keyword := re_search TOTAL_EXPENSES_KEYWORDS (c_quote x) in
  let by_value : Res bool :=
    match cogs, opex with
    | Some (cv, _), Some (ov, _) =>
        let total_exp := cv + ov in
        if Qlt 0 total_exp then
          n <- num normalized ;;
          if Qgt n (ov * (12#10)) then
            let ratio_to_total := n / total_exp in
            Ok (Qlt (9#10) ratio_to_total && Qlt ratio_to_total (11#10))
          else Ok false
        else Ok false
    | _, _ => Ok false
    end in
  match by_value with
  | Raise e => Some (Raise e)
  | Ok bv =>
  if negb (by_keyword || bv) then None else
  match cogs, opex with
  | Some (cv, _), Some (ov, _) =>
      Some (
      let total_expenses := cv + ov in
      comp <- verify_absolute normalized total_expenses ;;
      n <- num normalized ;;
      let tol := get_tolerance (c_metric x) (c_approx x) in
      let pct := rel_diff (ac_difference comp) total_expenses in
      let r := set_evidence (Some total_expenses) (Some "fmp (cost_of_revenue + operating_expenses)")
                 [mkFact "cost_of_revenue" (c_year x) (c_quarter x) cv;
                  mkFact "operating_expenses" (c_year x) (c_quarter x) ov] r in
      let r := set_verdict (band pct tol) r in
      let r := set_comparison (ac_difference comp) (ac_difference_pct comp) (tight tol)
                 (piece "Total expenses (COGS + OpEx): claimed {:,.2f} vs actual {:,.2f} ({:,.0f} + {:,.0f}). Diff: {:.2f}% (threshold: {:.1f}%)"
                    [ANum (Fin n); ANum (Fin total_expenses); ANum (Fin cv); ANum (Fin ov);
                     ANum (ac_difference_pct comp); ANum (Fin (tight tol * 100))])
                 [mkStep (txt "Total expenses = COGS + OpEx")
                    (piece "{:,.0f} + {:,.0f} = {:,.0f}" [ANum (Fin cv); ANum (Fin ov); ANum (Fin total_expenses)])
                    (Fin total_expenses) []] r in
      let r := set_explanation [piece "Total expenses claim verified against sum of cost of revenue + operating expenses: claimed {:,.2f} vs actual {:,.2f}."
                                  [ANum (Fin n); ANum (Fin total_expenses)]] r in
      apply_misleading_checks r (c_claim x) (c_fmp x) (c_year x) (c_quarter x))
  | _, _ => None
  end
  end.

(** [if claim_type == "absolute":] branch of [verify_single_claim] *)
Definition absolute_branch (x : Ctx) (r : Verdict) : Res Verdict :=
  normalized <- normalize_claimed_value (c_claimed x) (c_unit x) (c_scale x) ;;
  if mem (c_metric x) SEGMENT_METRICS && is_segment_claim (c_claim x) then
    unverifiable (piece "This is a {} {} claim. Our data only includes total company-level figures."
                    [AStr (ctx_label (c_claim x)); AStr (spaced (c_metric x))]) ["segment_claim"] r
  else if c_multiperiod x then absolute_multiperiod x r normalized
  else if Z.eqb (c_quarter x) 0 then absolute_full_year x r normalized
  else match absolute_total_expenses x r normalized with
       | Some res => res
       | None => absolute_single x r normalized
       end.

(** Full-year YoY growth block of the growth branch ([target_quarter == 0]). *)
Definition growth_full_year (x : Ctx) (r : Verdict) : Res Verdict :=
  if negb (mem (c_metric x) ANNUAL_SUM_METRICS) then
    Ok (set_explanation [piece "Full-year growth verification is not supported for metric '{}'." [AStr (c_metric x)]]
          (set_verdict Unverifiable r))
  else
  let '(by_, bq) := match baseline (c_periods x) with
                    | Some b => b
                    | None => (c_year x - 1, 0)%Z
                    end in
  if negb (Z.eqb bq 0) then
    Ok (set_explanation [txt "Full-year growth requires a full-year baseline period."] (set_verdict Unverifiable r))
  else
  let field := catalog_field (c_catalog x) (c_metric x) in
  let cur := sum_full_year_metric (c_fmp x) field (c_year x) (c_alias x) in
  let pri := sum_full_year_metric (c_fmp x) field by_ (c_alias x) in
  match sum_total cur, sum_total pri with
  | Some cs, Some ps =>
      let r := set_evidence (Some cs) (Some (join_sources (dedup (sum_sources cur ++ sum_sources pri)%list)))
                 (sum_facts cur ++ sum_facts pri)%list r in
      comp <- verify_growth (c_claimed x) cs ps ;;
      match comp with
      | None => Ok (set_explanation [txt "Prior full-year value is zero, cannot compute growth."] (set_verdict Unverifiable r))
      | Some g =>
          c <- num (c_claimed x) ;;
          let tol := get_growth_tolerance (c_approx x) in
          let r := set_verdict (band (Fin (gc_abs_difference_pp g)) tol) r in
          let r := set_comparison (gc_difference_pp g) (Fin (gc_abs_difference_pp g)) (tight tol)
                     (piece "Claimed {:.1f}% full-year YoY growth. Actual: (FY {} {:,.0f} - FY {} {:,.0f}) / |{:,.0f}| = {:.2f}%. Diff: {:.2f} pp (threshold: {:.1f} pp)."
                        [ANum (Fin c); AInt (c_year x); ANum (Fin cs); AInt by_; ANum (Fin ps); ANum (Fin ps);
                         ANum (Fin (gc_actual_pct g)); ANum (Fin (gc_abs_difference_pp g)); ANum (Fin (tight tol))])
                     [mkStep (txt "Full-year YoY growth")
                        (piece "(SUM(Q1-Q4 {}) - SUM(Q1-Q4 {})) / |SUM(Q1-Q4 {})| * 100" [AInt (c_year x); AInt by_; AInt by_])
                        (Fin (gc_actual_pct g)) [("claimed", Fin c); ("difference_pp", Fin (gc_difference_pp g))]] r in
          let r := set_explanation [piece "Full-year growth claim: {:.1f}% claimed vs {:.2f}% computed from FY {} and FY {} totals."
                                      [ANum (Fin c); ANum (Fin (gc_actual_pct g)); AInt (c_year x); AInt by_]] r in
          apply_misleading_checks r (c_claim x) (c_fmp x) (c_year x) (c_quarter x)
      end
  | _, _ =>
      Ok (set_explanation [missing_piece (dedup (sum_missing cur ++ sum_missing pri)%list)] (set_verdict Unverifiable r))
  end.

(** Comparison of a quarterly growth claim once both periods are found:
    from [verify_growth] to [_apply_misleading_checks]. *)
Definition growth_compare (x : Ctx) (r : Verdict) (by_ bq : Z) (fmp_field : string)
    (current_val prior_val : Q) : Res Verdict :=
  comp <- verify_growth (c_claimed x) current_val prior_val ;;
  match comp with
  | None => Ok (set_explanation [txt "Prior period value is zero, cannot compute growth."] (set_verdict Unverifiable r))
  | Some g =>
  c <- num (c_claimed x) ;;
  if String.eqb (c_metric x) "revenue" && Qgt (Qabs (gc_difference_pp g)) 3
     && negb (mem "revenue_definition_mismatch" (v_flags r)) then
    unverifiable (piece "Revenue growth mismatch ({:.1f}% claimed vs {:.1f}% computed). This likely reflects a difference in revenue definition (e.g., net vs gross revenue for financial institutions) which affects the growth rate calculation."
                    [ANum (Fin c); ANum (Fin (gc_actual_pct g))])
      ["revenue_growth_definition_mismatch"] r
  else
  let tol := get_growth_tolerance (c_approx x) in
  let abs_diff_pp := gc_abs_difference_pp g in
  let growth_label := if String.eqb (c_claim_type x) "yoy_growth" then "YoY" else "QoQ" in
  let r := set_verdict (band (Fin abs_diff_pp) tol) r in
  let r := set_comparison (gc_difference_pp g) (Fin abs_diff_pp) (tight tol)
             (piece "Claimed {:.1f}% {} growth. Actual: ({:,.0f} - {:,.0f}) / {:,.0f} = {:.2f}%. Diff: {:.2f} pp (threshold: {:.1f} pp)"
                [ANum (Fin c); AStr growth_label; ANum (Fin current_val); ANum (Fin prior_val);
                 ANum (Fin (Qabs prior_val)); ANum (Fin (gc_actual_pct g)); ANum (Fin abs_diff_pp); ANum (Fin (tight tol))])
             [mkStep (piece "{} growth" [AStr growth_label])
                (piece "({:,.0f} - {:,.0f}) / |{:,.0f}| * 100" [ANum (Fin current_val); ANum (Fin prior_val); ANum (Fin prior_val)])
                (Fin (gc_actual_pct g)) [("claimed", Fin c); ("difference_pp", Fin (gc_difference_pp g))]] r in
  let expl := piece "Growth claim: {:.1f}% claimed. Computed from Q{} {} ({:,.0f}) vs Q{} {} ({:,.0f}) = {:.2f}% actual."
                [ANum (Fin c); AInt (c_quarter x); AInt (c_year x); ANum (Fin current_val);
                 AInt bq; AInt by_; ANum (Fin prior_val); ANum (Fin (gc_actual_pct g))] in
  let r := set_explanation [expl] r in
  (* Supplemental quarter-to-quarter discrepancy for YoY growth claims. *)
  let r :=
    if String.eqb (c_claim_type x) "yoy_growth" then
      let '(py, pq) := previous_quarter (c_year x) (c_quarter x) in
      match lookup_value (c_fmp x) fmp_field py pq (c_alias x) with
      | Some (pv, _) =>
          match compute_qoq_growth current_val pv with
          | Some qg =>
              let r := add_step
                         (mkStep (txt "Supplemental QoQ discrepancy")
                            (piece "({:,.0f} - {:,.0f}) / |{:,.0f}| * 100" [ANum (Fin current_val); ANum (Fin pv); ANum (Fin pv)])
                            (Fin qg) [("claimed", Fin c); ("difference_pp", Fin (c - qg))]) r in
              set_explanation (v_explanation r ++
                 [piece " Quarter-over-quarter reference: Q{} {} vs Q{} {} = {:.2f}% ({:.2f} pp from claimed growth)."
                    [AInt (c_quarter x); AInt (c_year x); AInt pq; AInt py; ANum (Fin qg); ANum (Fin (Qabs (c - qg)))]])%list r
          | None => r
          end
      | None => r
      end
    else r in
  apply_misleading_checks r (c_claim x) (c_fmp x) (c_year x) (c_quarter x)
  end.

(** [if claim_type in ("yoy_growth", "qoq_growth"):] branch *)
Definition growth_branch (x : Ctx) (r : Verdict) : Res Verdict :=
  if mem (c_metric x) SEGMENT_METRICS && is_segment_claim (c_claim x) then
    unverifiable (piece "This is a {} {} growth claim. Our data only includes total company-level figures."
                    [AStr (ctx_label (c_claim x)); AStr (spaced (c_metric x))]) ["segment_claim"] r
  else if Z.eqb (c_quarter x) 0 then growth_full_year x r
  else
  match baseline (c_periods x) with
  | None => Ok (set_explanation [txt "Cannot determine baseline period for growth comparison."] (set_verdict Unverifiable r))
  | Some (by_, bq) =>
  let fmp_field := catalog_field (c_catalog x) (c_metric x) in
  let cur := lookup_value (c_fmp x) fmp_field (c_year x) (c_quarter x) (c_alias x) in
  let pri := lookup_value (c_fmp x) fmp_field by_ bq (c_alias x) in
  match cur, pri with
  | Some (cv, s1), Some (pv, s2) =>
      let r := set_evidence (Some cv)
                 (Some (s1 ++ " (current), " ++ s2 ++ " (prior)"))
                 [mkFact (c_metric x) (c_year x) (c_quarter x) cv; mkFact (c_metric x) by_ bq pv] r in
      growth_compare x r by_ bq fmp_field cv pv
  | _, _ =>
      let missing := ((match cur with None => [period_label (c_year x) (c_quarter x)] | Some _ => [] end)
                      ++ (match pri with None => [period_label by_ bq] | Some _ => [] end))%list in
      Ok (set_explanation [missing_piece missing] (set_verdict Unverifiable r))
  end
  end.

(** Basis-point margin-change block of the margin branch. *)
Definition margin_bps_change (x : Ctx) (r : Verdict) (num_field den_field : string)
    (lookup_num : Z -> Z -> option (Q * string)) : Res Verdict :=
  match resolve_margin_change_baseline (c_claim x) (c_year x) (c_quarter x) (c_quote x) with
  | None =>
      unverifiable (txt "This claim describes a margin change in basis points, but baseline period could not be determined.")
        ["margin_change_bps"] r
  | Some (by_, bq) =>
  let den := fun y q => lookup_value (c_fmp x) den_field y q (c_alias x) in
  match lookup_num (c_year x) (c_quarter x), den (c_year x) (c_quarter x),
        lookup_num by_ bq, den by_ bq with
  | Some (cur_num, s1), Some (cur_den, s2), Some (prev_num, s3), Some (prev_den, s4) =>
      if negb (Qneqb cur_den 0 && Qneqb prev_den 0) then
        unverifiable (txt "Denominator is zero.") ["margin_change_bps"] r
      else
      let current_margin := cur_num / cur_den * 100 in
      let prior_margin := prev_num / prev_den * 100 in
      let actual_change_bps := (current_margin - prior_margin) * 100 in
      claimed_change_bps <- signed_bps_value (c_claimed x) (c_quote x) ;;
      let diff_bps := claimed_change_bps - actual_change_bps in
      let abs_diff_bps := Qabs diff_bps in
      let tol := if c_approx x then mkTol 50 100 else mkTol 25 75 in
      let r := set_verdict (band (Fin abs_diff_bps) tol) r in
      let r := set_evidence (Some actual_change_bps) (Some (join_sources (dedup [s1; s2; s3; s4])))
                 [mkFact num_field (c_year x) (c_quarter x) cur_num; mkFact den_field (c_year x) (c_quarter x) cur_den;
                  mkFact num_field by_ bq prev_num; mkFact den_field by_ bq prev_den] r in
      let r := set_comparison diff_bps (Fin abs_diff_bps) (tight tol)
                 (piece "Claimed {:.1f} bps change. Actual: ({:.2f}% - {:.2f}%) * 100 = {:.1f} bps. Diff: {:.1f} bps (threshold: {:.0f} bps)."
                    [ANum (Fin claimed_change_bps); ANum (Fin current_margin); ANum (Fin prior_margin);
                     ANum (Fin actual_change_bps); ANum (Fin abs_diff_bps); ANum (Fin (tight tol))])
                 [mkStep (txt "Margin change in bps")
                    (piece "({:.2f} - {:.2f}) * 100" [ANum (Fin current_margin); ANum (Fin prior_margin)])
                    (Fin actual_change_bps) [("claimed", Fin claimed_change_bps); ("difference_bps", Fin diff_bps)]] r in
      let r := set_explanation [piece "Margin change claim: {:.1f} bps claimed vs {:.1f} bps computed from baseline quarter."
                                  [ANum (Fin claimed_change_bps); ANum (Fin actual_change_bps)]] r in
      apply_misleading_checks r (c_claim x) (c_fmp x) (c_year x) (c_quarter x)
  | nc, dc, np, dp =>
      let missing :=
        ((match nc, dc with Some _, Some _ => [] | _, _ => [period_label (c_year x) (c_quarter x)] end)
         ++ (match np, dp with Some _, Some _ => [] | _, _ => [period_label by_ bq] end))%list in
      unverifiable (missing_piece missing) ["margin_change_bps"] r
  end
  end.

(** Full-year margin block of the margin branch ([target_quarter == 0]). *)
Definition margin_full_year (x : Ctx) (r : Verdict) (num_field den_field tolerance_metric : string)
    : Res Verdict :=
  let fm0 := compute_full_year_margin (c_fmp x) num_field den_field (c_year x) (c_alias x) in
  let fm := match fym_margin fm0 with
            | None => if String.eqb num_field "sga_expenses"
                      then compute_full_year_margin (c_fmp x) "operating_expenses" den_field (c_year x) (c_alias x)
                      else fm0
            | Some _ => fm0
            end in
  match fym_margin fm with
  | None =>
      match fym_missing fm with
      | [] => Ok (set_explanation [txt "Denominator is zero."] (set_verdict Unverifiable r))
      | ms => Ok (set_explanation [missing_piece ms] (set_verdict Unverifiable r))
      end
  | Some margin_actual =>
      let tol := get_tolerance tolerance_metric (c_approx x) in
      let tol_pp := mkTol (tight tol * 100) (loose tol * 100) in
      c <- num (c_claimed x) ;;
      let diff_pp := c - margin_actual in
      let r := set_verdict (band (Fin (Qabs diff_pp)) tol_pp) r in
      let r := set_evidence (Some margin_actual) (Some (join_sources (fym_sources fm))) (fym_facts fm) r in
      let r := set_comparison diff_pp (Fin (Qabs diff_pp)) (tight tol_pp)
                 (piece "Claimed {:.1f}% full-year margin. Actual: SUM({}) / SUM({}) = {:,.0f} / {:,.0f} = {:.2f}%. Diff: {:.2f} pp (threshold: {:.1f} pp)."
                    [ANum (Fin c); AStr num_field; AStr den_field;
                     ANum (Fin (match fym_num fm with Some v => v | None => 0 end));
                     ANum (Fin (match fym_den fm with Some v => v | None => 0 end));
                     ANum (Fin margin_actual); ANum (Fin (Qabs diff_pp)); ANum (Fin (tight tol_pp))])
                 [mkStep (txt "Full-year margin")
                    (piece "SUM(Q1-Q4 {}) / SUM(Q1-Q4 {}) * 100" [AStr num_field; AStr den_field])
                    (Fin margin_actual) []] r in
      let r := set_explanation [piece "Full-year margin claim: {:.1f}% claimed vs {:.2f}% computed."
                                  [ANum (Fin c); ANum (Fin margin_actual)]] r in
      apply_misleading_checks r (c_claim x) (c_fmp x) (c_year x) (c_quarter x)
  end.

(** Comparison of a quarterly margin claim once numerator and denominator
    are found: from [verify_margin] to [_apply_misleading_checks]. *)
Definition margin_compare (x : Ctx) (r : Verdict) (num_field den_field tolerance_metric : string)
    (num_val den_val : Q) : Res Verdict :=
  comp <- verify_margin (c_claimed x) num_val den_val ;;
  match comp with
  | None => Ok (set_explanation [txt "Denominator is zero."] (set_verdict Unverifiable r))
  | Some m =>
      c <- num (c_claimed x) ;;
      let tol := get_tolerance tolerance_metric (c_approx x) in
      let tol_pp := mkTol (tight tol * 100) (loose tol * 100) in
      let abs_diff_pp := mc_abs_difference_pp m in
      let r := set_verdict (band (Fin abs_diff_pp) tol_pp) r in
      let r := set_evidence (Some (mc_actual_margin m)) (v_evidence_source r) [] r in
      let r := set_comparison (mc_difference_pp m) (Fin abs_diff_pp) (tight tol_pp)
                 (piece "Claimed {:.1f}%. Actual: {:,.0f} / {:,.0f} = {:.2f}%. Diff: {:.2f} pp (threshold: {:.1f} pp)"
                    [ANum (Fin c); ANum (Fin num_val); ANum (Fin den_val); ANum (Fin (mc_actual_margin m));
                     ANum (Fin abs_diff_pp); ANum (Fin (tight tol_pp))])
                 [mkStep (piece "Compute {}" [AStr (c_metric x)])
                    (piece "{:,.0f} / {:,.0f} * 100" [ANum (Fin num_val); ANum (Fin den_val)])
                    (Fin (mc_actual_margin m)) []] r in
      let r := set_explanation [piece "Margin claim: {:.1f}% claimed. Computed: {:,.0f} / {:,.0f} = {:.2f}%."
                                  [ANum (Fin c); ANum (Fin num_val); ANum (Fin den_val); ANum (Fin (mc_actual_margin m))]] r in
      apply_misleading_checks r (c_claim x) (c_fmp x) (c_year x) (c_quarter x)
  end.

(** [if claim_type == "margin":] branch *)
Definition margin_branch (x : Ctx) (r : Verdict) : Res Verdict :=
  if is_segment_claim (c_claim x) then
    unverifiable (piece "This is a {} {} claim. Our data only includes total company-level figures."
                    [AStr (ctx_label (c_claim x)); AStr (spaced (c_metric x))]) ["segment_claim"] r
  else
  let fields : option (string * string * string) :=
    if String.eqb (c_metric x) "operating_expenses" then
      Some (if contains "sg&a" (c_quote x) then "sga_expenses" else "operating_expenses",
            "revenue", "operating_margin")
    else match c_catalog x with
         | Ratio n d => Some (n, d, c_metric x)
         | Direct _ => None
         end in
  match fields with
  | None =>
      Ok (set_explanation [piece "Cannot compute margin for metric: {}" [AStr (c_metric x)]] (set_verdict Unverifiable r))
  | Some (num_field, den_field, tolerance_metric) =>
  let lookup_num := fun y q =>
    match lookup_value (c_fmp x) num_field y q (c_alias x) with
    | Some v => Some v
    | None => if String.eqb num_field "sga_expenses"
              then lookup_value (c_fmp x) "operating_expenses" y q (c_alias x) else None
    end in
  if c_bps_margin_change x then margin_bps_change x r num_field den_field lookup_num
  else if Z.eqb (c_quarter x) 0 then margin_full_year x r num_field den_field tolerance_metric
  else
  match lookup_num (c_year x) (c_quarter x), lookup_value (c_fmp x) den_field (c_year x) (c_quarter x) (c_alias x) with
  | Some (num_val, num_src), Some (den_val, den_src) =>
      let r := set_evidence (v_actual_value r)
                 (Some (num_src ++ " (" ++ num_field ++ "), " ++ den_src ++ " (" ++ den_field ++ ")"))
                 [mkFact num_field (c_year x) (c_quarter x) num_val; mkFact den_field (c_year x) (c_quarter x) den_val] r in
      margin_compare x r num_field den_field tolerance_metric num_val den_val
  | _, _ =>
      Ok (set_explanation [piece "Missing {} or {} data for Q{} {}."
                             [AStr num_field; AStr den_field; AInt (c_quarter x); AInt (c_year x)]]
            (set_verdict Unverifiable r))
  end
  end.

(** [metric] as the first lines of [verify_single_claim] compute it:
    [claim.get("metric_type", "other")], [_remap_other_metric], and the
    free_cash_flow / "operating cash flow" correction. *)
Definition engine_metric (claim : Claim) : string :=
  let quote := quote_lower_of claim in
  let metric1 := remap_other_metric (get_or (metric_type claim) "other") quote in
  if String.eqb metric1 "free_cash_flow" && contains "operating cash flow" quote
  then "operating_cash_flow" else metric1.

(** The claim-type dispatch at the end of [verify_single_claim]: the
    absolute, growth and margin blocks, then the COMPARISON / OTHER exit. *)
Definition dispatch (x : Ctx) (r : Verdict) : Res Verdict :=
  let claim_type := c_claim_type x in
  if String.eqb claim_type "absolute" then absolute_branch x r
  else if String.eqb claim_type "yoy_growth" || String.eqb claim_type "qoq_growth" then growth_branch x r
  else if String.eqb claim_type "margin" then margin_branch x r
  else unverifiable (piece "Claim type '{}' is not verifiable in the current system." [AStr claim_type])
         ["unsupported_claim_type_" ++ claim_type] r.

(** [verify_single_claim(claim, ticker, transcript_year, transcript_quarter, fmp_data)].
    A key absent from the claim dict is [None] in [Claim]; the defaults of
    [claim.get] are written out with [get_or]. *)
Definition verify_single_claim (claim : Claim) (ticker : string)
    (transcript_year transcript_quarter : Z) (fmp_data : FactStore) : Res Verdict :=
  let claim_type := get_or (claim_type claim) "" in
  let unit := get_or (unit claim) "dollars" in
  let quote := quote_lower_of claim in
  let metric := engine_metric claim in
  let gaap := get_or (gaap_classification claim) "unknown" in
  let approx := is_approximate_flag claim || is_approximate (qualifiers claim) in
  let r := init_result claim in
  if String.eqb gaap "non_gaap" then
    unverifiable (txt "This claim references a non-GAAP metric. Our data sources contain GAAP figures only. Non-GAAP metrics exclude items like stock-based compensation or restructuring charges.")
      ["non_gaap_claim"] r
  else if String.eqb claim_type "guidance" then
    unverifiable (txt "Forward-looking guidance claims cannot be verified against historical data.")
      ["guidance_claim"] r
  else
  let is_multiperiod_claim := re_search TTM_KEYWORDS quote in
  if (String.eqb metric "capital_expenditures" || String.eqb metric "capital_expenditure")
     && re_search CAPEX_LEASE_KEYWORDS quote then
    unverifiable (txt "This CapEx claim includes finance leases. Our financial data reports cash capital expenditures only, excluding finance lease obligations.")
      ["capex_includes_leases"] r
  else
  let is_bps_margin_change :=
    String.eqb claim_type "margin"
    && (re_search BPS_CHANGE_KEYWORDS quote || re_search BPS_CHANGE_KEYWORDS2 quote) in
  if (String.eqb claim_type "yoy_growth" || String.eqb claim_type "qoq_growth")
     && String.eqb unit "dollars" then
    unverifiable (txt "This growth claim appears to use a dollar amount rather than a percentage. Dollar-amount changes cannot be compared against percentage growth computations.")
      ["dollar_amount_growth"] r
  else
  let periods := resolve_periods claim transcript_year transcript_quarter in
  match error periods with
  | Some e =>
      Ok (set_explanation [piece "Cannot verify: {}" [AStr e]] (set_verdict Unverifiable r))
  | None =>
  let '(target_year, target_quarter) := target periods in
  let use_calendar_alias := should_use_calendar_alias claim transcript_year transcript_quarter in
  match get_catalog_entry metric with
  | None =>
      Ok (set_explanation [piece "Metric '{}' not in verification catalog." [AStr metric]]
            (set_verdict Unverifiable r))
  | Some catalog =>
  let x := mkCtx claim ticker transcript_quarter fmp_data metric claim_type (claimed_value claim)
             unit (scale claim) gaap approx quote is_multiperiod_claim is_bps_margin_change
             periods target_year target_quarter use_calendar_alias catalog in
  dispatch x r
  end
  end.

(* ------------------------------------------------------------------ *)
(** ** pipeline.py: [_downgrade_conflicting_mismatches] *)

(** Each element of [verdicts] is [{"claim": claim, "verification": result}]. *)
Definition Item : Type := (Claim * Verdict)%type.

Definition TOTAL_CONTEXTS : list string := [""; "total"; "company"; "overall"; "consolidated"].

(** The group key [(claim.get("metric_type"), parsed_period, "total")]; the
    constant third component is left out. *)
Definition Key : Type := (option string * (Z * Z))%type.

Definition opt_str_eqb (a b : option string) : bool :=
  match a, b with
  | Some x, Some y => String.eqb x y
  | None, None => true
  | _, _ => false
  end.

Definition key_eqb (a b : Key) : bool := opt_str_eqb (fst a) (fst b) && yq_eqb (snd a) (snd b).

(** The filters of the first loop: the key of an item, or [None] where the
    loop body reaches [continue]. *)
Definition conflict_key (item : Item) : option Key :=
  let '(claim, verification) := item in
  if negb (String.eqb (get_or (claim_type claim) "") "absolute") then None
  else match v_verdict verification with
       | Some Verified | Some CloseMatch | Some Mismatch =>
           let ctx := lower (strip (get_or (metric_context claim) "")) in
           if negb (mem ctx TOTAL_CONTEXTS) then None
           else match parse_period (period claim) with
                | None => None
                | Some parsed_period => Some (metric_type claim, parsed_period)
                end
       | _ => None
       end.

(** [grouped.setdefault(key, []).append(idx)] on an insertion-ordered dict. *)
Fixpoint setdefault_append (k : Key) (idx : nat) (grouped : list (Key * list nat))
    : list (Key * list nat) :=
  match grouped with
  | [] => [(k, [idx])]
  | (k', is) :: rest =>
      if key_eqb k k' then (k', (is ++ [idx])%list) :: rest
      else (k', is) :: setdefault_append k idx rest
  end.

(** [for idx, item in enumerate(verdicts): ...] *)
Fixpoint group_indices (idx : nat) (items : list Item) (grouped : list (Key * list nat))
    : list (Key * list nat) :=
  match items with
  | [] => grouped
  | item :: rest =>
      group_indices (S idx) rest
        (match conflict_key item with
         | Some k => setdefault_append k idx grouped
         | None => grouped
         end)
  end.

Definition is_reference (v : Verdict) : bool :=
  match v_verdict v with Some Verified | Some CloseMatch => true | _ => false end.

Definition is_reference_at (verdicts : list Item) (i : nat) : bool :=
  match nth_error verdicts i with Some (_, v) => is_reference v | None => false end.

(** [abs(diff_pct) < 3.0] *)
Definition ext_lt (x : ext) (t : Q) : bool :=
  match x with Fin q => negb (Qle_bool t q) | Inf => false end.

(** Body of the inner loop on one [verification] dict. *)
Definition downgrade_one (reference_claim_id : string) (v : Verdict) : Verdict :=
  match v_verdict v with
  | Some Mismatch =>
      match v_difference_pct v with
      | None => v
      | Some diff_pct =>
          if ext_lt (ext_abs diff_pct) 3 then v
          else
            let flags := if mem "conflicting_transcript_claim" (v_flags v) then v_flags v
                         else (v_flags v ++ ["conflicting_transcript_claim"])%list in
            set_explanation
              [piece "Transcript contains conflicting values for this same metric and period. Another claim ({}) aligns with financial data, so this value is likely a transcript/source artifact."
                 [AStr reference_claim_id]]
              (set_verdict Unverifiable (set_flags flags v))
      end
  | _ => v
  end.

(** [verdicts[i]] updated in place by [f]. *)
Fixpoint update_nth {A} (n : nat) (f : A -> A) (l : list A) : list A :=
  match l, n with
  | [], _ => []
  | x :: l', O => f x :: l'
  | x :: l', S n' => x :: update_nth n' f l'
  end.

(** [str(claim.get("claim_id"))] as an f-string prints it. *)
Definition claim_id_str (c : Claim) : string := get_or (claim_id c) "None".

(** One iteration of [for indices in grouped.values(): ...] *)
Definition process_group (verdicts : list Item) (g : Key * list nat) : list Item :=
  let indices := snd g in
  match find (is_reference_at verdicts) indices with
  | None => verdicts
  | Some reference_idx =>
      match nth_error verdicts reference_idx with
      | None => verdicts
      | Some (ref_claim, _) =>
          fold_left (fun vs i => update_nth i (fun '(c, v) => (c, downgrade_one (claim_id_str ref_claim) v)) vs)
            indices verdicts
      end
  end.

(** [_downgrade_conflicting_mismatches(verdicts)]; the mutated list is returned. *)
Definition downgrade_conflicting_mismatches (verdicts : list Item) : list Item :=
  fold_left process_group (group_indices 0 verdicts []) verdicts.

(** The outcome of the reducer on one item described item by item (the
    reference is the first item of the batch, in batch order, that has the
    same key and a verified or close_match verdict). *)
Definition conflict_outcome (verdicts : list Item) (item : Item) : Item :=
  match conflict_key item with
  | None => item
  | Some k =>
      match find (fun j => match nth_error verdicts j with
                           | Some it => match conflict_key it with
                                        | Some k' => key_eqb k k' && is_reference (snd it)
                                        | None => false
                                        end
                           | None => false
                           end) (seq 0 (length verdicts)) with
      | None => item
      | Some r =>
          match nth_error verdicts r with
          | Some (rc, _) => (fst item, downgrade_one (claim_id_str rc) (snd item))
          | None => item
          end
      end
  end.

(* ------------------------------------------------------------------ *)
(** ** Period shifting (pipeline.py) *)

(** [_shift_period_string(period_str, year_delta)]; [None] stands for a
    value that is not a string (returned as it is). *)
Definition shift_period_string (period_str : option string) (year_delta : Z) : option string :=
  match period_str with
  | None => None
  | Some s =>
      match parse_period (Some s) with
      | None => Some s
      | Some (year, quarter) =>
          let shifted_year := (year + year_delta)%Z in
          if Z.eqb quarter 0 then Some ("FY " ++ Z_to_string shifted_year)
          else Some ("Q" ++ Z_to_string quarter ++ " " ++ Z_to_string shifted_year)
      end
  end.

(** The string [_shift_period_string] builds for year [y] and quarter [q]
    (quarter 0: full year). *)
Definition fmt_period (y q : Z) : string :=
  if Z.eqb q 0 then "FY " ++ Z_to_string y else "Q" ++ Z_to_string q ++ " " ++ Z_to_string y.

(** [fmt_period y q] parses back to [(y, q)]. *)
Definition fmt_check (y q : Z) : bool :=
  match parse_period (Some (fmt_period y q)) with
  | Some (y', q') => Z.eqb y' y && Z.eqb q' q
  | None => false
  end.

(** [f] holds at [y], [y + 1], ..., [y + n - 1]. *)
Fixpoint all_from (n : nat) (y : Z) (f : Z -> bool) : bool :=
  match n with
  | O => true
  | S n' => f y && all_from n' (y + 1)%Z f
  end.

(** [_claim_with_period_shift(claim, year_delta)] *)
Definition claim_with_period_shift (claim : Claim) (year_delta : Z) : Claim :=
  if Z.eqb year_delta 0 then claim
  else mkClaim (claim_id claim) (metric_type claim) (claim_type claim) (claimed_value claim)
         (unit claim) (scale claim) (shift_period_string (period claim) year_delta)
         (shift_period_string (comparison_period claim) year_delta)
         (gaap_classification claim) (is_approximate_flag claim) (qualifiers claim)
         (metric_context claim) (quote_text claim).

(** A (year, quarter) pair moved by [d] years. *)
Definition shift_yq (d : Z) (p : Z * Z) : Z * Z := (fst p + d, snd p)%Z.

(** Resolved periods moved by [d] years. *)
Definition shift_periods (d : Z) (r : Periods) : Periods :=
  mkPeriods (shift_yq d (target r)) (option_map (shift_yq d) (baseline r)) (error r).

(** A period string whose parsed year, moved by [d], still has four digits. *)
Definition years_in_range (d : Z) (p : option string) : Prop :=
  forall y q, parse_period p = Some (y, q) -> (1000 <= y + d <= 9999)%Z.

(* ------------------------------------------------------------------ *)
(** ** Orders on labels and differences *)

(** The order of the verdict labels from best to worst. *)
Definition label_rank (l : Label) : nat :=
  match l with
  | Verified => 0 | CloseMatch => 1 | Mismatch => 2 | Misleading => 3 | Unverifiable => 4
  end%nat.

(** The order of differences: [float("inf")] above every finite value. *)
Definition ext_leb (x y : ext) : bool :=
  match x, y with
  | Fin a, Fin b => Qle_bool a b
  | _, Inf => true
  | Inf, Fin _ => false
  end.


(* ------------------------------------------------------------------ *)
(** ** Baseline quarter of the low-base heuristic *)

(** [baseline_yq] of [check_low_base_exaggeration]. *)
Definition low_base_baseline (claim : Claim) (y q : Z) : Z * Z :=
  if String.eqb (get_or (claim_type claim) "") "yoy_growth" then (y - 1, q)%Z
  else if Z.gtb q 1 then (y, q - 1)%Z else (y - 1, 4)%Z.

(* ------------------------------------------------------------------ *)
(** ** Scale and number extraction from text (normalizer.py) *)


(** [detect_scale_from_text(text)] *)
Definition detect_scale_from_text (text : string) : option string :=
  let text_lower := lower text in
  if contains "trillion" text_lower then Some "trillions"
  else if contains "billion" text_lower then Some "billions"
  else if contains "million" text_lower then Some "millions"
  else if contains "thousand" text_lower then Some "thousands"
  else None.

(** The longest prefix of [s] whose characters satisfy [p], and the rest. *)
Fixpoint span (p : ascii -> bool) (s : string) : string * string :=
  match s with
  | EmptyString => (EmptyString, EmptyString)
  | String c s' => if p c then let '(a, b) := span p s' in (String c a, b) else (EmptyString, s)
  end.

(** [[\d,]] *)
Definition is_num_char (c : ascii) : bool := is_digit c || Ascii.eqb c ","%char.

(** The pattern [\s*] followed by the group [[\d,]+\.?\d*], matched at the
    start of [s]; the text of the group.
    Every quantifier is greedy and needs no backtracking: [\s*] is followed
    by a class it excludes, and what follows [[\d,]+] is optional. *)
Definition num_group_at (s : string) : option string :=
  let t1 := snd (span is_space s) in
  let '(g, t2) := span is_num_char t1 in
  match g, t2 with
  | EmptyString, _ => None
  | _, String d t3 =>
      if Ascii.eqb d "."%char then Some (g ++ String "."%char (fst (span is_digit t3)))
      else Some g
  | _, EmptyString => Some g
  end.

(** [\$?] is tried with the dollar sign first, then without. *)
Definition num_match_at (s : string) : option string :=
  match s with
  | String c s' =>
      if Ascii.eqb c "$"%char then
        match num_group_at s' with Some g => Some g | None => num_group_at s end
      else num_group_at s
  | EmptyString => num_group_at s
  end.

(** [re.search] of the pattern [\$?] [\s*] [([\d,]+\.?\d*] [)] in [text]:
    group 1 of the leftmost match. *)
Fixpoint num_search (s : string) : option string :=
  match num_match_at s with
  | Some g => Some g
  | None => match s with EmptyString => None | String _ s' => num_search s' end
  end.

(** [s.replace(",", "")] *)
Fixpoint remove_commas (s : string) : string :=
  match s with
  | EmptyString => EmptyString
  | String c s' => if Ascii.eqb c ","%char then remove_commas s' else String c (remove_commas s')
  end.

(** The integer written by a string of decimal digits. *)
Fixpoint digits_value (s : string) (acc : Z) : Z :=
  match s with
  | EmptyString => acc
  | String c s' => digits_value s' (acc * 10 + digit_val c)%Z
  end.

(** [float(s)] on a string of ASCII digits with at most one point, the only
    strings [extract_numeric_from_text] passes to it; [None] is the
    [ValueError] it raises on [""] and ["."]. *)
Definition float_of_digits (s : string) : option Q :=
  let '(ip, rest) := span is_digit s in
  match rest with
  | EmptyString =>
      match ip with EmptyString => None | _ => Some (inject_Z (digits_value ip 0)) end
  | String d fp =>
      if negb (Ascii.eqb d "."%char) then None else
      let '(fd, rest') := span is_digit fp in
      match rest', ip, fd with
      | EmptyString, EmptyString, EmptyString => None
      | EmptyString, _, _ =>
          Some (inject_Z (digits_value ip 0)
                + inject_Z (digits_value fd 0) / inject_Z (10 ^ Z.of_nat (String.length fd)))
      | _, _, _ => None
      end
  end.

(** The result of [extract_numeric_from_text]: a value or [None], or the
    [ValueError] raised by [float]. *)
Inductive FloatRes : Type :=
| FOk (v : option Q)
| FValueError.

(** [extract_numeric_from_text(text)] *)
Definition extract_numeric_from_text (text : string) : FloatRes :=
  match num_search text with
  | None => FOk None
  | Some g =>
      match float_of_digits (remove_commas g) with
      | Some v => FOk (Some v)
      | None => FValueError
      end
  end.

(** Every character of [s] satisfies [p]. *)
Fixpoint str_all (p : ascii -> bool) (s : string) : bool :=
  match s with
  | EmptyString => true
  | String c s' => p c && str_all p s'
  end.

(** [s] is empty or starts with a character outside [p]. *)
Definition head_not (p : ascii -> bool) (s : string) : bool :=
  match s with EmptyString => true | String c _ => negb (p c) end.

(** The decimal digits of a natural number, as [str(n)] writes them. *)
Definition decimal_string (n : nat) : string := NilEmpty.string_of_uint (Nat.to_uint n).

(* ------------------------------------------------------------------ *)
(** ** Sample inputs *)

(** A fact store: four quarters of 2025 revenue of 100 each, Q4 2024
    revenue 80 and diluted EPS 1.00, Q3 2024 revenue 0, and Q4 2025
    diluted EPS 1.61. *)
Definition sample_store : FactStore :=
  mkStore
    [ ((2025, 1)%Z, [("revenue", 100)]);
      ((2025, 2)%Z, [("revenue", 100)]);
      ((2025, 3)%Z, [("revenue", 100)]);
      ((2025, 4)%Z, [("revenue", 100); ("eps_diluted", 161 # 100)]);
      ((2024, 4)%Z, [("revenue", 80); ("eps_diluted", 1)]);
      ((2024, 3)%Z, [("revenue", 0)]) ]
    [] [].

(** A claim with the fields the extraction schema gives it. *)
Definition sample_claim (id metric ct : string) (value : option Q) (unit period quote : string)
    (gaap : string) : Claim :=
  mkClaim (Some id) (Some metric) (Some ct) value (Some unit) None (Some period) None
    (Some gaap) false [] (Some "Total") (Some quote).

(** "Full-year revenue was 400" for FY 2025 (four quarters of 100). *)
Definition fy_revenue_claim : Claim :=
  sample_claim "fy" "revenue" "absolute" (Some 400) "dollars" "FY 2025"
    "Full-year revenue was 400" "gaap".

(** An absolute revenue claim whose [claimed_value] is missing. *)
Definition missing_value_claim : Claim :=
  sample_claim "nv" "revenue" "absolute" None "dollars" "Q4 2025" "Revenue was strong" "gaap".

(** Revenue of 100 claimed for Q3 2024, where the store holds 0. *)
Definition zero_actual_claim : Claim :=
  sample_claim "z" "revenue" "absolute" (Some 100) "dollars" "Q3 2024" "Revenue was 100" "gaap".

(** A claim about a metric the catalog does not know. *)
Definition other_metric_claim : Claim :=
  sample_claim "o" "other" "absolute" (Some 5) "dollars" "Q4 2025" "Backlog was 5" "gaap".

(** Diluted EPS of [eps] for Q4 2024 (actual 1.00), GAAP basis unknown. *)
Definition eps_claim (eps : Q) : Claim :=
  sample_claim "e" "eps_diluted" "absolute" (Some eps) "per_share" "Q4 2024"
    "Diluted EPS was strong" "unknown".

(** Diluted EPS of 1.62 for Q4 2025 (actual 1.61). *)
Definition eps_162_claim : Claim :=
  sample_claim "e2" "eps_diluted" "absolute" (Some (162 # 100)) "per_share" "Q4 2025"
    "Diluted EPS was $1.62" "gaap".

(** A batch of two YoY revenue growth claims for Q3 2024, Total context:
    one verified, one mismatched by 5 percentage points. *)
Definition growth_pair : list Item :=
  [ (sample_claim "g1" "revenue" "yoy_growth" (Some 10) "percent" "Q3 2024"
       "Revenue grew 10%" "gaap",
     set_verdict Verified (init_result (sample_claim "g1" "revenue" "yoy_growth" (Some 10)
       "percent" "Q3 2024" "Revenue grew 10%" "gaap")));
    (sample_claim "g2" "revenue" "yoy_growth" (Some 15) "percent" "Q3 2024"
       "Revenue grew 15%" "gaap",
     set_comparison 5 (Fin 5) 1 (txt "Diff: 5 pp") []
       (set_verdict Mismatch (init_result (sample_claim "g2" "revenue" "yoy_growth" (Some 15)
          "percent" "Q3 2024" "Revenue grew 15%" "gaap")))) ].

(** A YoY revenue growth claim for FY 2025. *)
Definition fy_growth_claim : Claim :=
  sample_claim "fg" "revenue" "yoy_growth" (Some 10) "percent" "FY 2025"
    "Full-year revenue grew 10%" "gaap".

(* ------------------------------------------------------------------ *)
(** ** Observations on the engine *)

(** The context [verify_single_claim] builds once the gates have passed,
    for the catalog entry [catalog]. *)
Definition engine_ctx (claim : Claim) (ticker : string) (ty tq : Z) (fmp : FactStore)
    (catalog : CatalogEntry) : Ctx :=
  let quote := quote_lower_of claim in
  let ct := get_or (claim_type claim) "" in
  let periods := resolve_periods claim ty tq in
  mkCtx claim ticker tq fmp (engine_metric claim) ct (claimed_value claim)
    (get_or (unit claim) "dollars") (scale claim) (get_or (gaap_classification claim) "unknown")
    (is_approximate_flag claim || is_approximate (qualifiers claim)) quote
    (re_search TTM_KEYWORDS quote)
    (String.eqb ct "margin"
     && (re_search BPS_CHANGE_KEYWORDS quote || re_search BPS_CHANGE_KEYWORDS2 quote))
    periods (fst (target periods)) (snd (target periods))
    (should_use_calendar_alias claim ty tq) catalog.

(** A result whose unverifiable verdicts carry an explanation. *)
Definition expl_ok (res : Res Verdict) : Prop :=
  forall v, res = Ok v -> v_verdict v = Some Unverifiable -> v_explanation v <> [].

(** A computation that does not raise. *)
Definition raise_free (res : Res Verdict) : Prop := forall e, res = Raise e -> False.

(** Whether [lookup_value] misses period [p]. *)
Definition lookup_missing (fmp : FactStore) (metric : string) (alias : bool) (p : Z * Z) : bool :=
  match lookup_value fmp metric (fst p) (snd p) alias with None => true | Some _ => false end.

(** The value [lookup_value] finds for period [p], 0 when it misses. *)
Definition lookup_or_zero (fmp : FactStore) (metric : string) (alias : bool) (p : Z * Z) : Q :=
  match lookup_value fmp metric (fst p) (snd p) alias with Some (v, _) => v | None => 0 end.

(** The verdict label and flags of a result, [None] when it raised. *)
Definition outcome (res : Res Verdict) : option (option Label * list string) :=
  match res with Ok v => Some (v_verdict v, v_flags v) | Raise _ => None end.

(** The [difference_pct] of a result, [None] when it raised. *)
Definition outcome_pct (res : Res Verdict) : option (option ext) :=
  match res with Ok v => Some (v_difference_pct v) | Raise _ => None end.

(** A fact store with Q4 2025 revenue 100 and diluted EPS 0.05. *)
Definition small_eps_store : FactStore :=
  mkStore [ ((2025, 4)%Z, [("revenue", 100); ("eps_diluted", 5 # 100)]) ] [] [].

(** Diluted EPS of 0.06 for Q4 2025 (actual 0.05), GAAP basis unknown. *)
Definition eps_006_claim : Claim :=
  sample_claim "e3" "eps_diluted" "absolute" (Some (6 # 100)) "per_share" "Q4 2025"
    "Diluted EPS was 6 cents" "unknown".

(** A year-over-year growth claim for Q3 2024 compared with Q3 2023. *)
Definition growth_claim_q3 : Claim :=
  mkClaim (Some "g") (Some "revenue") (Some "yoy_growth") (Some 10) (Some "percent") None
    (Some "Q3 2024") (Some "Q3 2023") (Some "gaap") false [] (Some "Total")
    (Some "Revenue grew 10% year over year").

(* ================================================================== *)
(** * Properties *)

(* ------------------------------------------------------------------ *)
(** ** Lemmas on the conflict-downgrade reducer *)

Lemma opt_str_eqb_eq (a b : option string) : opt_str_eqb a b = true <-> a = b.
Proof.
  destruct a as [x|], b as [y|]; simpl.
  - rewrite String.eqb_eq. split; intro H; [subst | inversion H]; reflexivity.
  - split; intro H; discriminate H.
  - split; intro H; discriminate H.
  - split; reflexivity.
Qed.

Lemma key_eqb_eq (a b : Key) : key_eqb a b = true <-> a = b.
Proof.
  destruct a as [m1 [y1 q1]], b as [m2 [y2 q2]]; unfold key_eqb, yq_eqb; simpl.
  rewrite !andb_true_iff, opt_str_eqb_eq, !Z.eqb_eq.
  split; [intros [? [? ?]]; subst; reflexivity | intro H; inversion H; auto].
Qed.

Lemma key_eqb_refl (k : Key) : key_eqb k k = true.
Proof. apply key_eqb_eq; reflexivity. Qed.

Lemma length_update_nth {A} n (f : A -> A) (l : list A) : length (update_nth n f l) = length l.
Proof. revert n; induction l as [|x l IH]; intro n; destruct n; simpl; auto. Qed.

Lemma nth_error_update_nth {A} n (f : A -> A) (l : list A) j :
  nth_error (update_nth n f l) j =
  if Nat.eqb j n then option_map f (nth_error l j) else nth_error l j.
Proof.
  revert n j; induction l as [|x l IH]; intros n j.
  - destruct n, j, (Nat.eqb _ _); reflexivity.
  - destruct n, j; simpl; try reflexivity. apply IH.
Qed.

(** Updating a list in place at each index of [L] with an idempotent [f]. *)
Lemma fold_update_nth_idem {A} (f : A -> A) (Hf : forall x, f (f x) = f x)
    (L : list nat) (vs : list A) j :
  nth_error (fold_left (fun vs i => update_nth i f vs) L vs) j =
  if existsb (Nat.eqb j) L then option_map f (nth_error vs j) else nth_error vs j.
Proof.
  revert vs; induction L as [|i L IH]; intro vs; simpl; [reflexivity|].
  rewrite IH, nth_error_update_nth.
  destruct (Nat.eqb j i), (existsb (Nat.eqb j) L); simpl; try reflexivity.
  destruct (nth_error vs j); simpl; rewrite ?Hf; reflexivity.
Qed.

Lemma fold_update_nth_length {A} (f : A -> A) (L : list nat) (vs : list A) :
  length (fold_left (fun vs i => update_nth i f vs) L vs) = length vs.
Proof.
  revert vs; induction L as [|i L IH]; intro vs; simpl; [reflexivity|].
  rewrite IH; apply length_update_nth.
Qed.

Lemma downgrade_one_idem (rid : string) (v : Verdict) :
  downgrade_one rid (downgrade_one rid v) = downgrade_one rid v.
Proof.
  unfold downgrade_one.
  destruct (v_verdict v) as [[]|] eqn:E; rewrite ?E; try reflexivity.
  destruct (v_difference_pct v) as [d|] eqn:D; rewrite ?E, ?D; try reflexivity.
  destruct (ext_lt (ext_abs d) 3) eqn:L; rewrite ?E, ?D, ?L; reflexivity.
Qed.

Lemma downgrade_one_reference (rid : string) (v : Verdict) :
  is_reference (downgrade_one rid v) = is_reference v.
Proof.
  unfold downgrade_one, is_reference.
  destruct (v_verdict v) as [[]|] eqn:E; try (rewrite E; reflexivity).
  destruct (v_difference_pct v) as [d|]; [|rewrite E; reflexivity].
  destruct (ext_lt (ext_abs d) 3); [rewrite E|]; reflexivity.
Qed.

Lemma find_filter {A} (f g : A -> bool) (l : list A) :
  find g (filter f l) = find (fun x => f x && g x) l.
Proof.
  induction l as [|x l IH]; simpl; [reflexivity|].
  destruct (f x); simpl; [destruct (g x)|]; auto.
Qed.

Lemma find_ext_in {A} (f g : A -> bool) (l : list A) :
  (forall x, In x l -> f x = g x) -> find f l = find g l.
Proof.
  induction l as [|x l IH]; intro H; simpl; [reflexivity|].
  rewrite (H x (or_introl eq_refl)), IH; [reflexivity|intros; apply H; right; assumption].
Qed.

Lemma filter_seq_S (f : nat -> bool) n :
  filter f (seq 0 (S n)) = (filter f (seq 0 n) ++ (if f n then [n] else []))%list.
Proof. rewrite seq_S, filter_app. simpl. destruct (f n); reflexivity. Qed.

Lemma filter_seq_none (f : nat -> bool) n :
  (forall j, (j < n)%nat -> f j = false) -> filter f (seq 0 n) = [].
Proof.
  intro H; induction n as [|n IH]; [reflexivity|].
  rewrite filter_seq_S, IH by (intros; apply H; lia). rewrite H by lia. reflexivity.
Qed.

Lemma setdefault_append_keys k i g k' :
  In k' (map fst (setdefault_append k i g)) <-> k = k' \/ In k' (map fst g).
Proof.
  induction g as [|[k0 is0] g IH]; simpl; [tauto|].
  destruct (key_eqb k k0) eqn:E; simpl.
  - apply key_eqb_eq in E; subst; tauto.
  - rewrite IH; tauto.
Qed.

Lemma setdefault_append_nodup k i g :
  NoDup (map fst g) -> NoDup (map fst (setdefault_append k i g)).
Proof.
  induction g as [|[k0 is0] g IH]; simpl; intro H.
  - constructor; [simpl; tauto | constructor].
  - inversion H as [|? ? Hn Hd]; subst.
    destruct (key_eqb k k0) eqn:E; simpl; constructor; auto.
    rewrite setdefault_append_keys. intros [Heq|Hin]; [|contradiction].
    subst; rewrite key_eqb_refl in E; discriminate.
Qed.

Lemma setdefault_append_in k i g k' is' :
  NoDup (map fst g) -> In (k', is') (setdefault_append k i g) ->
  (k' <> k /\ In (k', is') g) \/
  (k' = k /\ ((exists is0, In (k, is0) g /\ is' = (is0 ++ [i])%list)
              \/ (~ In k (map fst g) /\ is' = [i]))).
Proof.
  induction g as [|[k0 is0] g IH]; simpl; intros Hnd Hin.
  - destruct Hin as [Heq|[]]; inversion Heq; subst. right; split; [reflexivity|]. right; split; auto.
  - inversion Hnd as [|? ? Hn Hd]; subst.
    destruct (key_eqb k k0) eqn:E.
    + apply key_eqb_eq in E; subst k0.
      destruct Hin as [Heq|Hin].
      * inversion Heq; subst. right; split; [reflexivity|]. left; exists is0; split; auto.
      * left; split; [|right; assumption].
        intro; subst. apply Hn. apply (in_map fst _ _ Hin).
    + destruct Hin as [Heq|Hin].
      * inversion Heq; subst. left; split; [|left; reflexivity].
        intro; subst; rewrite key_eqb_refl in E; discriminate.
      * destruct (IH Hd Hin) as [[Hne Hin']|[Heq [[is1 [Hin1 Heq1]]|[Hnin Heq1]]]].
        -- left; split; [assumption | right; assumption].
        -- right; split; [assumption|]. left; exists is1; split; [right|]; assumption.
        -- right; split; [assumption|]. right; split; [|assumption].
           intros [H0|H0]; [subst; rewrite key_eqb_refl in E; discriminate | contradiction].
Qed.

Section Grouping.
Variable items : list Item.

(** Index [j] of the batch carries the group key [k]. *)
Definition key_at (k : Key) (j : nat) : bool :=
  match nth_error items j with
  | Some it => match conflict_key it with Some k' => key_eqb k k' | None => false end
  | None => false
  end.

(** The dict built by the first loop after its first [i] iterations: one
    entry per key, holding the indices below [i] of that key in order. *)
Definition groups_ok (g : list (Key * list nat)) (i : nat) : Prop :=
  NoDup (map fst g) /\
  (forall k is, In (k, is) g -> is = filter (key_at k) (seq 0 i)) /\
  (forall k j, (j < i)%nat -> key_at k j = true -> In k (map fst g)).

Lemma groups_ok_step g i item :
  nth_error items i = Some item -> groups_ok g i ->
  groups_ok (match conflict_key item with
             | Some k => setdefault_append k i g
             | None => g
             end) (S i).
Proof.
  intros Hi [Hnd [Hfil Hcov]].
  assert (Hkat : forall k, key_at k i =
            match conflict_key item with Some k' => key_eqb k k' | None => false end)
    by (intro; unfold key_at; rewrite Hi; reflexivity).
  destruct (conflict_key item) as [k0|] eqn:Ek.
  - split; [apply setdefault_append_nodup; assumption|split].
    + intros k is Hin. rewrite filter_seq_S, Hkat.
      destruct (setdefault_append_in _ _ _ _ _ Hnd Hin)
        as [[Hne Hin']|[-> [[is0 [Hin0 ->]]|[Hnin ->]]]].
      * rewrite (Hfil _ _ Hin').
        destruct (key_eqb k k0) eqn:E; [apply key_eqb_eq in E; contradiction|].
        rewrite app_nil_r; reflexivity.
      * rewrite (Hfil _ _ Hin0), key_eqb_refl. reflexivity.
      * rewrite key_eqb_refl, filter_seq_none; [reflexivity|].
        intros j Hj. destruct (key_at k0 j) eqn:E; [|reflexivity].
        exfalso; apply Hnin; exact (Hcov _ _ Hj E).
    + intros k j Hj Hk. apply setdefault_append_keys.
      destruct (Nat.eq_dec j i) as [->|Hne].
      * rewrite Hkat in Hk. apply key_eqb_eq in Hk. left; symmetry; assumption.
      * right. apply (Hcov k j); [lia | assumption].
  - split; [assumption|split].
    + intros k is Hin. rewrite filter_seq_S, Hkat, app_nil_r. apply Hfil; assumption.
    + intros k j Hj Hk. destruct (Nat.eq_dec j i) as [->|Hne].
      * rewrite Hkat in Hk; discriminate.
      * apply (Hcov k j); [lia|assumption].
Qed.

Lemma group_indices_ok pre rest g :
  items = (pre ++ rest)%list -> groups_ok g (length pre) ->
  groups_ok (group_indices (length pre) rest g) (length items).
Proof.
  revert pre g; induction rest as [|item rest IH]; intros pre g Hsplit Hok; simpl.
  - rewrite Hsplit, app_nil_r. assumption.
  - replace (S (length pre)) with (length (pre ++ [item])) by (rewrite length_app; simpl; lia).
    apply IH; [rewrite Hsplit, <- app_assoc; reflexivity|].
    rewrite length_app; simpl; rewrite Nat.add_1_r.
    apply groups_ok_step; [|assumption].
    rewrite Hsplit, nth_error_app2, Nat.sub_diag by lia; reflexivity.
Qed.

Lemma grouped_ok : groups_ok (group_indices 0 items []) (length items).
Proof.
  apply (group_indices_ok [] items []); [reflexivity|].
  split; [constructor|split]; simpl; [intros ? ? []|intros; lia].
Qed.

Lemma key_at_in k j :
  key_at k j = true -> exists it, nth_error items j = Some it /\ conflict_key it = Some k.
Proof.
  unfold key_at. destruct (nth_error items j) as [it|]; [|discriminate].
  destruct (conflict_key it) as [k'|] eqn:E; [|discriminate].
  intro H; apply key_eqb_eq in H; subst; eauto.
Qed.

(** The selection of the reference, as [conflict_outcome] writes it. *)
Lemma outcome_find_pred k j :
  (match nth_error items j with
   | Some it => match conflict_key it with
                | Some k' => key_eqb k k' && is_reference (snd it)
                | None => false
                end
   | None => false
   end) = key_at k j && is_reference_at items j.
Proof.
  unfold key_at, is_reference_at.
  destruct (nth_error items j) as [[c v]|]; [|reflexivity].
  destruct (conflict_key (c, v)); reflexivity.
Qed.

Lemma conflict_outcome_shape c v :
  conflict_outcome items (c, v) = (c, v) \/
  exists rid, conflict_outcome items (c, v) = (c, downgrade_one rid v).
Proof.
  unfold conflict_outcome.
  destruct (conflict_key (c, v)); [|left; reflexivity].
  destruct (find _ _) as [r|]; [|left; reflexivity].
  destruct (nth_error items r) as [[rc ?]|]; [|left; reflexivity].
  right; eexists; reflexivity.
Qed.

Definition in_groups (done : list (Key * list nat)) (j : nat) : bool :=
  existsb (fun g => existsb (Nat.eqb j) (snd g)) done.

(** The list after the groups [done] of the second loop are processed. *)
Definition processed (done : list (Key * list nat)) (vs : list Item) : Prop :=
  forall j, nth_error vs j =
    option_map (fun it => if in_groups done j then conflict_outcome items it else it)
      (nth_error items j).

Lemma processed_length done vs : processed done vs -> length vs = length items.
Proof.
  intro H.
  assert (E : forall j, nth_error vs j = None <-> nth_error items j = None)
    by (intro j; rewrite H; destruct (nth_error items j); simpl; split; congruence).
  destruct (Nat.compare_spec (length vs) (length items)) as [|Hl|Hl]; [assumption| |].
  - exfalso. assert (A := proj2 (nth_error_None vs (length vs)) (le_n _)).
    apply E in A. apply nth_error_None in A. lia.
  - exfalso. assert (A := proj2 (nth_error_None items (length items)) (le_n _)).
    apply E in A. apply nth_error_None in A. lia.
Qed.

Lemma processed_reference done vs j :
  processed done vs -> is_reference_at vs j = is_reference_at items j.
Proof.
  intro H. unfold is_reference_at. rewrite H.
  destruct (nth_error items j) as [[c v]|]; simpl; [|reflexivity].
  destruct (in_groups done j); [|reflexivity].
  destruct (conflict_outcome_shape c v) as [->|[rid ->]]; [reflexivity|].
  apply downgrade_one_reference.
Qed.

Lemma in_groups_snoc done k is j :
  in_groups (done ++ [(k, is)]) j = in_groups done j || existsb (Nat.eqb j) is.
Proof. unfold in_groups; rewrite existsb_app; simpl; rewrite orb_false_r; reflexivity. Qed.

Lemma process_group_ok done vs k is :
  processed done vs -> is = filter (key_at k) (seq 0 (length items)) ->
  processed (done ++ [(k, is)]) (process_group vs (k, is)).
Proof.
  intros Hp His.
  assert (Hmem : forall j, existsb (Nat.eqb j) is = true ->
            exists it, nth_error items j = Some it /\ conflict_key it = Some k).
  { intros j Hj. apply existsb_exists in Hj as [j' [Hin Heq]].
    apply Nat.eqb_eq in Heq; subst j'.
    rewrite His in Hin. apply filter_In in Hin as [_ Hk]. apply key_at_in; assumption. }
  assert (Hfind : find (is_reference_at vs) is =
     find (fun j => match nth_error items j with
                    | Some it => match conflict_key it with
                                 | Some k' => key_eqb k k' && is_reference (snd it)
                                 | None => false
                                 end
                    | None => false
                    end) (seq 0 (length items))).
  { rewrite His, find_filter. apply find_ext_in. intros j _.
    rewrite outcome_find_pred, (processed_reference done vs j Hp). reflexivity. }
  unfold process_group, processed; simpl snd. rewrite Hfind. intro j.
  rewrite in_groups_snoc.
  destruct (find _ (seq 0 (length items))) as [r|] eqn:Ef.
  - assert (Hr : (r < length items)%nat)
      by (apply find_some in Ef as [Hin _]; apply in_seq in Hin; lia).
    destruct (nth_error items r) as [[rc rv]|] eqn:Er;
      [|apply nth_error_None in Er; lia].
    rewrite (Hp r), Er. simpl.
    remember (if in_groups done r then conflict_outcome items (rc, rv) else (rc, rv)) as o eqn:Eo.
    assert (Hrc : fst o = rc)
      by (subst o; destruct (in_groups done r);
          [destruct (conflict_outcome_shape rc rv) as [->|[? ->]]|]; reflexivity).
    destruct o as [rc' rv']. simpl in Hrc. subst rc'.
    rewrite fold_update_nth_idem
      by (intros [c v]; simpl; rewrite downgrade_one_idem; reflexivity).
    rewrite (Hp j).
    destruct (existsb (Nat.eqb j) is) eqn:Ej.
    + destruct (Hmem j Ej) as [[c v] [Ej' Ek]]. rewrite Ej'. simpl. rewrite orb_true_r.
      assert (Ho : conflict_outcome items (c, v) = (c, downgrade_one (claim_id_str rc) v))
        by (unfold conflict_outcome; rewrite Ek; cbv beta iota; rewrite Ef, Er; reflexivity).
      rewrite Ho. destruct (in_groups done j); simpl; rewrite ?downgrade_one_idem; reflexivity.
    + rewrite orb_false_r. reflexivity.
  - rewrite (Hp j).
    destruct (existsb (Nat.eqb j) is) eqn:Ej; [|rewrite orb_false_r; reflexivity].
    destruct (Hmem j Ej) as [it [Ej' Ek]]. rewrite Ej'. simpl. rewrite orb_true_r.
    assert (Ho : conflict_outcome items it = it)
      by (unfold conflict_outcome; rewrite Ek; cbv beta iota; rewrite Ef; reflexivity).
    rewrite Ho. destruct (in_groups done j); reflexivity.
Qed.

Lemma process_groups_ok gs done vs :
  (forall k is, In (k, is) gs -> is = filter (key_at k) (seq 0 (length items))) ->
  processed done vs -> processed (done ++ gs) (fold_left process_group gs vs).
Proof.
  revert done vs; induction gs as [|[k is] gs IH]; intros done vs Hgs Hp; simpl.
  - rewrite app_nil_r; assumption.
  - replace (done ++ (k, is) :: gs)%list with ((done ++ [(k, is)]) ++ gs)%list
      by (rewrite <- app_assoc; reflexivity).
    apply IH; [intros; apply Hgs; right; assumption|].
    apply process_group_ok; [assumption | apply Hgs; left; reflexivity].
Qed.

End Grouping.

(* ------------------------------------------------------------------ *)
(** ** C6: the conflict-downgrade reducer *)

(** C6 (amended): [_downgrade_conflicting_mismatches] maps each
    (claim, verdict) pair of the batch on its own: only a claim whose
    claim_type is "absolute", whose verdict is verified, close_match or
    mismatch, whose metric_context is empty or Total-like and whose period
    text parses gets a group key (metric_type, parsed period); such a claim
    whose verdict is mismatch with a difference_pct of absolute value at
    least 3 becomes unverifiable, flagged conflicting_transcript_claim, with
    an explanation naming the first verified/close_match claim of its group,
    when the group has one.  Every other pair, the verified one included, is
    left unchanged. *)
Theorem downgrade_conflicting_mismatches_outcome (items : list Item) :
  downgrade_conflicting_mismatches items = map (conflict_outcome items) items.
Proof.
  destruct (grouped_ok items) as [Hnd [Hfil Hcov]].
  assert (Hp : processed items (group_indices 0 items [])
                 (downgrade_conflicting_mismatches items)).
  { unfold downgrade_conflicting_mismatches.
    apply (process_groups_ok items _ [] items); [exact Hfil|].
    intro j; destruct (nth_error items j); reflexivity. }
  apply nth_error_ext. intro j. rewrite Hp, nth_error_map.
  destruct (nth_error items j) as [it|] eqn:Ej; [simpl|reflexivity].
  destruct (in_groups (group_indices 0 items []) j) eqn:Eg; [reflexivity|].
  destruct (conflict_key it) as [k|] eqn:Ek.
  - exfalso.
    assert (Hk : key_at items k j = true) by (unfold key_at; rewrite Ej, Ek; apply key_eqb_refl).
    assert (Hj : (j < length items)%nat) by (apply nth_error_Some; congruence).
    destruct (proj1 (in_map_iff _ _ _) (Hcov k j Hj Hk)) as [[k' is] [Hk' Hin]].
    simpl in Hk'; subst k'.
    assert (Hjis : In j is) by (rewrite (Hfil _ _ Hin); apply filter_In; split; [apply in_seq; lia|assumption]).
    assert (Hg : in_groups (group_indices 0 items []) j = true).
    { apply existsb_exists. exists (k, is); split; [assumption|].
      apply existsb_exists. exists j; split; [assumption | apply Nat.eqb_refl]. }
    congruence.
  - unfold conflict_outcome; rewrite Ek; reflexivity.
Qed.

(** C6 (counterexample): two YoY revenue growth claims for the same quarter,
    Total context, one verified and one mismatched by 5 percentage points,
    leave the reducer unchanged: growth claims are never grouped. *)
Lemma growth_pair_not_downgraded :
  downgrade_conflicting_mismatches growth_pair = growth_pair.
Proof. vm_compute. reflexivity. Qed.

(* ------------------------------------------------------------------ *)
(** ** The gates of [verify_single_claim] *)

Lemma resolve_periods_quarter claim ty tq :
  error (resolve_periods claim ty tq) = None -> snd (target (resolve_periods claim ty tq)) <> 0%Z.
Proof.
  unfold resolve_periods.
  destruct (match parse_period (period claim) with Some p => p | None => (ty, tq) end) as [y q].
  destruct (Z.eqb_spec q 0) as [->|Hq]; [simpl; discriminate|].
  intros _. repeat (match goal with |- context [match ?s with _ => _ end] => destruct s end); simpl; exact Hq.
Qed.

Lemma apply_misleading_checks_ok r claim fmp y q :
  exists v, apply_misleading_checks r claim fmp y q = Ok v.
Proof.
  unfold apply_misleading_checks.
  destruct (v_verdict r) as [[]|]; try (eexists; reflexivity);
  destruct (run_all_heuristics claim fmp y q) as [[|f fl] rs]; simpl; eauto;
  destruct (v_verdict r) as [[]|]; eauto.
Qed.

Lemma apply_misleading_checks_expl r claim fmp y q v :
  v_explanation r <> [] -> apply_misleading_checks r claim fmp y q = Ok v -> v_explanation v <> [].
Proof.
  unfold apply_misleading_checks; intros He.
  destruct (v_verdict r) as [[]|] eqn:Ev;
  try (intros H; injection H as <-; exact He);
  destruct (run_all_heuristics claim fmp y q) as [[|f fl] rs];
  try (intros H; injection H as <-; exact He);
  simpl; rewrite Ev; intros H; injection H as <-; simpl;
  try exact He; destruct (v_explanation r); simpl; congruence.
Qed.

Lemma apply_misleading_checks_label r claim fmp y q v :
  apply_misleading_checks r claim fmp y q = Ok v ->
  (v_verdict v = v_verdict r \/ v_verdict v = Some Misleading) /\
  v_difference v = v_difference r /\ v_flags v = v_flags r /\ v_actual_value v = v_actual_value r.
Proof.
  unfold apply_misleading_checks.
  destruct (v_verdict r) as [[]|] eqn:Ev;
  try (intros H; injection H as <-; auto; fail);
  destruct (run_all_heuristics claim fmp y q) as [[|f fl] rs];
  try (intros H; injection H as <-; auto; fail);
  simpl; rewrite Ev; intros H; injection H as <-; simpl; auto.
Qed.

Lemma verify_single_claim_cases claim t ty tq fmp :
  (exists v, verify_single_claim claim t ty tq fmp = Ok v /\
     v_verdict v = Some Unverifiable /\ v_explanation v <> [] /\ v_actual_value v = None)
  \/ (exists catalog,
        String.eqb (get_or (gaap_classification claim) "unknown") "non_gaap" = false /\
        error (resolve_periods claim ty tq) = None /\
        get_catalog_entry (engine_metric claim) = Some catalog /\
        verify_single_claim claim t ty tq fmp
        = dispatch (engine_ctx claim t ty tq fmp catalog) (init_result claim)).
Proof.
  unfold verify_single_claim, engine_ctx, unverifiable; cbv zeta.
  destruct (String.eqb (get_or (gaap_classification claim) "unknown") "non_gaap") eqn:Eg;
    [left; eexists; split; [reflexivity|]; simpl; repeat split; discriminate|].
  repeat match goal with
  | |- context [if ?b then Ok _ else _] =>
      destruct b; [left; eexists; split; [reflexivity|]; simpl; repeat split; discriminate|]
  end.
  destruct (error (resolve_periods claim ty tq)) eqn:Ee;
    [left; eexists; split; [reflexivity|]; simpl; repeat split; discriminate|].
  destruct (target (resolve_periods claim ty tq)) as [y q] eqn:Et.
  destruct (get_catalog_entry (engine_metric claim)) as [cat|] eqn:Ec;
    [|left; eexists; split; [reflexivity|]; simpl; repeat split; discriminate].
  right; exists cat; repeat split; auto.
Qed.

(* ------------------------------------------------------------------ *)
(** ** Explanations and exceptions of the branches *)

Ltac split_hyp H :=
  repeat (cbv beta iota zeta in H;
          match type of H with
          | context [match ?s with _ => _ end] => destruct s eqn:?
          end).

Ltac expl_leaf H :=
  first
  [ discriminate H
  | injection H as <-; simpl; discriminate
  | eapply apply_misleading_checks_expl; [|exact H]; simpl; discriminate ].

Ltac expl_solve f :=
  let v := fresh "v" in let H := fresh "H" in let Hu := fresh "Hu" in
  intros v H Hu; unfold f, unverifiable, definition_gap_check, verify_absolute,
    verify_growth, verify_margin, signed_bps_value in H;
  unfold bind, num in H;
  split_hyp H;
  first [ expl_leaf H | match goal with Hl : forall w, _ = Ok w -> _ |- _ => exact (Hl _ H Hu) end ].

Lemma absolute_single_expl x r nrm : expl_ok (absolute_single x r nrm).
Proof. expl_solve absolute_single. Qed.

Lemma compare_aggregate_expl x r nrm t sr l f e : expl_ok (compare_aggregate x r nrm t sr l f e).
Proof. expl_solve compare_aggregate. Qed.

Lemma absolute_multiperiod_expl x r nrm : expl_ok (absolute_multiperiod x r nrm).
Proof.
  pose proof (fun t sr l f e => compare_aggregate_expl x r nrm t sr l f e) as L0.
  intros v H Hu; unfold absolute_multiperiod, unverifiable in H; split_hyp H;
  first [ expl_leaf H | solve [eapply L0; eauto] ].
Qed.

Lemma absolute_full_year_expl x r nrm : expl_ok (absolute_full_year x r nrm).
Proof.
  pose proof (fun t sr l f e => compare_aggregate_expl x r nrm t sr l f e) as L0.
  intros v H Hu; unfold absolute_full_year, unverifiable in H; split_hyp H;
  first [ expl_leaf H | solve [eapply L0; eauto] ].
Qed.

Lemma absolute_total_expenses_expl x r nrm res :
  absolute_total_expenses x r nrm = Some res -> expl_ok res.
Proof.
  intros E v H Hu; unfold absolute_total_expenses, bind, verify_absolute, num in E.
  split_hyp E; try discriminate E; injection E as <-; split_hyp H; expl_leaf H.
Qed.

Lemma absolute_branch_expl x r : expl_ok (absolute_branch x r).
Proof.
  intros v H Hu; unfold absolute_branch, unverifiable, bind in H.
  destruct (normalize_claimed_value (c_claimed x) (c_unit x) (c_scale x)) as [nrm|]; [|discriminate H].
  destruct (mem (c_metric x) SEGMENT_METRICS && is_segment_claim (c_claim x)); [expl_leaf H|].
  destruct (c_multiperiod x); [exact (absolute_multiperiod_expl _ _ _ _ H Hu)|].
  destruct (Z.eqb (c_quarter x) 0); [exact (absolute_full_year_expl _ _ _ _ H Hu)|].
  destruct (absolute_total_expenses x r nrm) eqn:E;
    [exact (absolute_total_expenses_expl _ _ _ _ E _ H Hu) | exact (absolute_single_expl _ _ _ _ H Hu)].
Qed.

Lemma growth_full_year_expl x r : expl_ok (growth_full_year x r).
Proof. expl_solve growth_full_year. Qed.

Lemma growth_compare_expl x r b q f c p : expl_ok (growth_compare x r b q f c p).
Proof. expl_solve growth_compare. Qed.

Lemma growth_branch_expl x r : expl_ok (growth_branch x r).
Proof.
  pose proof (fun r b q f c p => growth_compare_expl x r b q f c p) as L0.
  pose proof (growth_full_year_expl x r) as L1.
  intros v H Hu; unfold growth_branch, unverifiable in H; split_hyp H;
  first [ expl_leaf H | solve [eapply L0; eauto] | solve [eapply L1; eauto] ].
Qed.

Lemma margin_bps_change_expl x r nf df ln : expl_ok (margin_bps_change x r nf df ln).
Proof. expl_solve margin_bps_change. Qed.

Lemma margin_full_year_expl x r nf df tm : expl_ok (margin_full_year x r nf df tm).
Proof. expl_solve margin_full_year. Qed.

Lemma margin_compare_expl x r nf df tm n d : expl_ok (margin_compare x r nf df tm n d).
Proof. expl_solve margin_compare. Qed.

Lemma margin_branch_expl x r : expl_ok (margin_branch x r).
Proof.
  pose proof (fun r nf df tm n d => margin_compare_expl x r nf df tm n d) as L0.
  pose proof (fun nf df ln => margin_bps_change_expl x r nf df ln) as L1.
  pose proof (fun nf df tm => margin_full_year_expl x r nf df tm) as L2.
  intros v H Hu; unfold margin_branch, unverifiable in H; split_hyp H;
  first [ expl_leaf H | solve [eapply L0; eauto] | solve [eapply L1; eauto] | solve [eapply L2; eauto] ].
Qed.

Lemma dispatch_expl x r : expl_ok (dispatch x r).
Proof.
  intros v H Hu; unfold dispatch, unverifiable in H; cbv zeta in H.
  destruct (String.eqb (c_claim_type x) "absolute"); [exact (absolute_branch_expl _ _ _ H Hu)|].
  destruct (_ || _); [exact (growth_branch_expl _ _ _ H Hu)|].
  destruct (String.eqb (c_claim_type x) "margin"); [exact (margin_branch_expl _ _ _ H Hu)|].
  expl_leaf H.
Qed.

Ltac raise_leaf H :=
  first
  [ discriminate H
  | match type of H with
    | apply_misleading_checks ?r ?c ?f ?y ?q = _ =>
        destruct (apply_misleading_checks_ok r c f y q) as [? Ha]; congruence
    end
  | match goal with Hl : forall e, _ = Raise e -> False |- _ => exact (Hl _ H) end
  | match goal with E : _ = Raise _ |- _ => solve [split_hyp E; discriminate E] end ].

Ltac raise_solve f :=
  let e := fresh "e" in let H := fresh "H" in
  intros e H; unfold f, unverifiable, definition_gap_check, verify_absolute,
    verify_growth, verify_margin, signed_bps_value, normalize_claimed_value in H;
  unfold bind, num in H;
  try match goal with Hc : c_claimed _ = Some _ |- _ => rewrite Hc in H end;
  split_hyp H; raise_leaf H.

Lemma absolute_single_raise_free x r n : raise_free (absolute_single x r (Some n)).
Proof. intros e H; unfold absolute_single, unverifiable, definition_gap_check, verify_absolute,
    verify_growth, verify_margin, signed_bps_value, normalize_claimed_value in H;
  unfold bind, num in H.
  split_hyp H; raise_leaf H. Qed.

Lemma compare_aggregate_raise_free x r n t sr l f e :
  raise_free (compare_aggregate x r (Some n) t sr l f e).
Proof. raise_solve compare_aggregate. Qed.

Lemma absolute_multiperiod_raise_free x r n : raise_free (absolute_multiperiod x r (Some n)).
Proof.
  pose proof (fun t sr l f e => compare_aggregate_raise_free x r n t sr l f e) as L0.
  intros e H; unfold absolute_multiperiod, unverifiable in H; split_hyp H;
  first [ raise_leaf H | solve [eapply L0; eauto] ].
Qed.

Lemma absolute_full_year_raise_free x r n : raise_free (absolute_full_year x r (Some n)).
Proof.
  pose proof (fun t sr l f e => compare_aggregate_raise_free x r n t sr l f e) as L0.
  intros e H; unfold absolute_full_year, unverifiable in H; split_hyp H;
  first [ raise_leaf H | solve [eapply L0; eauto] ].
Qed.

Lemma absolute_total_expenses_raise_free x r n res :
  absolute_total_expenses x r (Some n) = Some res -> raise_free res.
Proof.
  intros E e H; unfold absolute_total_expenses, bind, verify_absolute, num in E.
  split_hyp E; try discriminate E; injection E as <-; split_hyp H; raise_leaf H.
Qed.

Lemma absolute_branch_raise_free x r c : c_claimed x = Some c -> raise_free (absolute_branch x r).
Proof.
  intros Hc e H; unfold absolute_branch, unverifiable, bind, normalize_claimed_value, num in H.
  rewrite Hc in H.
  assert (K : forall n, (if mem (c_metric x) SEGMENT_METRICS && is_segment_claim (c_claim x) then
      Ok (set_flags (v_flags r ++ ["segment_claim"])
        (set_explanation [piece "This is a {} {} claim. Our data only includes total company-level figures."
                    [AStr (ctx_label (c_claim x)); AStr (spaced (c_metric x))]] (set_verdict Unverifiable r)))
    else if c_multiperiod x then absolute_multiperiod x r (Some n)
    else if Z.eqb (c_quarter x) 0 then absolute_full_year x r (Some n)
    else match absolute_total_expenses x r (Some n) with
         | Some res => res
         | None => absolute_single x r (Some n)
         end) <> Raise e).
  { intros n K.
    destruct (mem (c_metric x) SEGMENT_METRICS && is_segment_claim (c_claim x)); [discriminate K|].
    destruct (c_multiperiod x); [exact (absolute_multiperiod_raise_free _ _ _ _ K)|].
    destruct (Z.eqb (c_quarter x) 0); [exact (absolute_full_year_raise_free _ _ _ _ K)|].
    destruct (absolute_total_expenses x r (Some n)) eqn:E;
      [exact (absolute_total_expenses_raise_free _ _ _ _ E _ K) | exact (absolute_single_raise_free _ _ _ _ K)]. }
  repeat (destruct (String.eqb _ _)); exact (K _ H).
Qed.

Lemma growth_full_year_raise_free x r c : c_claimed x = Some c -> raise_free (growth_full_year x r).
Proof. intros Hc; raise_solve growth_full_year. Qed.

Lemma growth_compare_raise_free x r b q f cv pv c :
  c_claimed x = Some c -> raise_free (growth_compare x r b q f cv pv).
Proof. intros Hc; raise_solve growth_compare. Qed.

Lemma growth_branch_raise_free x r c : c_claimed x = Some c -> raise_free (growth_branch x r).
Proof.
  intros Hc.
  pose proof (fun r b q f cv pv => growth_compare_raise_free x r b q f cv pv c Hc) as L0.
  pose proof (growth_full_year_raise_free x r c Hc) as L1.
  intros e H; unfold growth_branch, unverifiable in H; split_hyp H;
  first [ raise_leaf H | solve [eapply L0; eauto] | solve [eapply L1; eauto] ].
Qed.

Lemma margin_bps_change_raise_free x r nf df ln c :
  c_claimed x = Some c -> raise_free (margin_bps_change x r nf df ln).
Proof. intros Hc; raise_solve margin_bps_change. Qed.

Lemma margin_full_year_raise_free x r nf df tm c :
  c_claimed x = Some c -> raise_free (margin_full_year x r nf df tm).
Proof. intros Hc; raise_solve margin_full_year. Qed.

Lemma margin_compare_raise_free x r nf df tm n d c :
  c_claimed x = Some c -> raise_free (margin_compare x r nf df tm n d).
Proof. intros Hc; raise_solve margin_compare. Qed.

Lemma margin_branch_raise_free x r c : c_claimed x = Some c -> raise_free (margin_branch x r).
Proof.
  intros Hc.
  pose proof (fun r nf df tm n d => margin_compare_raise_free x r nf df tm n d c Hc) as L0.
  pose proof (fun nf df ln => margin_bps_change_raise_free x r nf df ln c Hc) as L1.
  pose proof (fun nf df tm => margin_full_year_raise_free x r nf df tm c Hc) as L2.
  intros e H; unfold margin_branch, unverifiable in H; split_hyp H;
  first [ raise_leaf H | solve [eapply L0; eauto] | solve [eapply L1; eauto] | solve [eapply L2; eauto] ].
Qed.

Lemma dispatch_raise_free x r c : c_claimed x = Some c -> raise_free (dispatch x r).
Proof.
  intros Hc e H; unfold dispatch, unverifiable in H; cbv zeta in H.
  destruct (String.eqb (c_claim_type x) "absolute"); [exact (absolute_branch_raise_free _ _ _ Hc _ H)|].
  destruct (_ || _); [exact (growth_branch_raise_free _ _ _ Hc _ H)|].
  destruct (String.eqb (c_claim_type x) "margin"); [exact (margin_branch_raise_free _ _ _ Hc _ H)|].
  discriminate H.
Qed.

(* ------------------------------------------------------------------ *)
(** ** C1, C2, C4 and C10: the engine *)

Lemma growth_compare_mismatch x r b q f cv pv v :
  c_metric x = "revenue" -> mem "revenue_definition_mismatch" (v_flags r) = false ->
  growth_compare x r b q f cv pv = Ok v -> v_verdict v = Some Mismatch ->
  exists d, v_difference v = Some d /\ Qabs d <= 3.
Proof.
  intros Hm Hf H Hv.
  unfold growth_compare, unverifiable, verify_growth in H; unfold bind, num in H.
  rewrite Hm, Hf in H.
  split_hyp H;
  try (injection H as <-; discriminate Hv); try discriminate H.
  all: apply apply_misleading_checks_label in H; destruct H as [_ [Hd _]];
    rewrite Hd; simpl; eexists; split; [reflexivity|].
  all: match goal with E : _ && _ = false |- _ => simpl in E; rewrite andb_true_r in E;
         unfold Qgt, Qlt in E; apply negb_false_iff, Qle_bool_iff in E; exact E end.
Qed.

Lemma growth_compare_revenue_gap x r b q f cv pv c :
  c_metric x = "revenue" -> mem "revenue_definition_mismatch" (v_flags r) = false ->
  c_claimed x = Some c -> Qeq_bool pv 0 = false ->
  3 < Qabs (c - (cv - pv) / Qabs pv * 100) ->
  exists v, growth_compare x r b q f cv pv = Ok v /\ v_verdict v = Some Unverifiable /\
            v_flags v = (v_flags r ++ ["revenue_growth_definition_mismatch"])%list.
Proof.
  intros Hm Hf Hc Hp Hgt.
  unfold growth_compare, verify_growth, compute_yoy_growth, unverifiable, bind, num.
  rewrite Hm, Hf, Hc, Hp; cbv beta iota zeta.
  assert (E : Qgt (Qabs (c - (cv - pv) / Qabs pv * 100)) 3 = true).
  { unfold Qgt, Qlt. apply negb_true_iff. destruct (Qle_bool _ _) eqn:E; [|reflexivity].
    apply Qle_bool_iff in E. lra. }
  rewrite String.eqb_refl; cbn [gc_difference_pp andb negb]; rewrite E; cbv beta iota. eexists; repeat split.
Qed.

Lemma growth_branch_mismatch x r v :
  c_metric x = "revenue" -> mem "revenue_definition_mismatch" (v_flags r) = false ->
  c_quarter x <> 0%Z ->
  growth_branch x r = Ok v -> v_verdict v = Some Mismatch ->
  exists d, v_difference v = Some d /\ Qabs d <= 3.
Proof.
  intros Hm Hf Hq H Hv.
  unfold growth_branch, unverifiable in H.
  apply Z.eqb_neq in Hq; rewrite Hq in H.
  split_hyp H; try (injection H as <-; discriminate Hv).
  eapply growth_compare_mismatch; [exact Hm| |exact H|exact Hv]; exact Hf.
Qed.

(** C10: for a revenue growth comparison with both periods present and a
    non-zero prior value, a claimed growth more than 3.0 percentage points
    away from the computed one gives the verdict unverifiable with the flag
    revenue_growth_definition_mismatch, whatever the quote says (the
    comparison does not look at it); and a revenue yoy_growth or qoq_growth
    claim that [verify_single_claim] judges mismatch has a difference of
    absolute value at most 3.0. *)
Theorem revenue_growth_mismatch_bound :
  (forall x r b q f cv pv c,
     c_metric x = "revenue" -> mem "revenue_definition_mismatch" (v_flags r) = false ->
     c_claimed x = Some c -> Qeq_bool pv 0 = false ->
     3 < Qabs (c - (cv - pv) / Qabs pv * 100) ->
     exists v, growth_compare x r b q f cv pv = Ok v /\ v_verdict v = Some Unverifiable /\
               v_flags v = (v_flags r ++ ["revenue_growth_definition_mismatch"])%list) /\
  (forall claim t ty tq fmp v,
     engine_metric claim = "revenue" ->
     (get_or (claim_type claim) "" = "yoy_growth" \/ get_or (claim_type claim) "" = "qoq_growth") ->
     verify_single_claim claim t ty tq fmp = Ok v -> v_verdict v = Some Mismatch ->
     exists d, v_difference v = Some d /\ Qabs d <= 3).
Proof.
  split; [exact growth_compare_revenue_gap|].
  intros claim t ty tq fmp v Hm Hct H Hv.
  destruct (verify_single_claim_cases claim t ty tq fmp) as [[w [Hw [Hu _]]]|[cat [_ [He [_ Hd]]]]].
  - rewrite Hw in H; injection H as <-; congruence.
  - rewrite Hd in H; unfold dispatch in H; cbv zeta in H.
    assert (Hc : c_claim_type (engine_ctx claim t ty tq fmp cat) = get_or (claim_type claim) "")
      by reflexivity.
    rewrite Hc in H.
    destruct Hct as [Hct|Hct]; rewrite Hct in H; simpl in H;
    (eapply growth_branch_mismatch; [| | |exact H|exact Hv]; [exact Hm|reflexivity|]);
    exact (resolve_periods_quarter claim ty tq He).
Qed.

(** C4 (amended): every unverifiable verdict returned by
    [verify_single_claim] has a non-empty explanation. *)
Theorem verify_single_claim_unverifiable_explained claim t ty tq fmp v :
  verify_single_claim claim t ty tq fmp = Ok v -> v_verdict v = Some Unverifiable ->
  v_explanation v <> [].
Proof.
  intros H Hu.
  destruct (verify_single_claim_cases claim t ty tq fmp) as [[w [Hw [_ [He _]]]]|[cat [_ [_ [_ Hd]]]]].
  - rewrite Hw in H; injection H as <-; exact He.
  - rewrite Hd in H; exact (dispatch_expl _ _ _ H Hu).
Qed.

(** C2 (amended): a claim with a claimed_value never makes
    [verify_single_claim] raise: it returns a verdict record. *)
Theorem verify_single_claim_total claim t ty tq fmp c :
  claimed_value claim = Some c -> exists v, verify_single_claim claim t ty tq fmp = Ok v.
Proof.
  intros Hc.
  destruct (verify_single_claim_cases claim t ty tq fmp) as [[w [Hw _]]|[cat [_ [_ [_ Hd]]]]].
  - exists w; exact Hw.
  - rewrite Hd. destruct (dispatch (engine_ctx claim t ty tq fmp cat) (init_result claim)) as [w|e] eqn:E.
    + exists w; reflexivity.
    + exfalso; exact (dispatch_raise_free (engine_ctx claim t ty tq fmp cat) _ c Hc e E).
Qed.

Lemma resolve_periods_full_year claim ty tq y :
  parse_period (period claim) = Some (y, 0%Z) -> error (resolve_periods claim ty tq) = Some "full_year".
Proof. intros H; unfold resolve_periods; rewrite H; reflexivity. Qed.

(** C1: a claim whose period text parses to a full year (quarter 0) is
    answered unverifiable, with no actual value: it is never compared with
    the sum of the four quarters. *)
Theorem full_year_claim_not_compared claim t ty tq fmp y :
  parse_period (period claim) = Some (y, 0%Z) ->
  exists v, verify_single_claim claim t ty tq fmp = Ok v /\
            v_verdict v = Some Unverifiable /\ v_actual_value v = None.
Proof.
  intros Hp.
  destruct (verify_single_claim_cases claim t ty tq fmp) as [[w [Hw [Hu [_ Ha]]]]|[cat [_ [He _]]]].
  - exists w; auto.
  - rewrite (resolve_periods_full_year claim ty tq y Hp) in He; discriminate He.
Qed.

(** Witnesses of C1, C2 and C4. *)
Lemma full_year_claim_not_compared_witness :
  parse_period (period fy_revenue_claim) = Some (2025, 0)%Z /\
  exists v, verify_single_claim fy_revenue_claim "X" 2025 4 sample_store = Ok v /\
            v_verdict v = Some Unverifiable /\ v_actual_value v = None.
Proof.
  split; [vm_compute; reflexivity|].
  apply (full_year_claim_not_compared fy_revenue_claim "X" 2025 4 sample_store 2025).
  vm_compute; reflexivity.
Defined.

Lemma verify_single_claim_total_witness :
  claimed_value eps_162_claim = Some (162 # 100) /\
  exists v, verify_single_claim eps_162_claim "X" 2025 4 sample_store = Ok v.
Proof.
  split; [reflexivity|].
  apply (verify_single_claim_total eps_162_claim "X" 2025 4 sample_store (162 # 100)).
  reflexivity.
Defined.

Lemma verify_single_claim_unverifiable_explained_witness :
  exists v, verify_single_claim other_metric_claim "X" 2025 4 sample_store = Ok v /\
            v_verdict v = Some Unverifiable /\ v_explanation v <> [].
Proof.
  eexists; split; [vm_compute; reflexivity|].
  split; [reflexivity|].
  apply (verify_single_claim_unverifiable_explained other_metric_claim "X" 2025 4 sample_store);
    [vm_compute; reflexivity | reflexivity].
Defined.

(** C1 (failing input): "Full-year revenue was 400" for FY 2025, with the
    four quarters of 2025 at 100 each, is answered unverifiable. *)
Lemma fy_revenue_claim_rejected :
  outcome (verify_single_claim fy_revenue_claim "X" 2025 4 sample_store) = Some (Some Unverifiable, []).
Proof. vm_compute; reflexivity. Qed.

(** C2 (counterexample): a claim with no claimed_value raises TypeError. *)
Lemma missing_value_claim_raises :
  verify_single_claim missing_value_claim "X" 2025 4 sample_store = Raise TypeError.
Proof. vm_compute; reflexivity. Qed.

(** C4 (counterexample): a claim on an unknown metric, and a claim whose
    full-year period stops [resolve_periods], are answered unverifiable with
    an empty flag list. *)
Lemma other_metric_claim_no_flag :
  outcome (verify_single_claim other_metric_claim "X" 2025 4 sample_store) = Some (Some Unverifiable, []) /\
  outcome (verify_single_claim fy_revenue_claim "X" 2025 4 sample_store) = Some (Some Unverifiable, []).
Proof. split; vm_compute; reflexivity. Qed.

(* ------------------------------------------------------------------ *)
(** ** C5: the GAAP/non-GAAP mixing escalation *)

Lemma apply_misleading_checks_escalates r claim fmp y q v :
  fst (run_all_heuristics claim fmp y q) <> [] ->
  (v_verdict r = Some Verified \/ v_verdict r = Some CloseMatch) ->
  apply_misleading_checks r claim fmp y q = Ok v -> v_verdict v = Some Misleading.
Proof.
  unfold apply_misleading_checks; intros Hf Hv.
  destruct (run_all_heuristics claim fmp y q) as [[|f fl] rs]; [contradiction Hf; reflexivity|].
  destruct Hv as [Hv|Hv]; rewrite Hv; simpl; rewrite Hv; intros H; injection H as <-; reflexivity.
Qed.

Lemma gaap_mixing_fires claim fmp y q m c a :
  (m = "eps_basic" \/ m = "eps_diluted") -> metric_type claim = Some m ->
  claim_type claim = Some "absolute" -> claimed_value claim = Some c ->
  get_or (gaap_classification claim) "unknown" = "unknown" ->
  any_in NONGAAP_KEYWORDS (quote_lower_of claim) = false ->
  cell fmp (y, q) m = Some a -> Qeq_bool a 0 = false ->
  Qgt ((c - a) / Qabs a) (15#100) = true ->
  fst (run_all_heuristics claim fmp y q) = ["gaap_nongaap_mixing"].
Proof.
  intros Hm Hmt Hct Hc Hg Hn Hcell Ha Hp.
  unfold run_all_heuristics, check_cherry_picking_timeframe, check_gaap_nongaap_mixing,
    check_low_base_exaggeration.
  rewrite Hmt, Hct, Hc, Hg, Hn.
  cbv zeta; cbn [get_or].
  destruct Hm as [->| ->]; rewrite Hcell; cbv beta iota; rewrite Ha; cbv beta iota; rewrite Hp; reflexivity.
Qed.

Lemma Qgt_true a b : Qgt a b = true <-> b < a.
Proof.
  unfold Qgt, Qlt. rewrite negb_true_iff. split; intros H.
  - destruct (Qlt_le_dec b a) as [L|L]; [exact L|]. apply Qle_bool_iff in L. congruence.
  - destruct (Qle_bool a b) eqn:E; [|reflexivity]. apply Qle_bool_iff in E. lra.
Qed.

Lemma Qgt_false a b : Qgt a b = false <-> a <= b.
Proof.
  unfold Qgt, Qlt. rewrite negb_false_iff. apply Qle_bool_iff.
Qed.

Lemma band_fin_mismatch d t : tight t < d -> loose t < d -> band (Fin d) t = Mismatch.
Proof.
  intros H1 H2; unfold band, ext_le.
  destruct (Qle_bool d (tight t)) eqn:E1; [apply Qle_bool_iff in E1; lra|].
  destruct (Qle_bool d (loose t)) eqn:E2; [apply Qle_bool_iff in E2; lra|].
  reflexivity.
Qed.

Lemma absolute_single_eps x r c a src :
  (c_metric x = "eps_basic" \/ c_metric x = "eps_diluted") ->
  catalog_field (c_catalog x) (c_metric x) = c_metric x ->
  lookup_value (c_fmp x) (c_metric x) (c_year x) (c_quarter x) (c_alias x) = Some (a, src) ->
  c_gaap x = "unknown" ->
  Qeq_bool a 0 = false -> Qgt ((c - a) / Qabs a) (15#100) = true ->
  fst (run_all_heuristics (c_claim x) (c_fmp x) (c_year x) (c_quarter x)) <> [] ->
  exists v, absolute_single x r (Some c) = Ok v /\
    (if Qgt (c / a) (13#10)
     then v_verdict v = Some Unverifiable /\ v_flags v = (v_flags r ++ ["value_exceeds_actual"])%list
     else v_verdict v = Some Misleading).
Proof.
  intros Hm Hcat Hl Hg Ha Hp Hh.
  assert (Ha' : ~ a == 0) by (intro E; apply Qeq_bool_iff in E; congruence).
  assert (Habs : 0 < Qabs a).
  { destruct (Qlt_le_dec 0 a) as [L|L]; [rewrite Qabs_pos by lra; lra|].
    rewrite Qabs_neg by lra.
    destruct (Qle_lt_or_eq _ _ L) as [L2|L2]; [lra|contradiction (Ha' L2)]. }
  apply Qgt_true in Hp.
  assert (Hd : Qabs a * ((c - a) / Qabs a) == c - a) by (apply Qmult_div_r; lra).
  assert (Hpos : 0 < c - a) by nra.
  assert (Hrel : (15#100) < Qabs (c - a) / Qabs a).
  { assert (E : Qabs (c - a) == c - a) by (apply Qabs_pos; lra). rewrite E; exact Hp. }
  assert (Hca : a * (c / a) == c) by (apply Qmult_div_r; exact Ha').
  destruct Hm as [Hm|Hm];
  unfold absolute_single, definition_gap_check, unverifiable, verify_absolute; unfold bind, num;
  rewrite Hcat, Hm in *; rewrite Hl, Ha; cbv beta iota zeta;
  cbn [mem existsb String.eqb Ascii.eqb Bool.eqb andb orb negb VALUE_CHECK_METRICS];
  (destruct (Qgt (c / a) (13#10)) eqn:Er; cbv beta iota; [eexists; split; [reflexivity|]; split; reflexivity|]);
  (assert (E2 : Qlt 0 a && Qgt c (a * (13#10)) = false);
   [ destruct (Qlt 0 a) eqn:E; [|reflexivity]; simpl; apply Qgt_false;
     apply Qgt_false in Er; unfold Qlt in E; apply negb_true_iff in E;
     assert (0 < a) by (destruct (Qlt_le_dec 0 a) as [L|L]; [exact L|apply Qle_bool_iff in L; congruence]);
     nra
   | rewrite E2 ]);
  cbn [mem existsb String.eqb Ascii.eqb Bool.eqb andb orb negb VALUE_CHECK_METRICS];
  unfold absolute_numeric_verdict;
  cbn [mem existsb String.eqb Ascii.eqb Bool.eqb andb orb negb VALUE_CHECK_METRICS];
  destruct (Qle_bool (Qabs (c - a)) EPS_ABSOLUTE_TOLERANCE) eqn:Et; cbv beta iota zeta.
  1,3: match goal with |- exists v, apply_misleading_checks ?R ?cl ?f ?y ?q = Ok v /\ _ =>
         destruct (apply_misleading_checks_ok R cl f y q) as [v Hv]; exists v; split; [exact Hv|];
         eapply apply_misleading_checks_escalates; [exact Hh| |exact Hv]; left; reflexivity end.
  all: assert (Hb : band (rel_diff (c - a) a) (get_tolerance (c_metric x) (c_approx x)) = Mismatch)
         by (unfold rel_diff, Qneqb; rewrite Ha, Hm; cbv beta iota;
             apply band_fin_mismatch; destruct (c_approx x); cbn [tight loose get_tolerance TOLERANCES]; lra);
       rewrite Hm in Hb; rewrite Hb, Hg.
  all: assert (Hgt : Qgt c a = true) by (apply Qgt_true; lra); rewrite Hgt.
  all: cbn [label_eqb String.eqb Ascii.eqb Bool.eqb andb orb negb].
  all: match goal with |- exists v, apply_misleading_checks ?R ?cl ?f ?y ?q = Ok v /\ _ =>
         destruct (apply_misleading_checks_ok R cl f y q) as [v Hv]; exists v; split; [exact Hv|];
         apply apply_misleading_checks_label in Hv; destruct Hv as [[Hv|Hv] _]; rewrite Hv; reflexivity end.
Qed.

Lemma verify_single_claim_reaches_dispatch claim t ty tq fmp cat :
  String.eqb (get_or (gaap_classification claim) "unknown") "non_gaap" = false ->
  String.eqb (get_or (claim_type claim) "") "guidance" = false ->
  (String.eqb (engine_metric claim) "capital_expenditures"
   || String.eqb (engine_metric claim) "capital_expenditure")
  && re_search CAPEX_LEASE_KEYWORDS (quote_lower_of claim) = false ->
  (String.eqb (get_or (claim_type claim) "") "yoy_growth"
   || String.eqb (get_or (claim_type claim) "") "qoq_growth")
  && String.eqb (get_or (unit claim) "dollars") "dollars" = false ->
  error (resolve_periods claim ty tq) = None ->
  get_catalog_entry (engine_metric claim) = Some cat ->
  verify_single_claim claim t ty tq fmp = dispatch (engine_ctx claim t ty tq fmp cat) (init_result claim).
Proof.
  intros H1 H2 H3 H4 H5 H6.
  unfold verify_single_claim, engine_ctx; cbv zeta.
  rewrite H1, H2, H3, H4, H5; destruct (target (resolve_periods claim ty tq)); rewrite H6; reflexivity.
Qed.

(** C5 (amended): an absolute EPS claim (eps_basic or eps_diluted, unit
    per_share) whose GAAP basis is unknown, whose quote has no TTM and no
    non-GAAP keyword, and whose claimed value exceeds the actual by more than
    15% is answered misleading when the claim is at most 1.3 times the
    actual; above that ratio the value check answers unverifiable with the
    flag value_exceeds_actual before any escalation. *)
Theorem eps_overstatement_verdict claim t ty tq fmp m y q c a :
  (m = "eps_basic" \/ m = "eps_diluted") ->
  metric_type claim = Some m -> claim_type claim = Some "absolute" ->
  claimed_value claim = Some c -> unit claim = Some "per_share" ->
  get_or (gaap_classification claim) "unknown" = "unknown" ->
  error (resolve_periods claim ty tq) = None -> target (resolve_periods claim ty tq) = (y, q) ->
  re_search TTM_KEYWORDS (quote_lower_of claim) = false ->
  any_in NONGAAP_KEYWORDS (quote_lower_of claim) = false ->
  cell fmp (y, q) m = Some a -> Qeq_bool a 0 = false ->
  Qgt ((c - a) / Qabs a) (15#100) = true ->
  exists v, verify_single_claim claim t ty tq fmp = Ok v /\
    (if Qgt (c / a) (13#10)
     then v_verdict v = Some Unverifiable /\ v_flags v = ["value_exceeds_actual"]
     else v_verdict v = Some Misleading).
Proof.
  intros Hm Hmt Hct Hc Hu Hg He Ht Httm Hn Hcell Ha Hp.
  pose proof (resolve_periods_quarter claim ty tq He) as Hq; rewrite Ht in Hq; simpl in Hq.
  pose proof (gaap_mixing_fires claim fmp y q m c a Hm Hmt Hct Hc Hg Hn Hcell Ha Hp) as Hh.
  assert (Em : engine_metric claim = m)
    by (unfold engine_metric; rewrite Hmt; destruct Hm; subst; reflexivity).
  assert (Hcat : get_catalog_entry m = Some (Direct m)) by (destruct Hm; subst; reflexivity).
  rewrite (verify_single_claim_reaches_dispatch claim t ty tq fmp (Direct m));
    [| rewrite Hg; reflexivity | rewrite Hct; reflexivity
     | rewrite Em; destruct Hm; subst; reflexivity | rewrite Hct; reflexivity
     | exact He | rewrite Em; exact Hcat].
  unfold dispatch, engine_ctx; cbv zeta; rewrite Ht, Hct, Hu, Em, Hc, Httm; cbn [get_or fst snd c_claim_type].
  cbn [String.eqb Ascii.eqb Bool.eqb]; cbv iota.
  unfold absolute_branch, normalize_claimed_value; unfold bind;
    cbn [c_claimed c_unit c_scale c_metric c_claim c_multiperiod c_quarter String.eqb Ascii.eqb Bool.eqb].
  cbv iota beta.
  assert (Hs : mem m SEGMENT_METRICS = false) by (destruct Hm; subst; reflexivity).
  rewrite Hs, (proj2 (Z.eqb_neq q 0) Hq); cbn [andb].
  assert (Ht2 : forall X r, c_metric X = m -> absolute_total_expenses X r (Some c) = None)
    by (intros X r0 HX; unfold absolute_total_expenses; rewrite HX; destruct Hm; subst; reflexivity).
  rewrite Ht2 by reflexivity.
  match goal with |- exists v, absolute_single ?X ?R (Some c) = Ok v /\ _ =>
    destruct (absolute_single_eps X R c a (source_of fmp y q m)) as [v [Hv Hr]] end.
  - cbn [c_metric]; exact Hm.
  - reflexivity.
  - cbn [c_fmp c_metric c_year c_quarter]. unfold lookup_value; rewrite Hcell; reflexivity.
  - cbn [c_gaap]; exact Hg.
  - exact Ha.
  - exact Hp.
  - cbn [c_claim c_fmp c_year c_quarter]; rewrite Hh; discriminate.
  - exists v; split; [exact Hv|exact Hr].
Qed.

(** Witness of C5: diluted EPS claimed 1.20 for Q4 2024, actual 1.00. *)
Lemma eps_overstatement_verdict_witness :
  exists v, verify_single_claim (eps_claim (6 # 5)) "X" 2024 4 sample_store = Ok v /\
            v_verdict v = Some Misleading.
Proof.
  destruct (eps_overstatement_verdict (eps_claim (6 # 5)) "X" 2024 4 sample_store
              "eps_diluted" 2024 4 (6 # 5) 1) as [v [Hv Hr]];
    [right; reflexivity | reflexivity | reflexivity | reflexivity | reflexivity | reflexivity
    | vm_compute; reflexivity | vm_compute; reflexivity | vm_compute; reflexivity
    | vm_compute; reflexivity | vm_compute; reflexivity | vm_compute; reflexivity
    | vm_compute; reflexivity |].
  exists v; split; [exact Hv|].
  assert (E : Qgt ((6 # 5) / 1) (13 # 10) = false) by reflexivity.
  rewrite E in Hr; exact Hr.
Defined.

(** C5 (counterexample): diluted EPS claimed 1.50 for Q4 2024, actual 1.00,
    is answered unverifiable with the flag value_exceeds_actual. *)
Lemma eps_claim_exceeds_actual :
  outcome (verify_single_claim (eps_claim (3 # 2)) "X" 2024 4 sample_store)
  = Some (Some Unverifiable, ["value_exceeds_actual"]).
Proof. vm_compute; reflexivity. Qed.

(* ------------------------------------------------------------------ *)
(** ** C8: multi-period windows and sums *)

Lemma sum_loop_spec fmp m al ps t s f ms :
  let '(t', _, _, ms') := sum_loop fmp m al ps t s f ms in
  ms' = (ms ++ map (fun p => period_label (fst p) (snd p)) (filter (lookup_missing fmp m al) ps))%list /\
  t' = fold_left (fun acc p => acc + lookup_or_zero fmp m al p)
         (filter (fun p => negb (lookup_missing fmp m al p)) ps) t.
Proof.
  revert t s f ms; induction ps as [|[y q] ps IH]; intros t s f ms; simpl.
  - rewrite app_nil_r; auto.
  - assert (Hm : lookup_missing fmp m al (y, q)
                 = match lookup_value fmp m y q al with None => true | Some _ => false end)
      by reflexivity.
    rewrite Hm.
    destruct (lookup_value fmp m y q al) as [[v src]|] eqn:E; simpl.
    + assert (Hz : lookup_or_zero fmp m al (y, q) = v)
        by (unfold lookup_or_zero; simpl; rewrite E; reflexivity).
      rewrite Hz; apply IH.
    + specialize (IH t s f (ms ++ [period_label y q])%list).
      destruct (sum_loop fmp m al ps t s f (ms ++ [period_label y q])%list) as [[[t' s'] f'] ms'].
      destruct IH as [IH1 IH2]; split; [rewrite IH1, <- app_assoc; reflexivity|exact IH2].
Qed.

Lemma filter_none_negb {A} (g : A -> bool) (l : list A) :
  filter g l = [] -> filter (fun a => negb (g a)) l = l.
Proof.
  induction l as [|a l IH]; simpl; [reflexivity|].
  destruct (g a); simpl; [discriminate|]. intros H; rewrite IH; auto.
Qed.

Lemma sum_metric_for_periods_spec fmp m ps al :
  let r := sum_metric_for_periods fmp m ps al in
  sum_missing r = map (fun p => period_label (fst p) (snd p)) (filter (lookup_missing fmp m al) ps) /\
  (sum_total r = None <-> filter (lookup_missing fmp m al) ps <> []) /\
  (forall total, sum_total r = Some total ->
     total = fold_left (fun acc p => acc + lookup_or_zero fmp m al p) ps 0).
Proof.
  unfold sum_metric_for_periods.
  pose proof (sum_loop_spec fmp m al ps 0 [] [] []) as H.
  destruct (sum_loop fmp m al ps 0 [] [] []) as [[[t s] f] ms].
  destruct H as [H1 H2]; simpl in H1.
  destruct (filter (lookup_missing fmp m al) ps) as [|p l] eqn:E; simpl in H1; subst ms; simpl.
  - split; [reflexivity|]. split; [split; [discriminate|intros C; contradiction C; reflexivity]|].
    intros total Ht; injection Ht as <-. rewrite H2, (filter_none_negb _ _ E); reflexivity.
  - split; [reflexivity|]. split; [split; [intros _; discriminate|reflexivity]|]. discriminate.
Qed.

Lemma in_1_4_cases q : in_1_4 q = true -> q = 1%Z \/ q = 2%Z \/ q = 3%Z \/ q = 4%Z.
Proof. unfold in_1_4; rewrite andb_true_iff, !Z.leb_le; lia. Qed.

(** C8: for a target quarter in 1..4, the full year is Q1..Q4, the
    trailing twelve months are the target quarter and the three before it
    (as consecutive quarter indices 4*year+quarter, each in 1..4), the year
    to date is Q1..target, and the window chosen from the quote is one of
    TTM, first half (Q1, Q2), first nine months (Q1..Q3) or year to date;
    for every period list the sum reports exactly the missing periods, gives
    no total when one is missing, and otherwise the sum of the values. *)
Theorem multiperiod_windows fmp metric alias quote y q :
  in_1_4 q = true ->
  full_year_periods y = [(y, 1); (y, 2); (y, 3); (y, 4)]%Z /\
  map (fun p => 4 * fst p + snd p)%Z (ttm_periods y q)
    = [4 * y + q; 4 * y + q - 1; 4 * y + q - 2; 4 * y + q - 3]%Z /\
  forallb (fun p => in_1_4 (snd p)) (ttm_periods y q) = true /\
  ytd_periods y q = firstn (Z.to_nat q) (full_year_periods y) /\
  (forall ps label, determine_multiperiod_periods quote y q = Some (ps, label) ->
     (label = "TTM" /\ ps = ttm_periods y q)
     \/ (label = "first_half" /\ ps = firstn 2 (full_year_periods y))
     \/ (label = "first_nine_months" /\ ps = firstn 3 (full_year_periods y))
     \/ (label = "ytd" /\ ps = ytd_periods y q)) /\
  (forall ps,
     let r := sum_metric_for_periods fmp metric ps alias in
     sum_missing r = map (fun p => period_label (fst p) (snd p)) (filter (lookup_missing fmp metric alias) ps) /\
     (sum_total r = None <-> filter (lookup_missing fmp metric alias) ps <> []) /\
     (forall total, sum_total r = Some total ->
        total = fold_left (fun acc p => acc + lookup_or_zero fmp metric alias p) ps 0)).
Proof.
  intros Hq.
  split; [reflexivity|].
  split; [destruct (in_1_4_cases q Hq) as [-> | [-> | [-> | ->]]];
          unfold ttm_periods, previous_quarter; cbn -[Z.mul]; repeat (apply f_equal2; [lia|]); reflexivity|].
  split; [destruct (in_1_4_cases q Hq) as [-> | [-> | [-> | ->]]]; reflexivity|].
  split; [destruct (in_1_4_cases q Hq) as [-> | [-> | [-> | ->]]]; reflexivity|].
  split; [|intros ps; apply sum_metric_for_periods_spec].
  intros ps label H; unfold determine_multiperiod_periods in H.
  destruct (any_in _ _); [injection H as <- <-; left; auto|].
  destruct (contains "first half" quote); [injection H as <- <-; right; left; auto|].
  destruct (contains "first nine months" quote); [injection H as <- <-; right; right; left; auto|].
  destruct (_ || _); [|discriminate H].
  rewrite Hq in H; injection H as <- <-; right; right; right; auto.
Qed.

(** Witness of C8: the third quarter of 2025. *)
Lemma multiperiod_windows_witness :
  in_1_4 3 = true /\
  ytd_periods 2025 3 = firstn (Z.to_nat 3) (full_year_periods 2025).
Proof.
  split; [reflexivity|].
  exact (proj1 (proj2 (proj2 (proj2
    (multiperiod_windows sample_store "revenue" false "revenue was strong" 2025 3 eq_refl))))).
Defined.

(* ------------------------------------------------------------------ *)
(** ** C3, C7 and C9: comparisons and periods *)

Lemma apply_misleading_checks_no_flags r claim fmp y q :
  fst (run_all_heuristics claim fmp y q) = [] -> apply_misleading_checks r claim fmp y q = Ok r.
Proof.
  unfold apply_misleading_checks; intros H.
  destruct (run_all_heuristics claim fmp y q) as [fl rs]; cbn [fst] in H; subst fl.
  destruct (v_verdict r) as [[]|]; reflexivity.
Qed.

Lemma absolute_single_eps_tolerance x r n a src :
  (c_metric x = "eps_basic" \/ c_metric x = "eps_diluted") ->
  catalog_field (c_catalog x) (c_metric x) = c_metric x ->
  lookup_value (c_fmp x) (c_metric x) (c_year x) (c_quarter x) (c_alias x) = Some (a, src) ->
  definition_gap_check (c_metric x) (Some n) a (c_quote x) = Ok None ->
  (a <= 0 \/ n <= a * (13#10)) ->
  exists v, absolute_single x r (Some n) = Ok v /\
    (Qabs (n - a) <= EPS_ABSOLUTE_TOLERANCE ->
       (fst (run_all_heuristics (c_claim x) (c_fmp x) (c_year x) (c_quarter x)) = [] ->
        v_verdict v = Some Verified) /\
       (fst (run_all_heuristics (c_claim x) (c_fmp x) (c_year x) (c_quarter x)) <> [] ->
        v_verdict v = Some Misleading)) /\
    (EPS_ABSOLUTE_TOLERANCE < Qabs (n - a) ->
       v_verdict v = Some (band (rel_diff (n - a) a) (get_tolerance (c_metric x) (c_approx x)))
       \/ v_verdict v = Some Misleading).
Proof.
  intros Hm Hcat Hl Hgap Hv.
  assert (E2 : Qlt 0 a && Qgt n (a * (13#10)) = false).
  { destruct (Qlt 0 a) eqn:E; [|reflexivity]; cbn [andb]; apply Qgt_false.
    unfold Qlt in E; apply negb_true_iff in E.
    assert (0 < a) by (destruct (Qlt_le_dec 0 a) as [L|L]; [exact L|apply Qle_bool_iff in L; congruence]).
    lra. }
  unfold absolute_single; rewrite Hcat, Hl; cbv beta iota zeta; unfold bind at 1; rewrite Hgap.
  unfold num, bind; cbv beta iota.
  destruct Hm as [Hm|Hm]; rewrite Hm in *;
  cbn [mem existsb String.eqb Ascii.eqb Bool.eqb andb orb negb VALUE_CHECK_METRICS];
  rewrite E2; cbv beta iota;
  unfold absolute_numeric_verdict;
  cbn [mem existsb String.eqb Ascii.eqb Bool.eqb andb orb negb];
  (destruct (Qle_bool (Qabs (n - a)) EPS_ABSOLUTE_TOLERANCE) eqn:Et; cbv beta iota zeta).
  1,3: match goal with |- exists v, apply_misleading_checks ?R ?cl ?f ?y ?q = Ok v /\ _ =>
         destruct (apply_misleading_checks_ok R cl f y q) as [v Hv']; exists v; split; [exact Hv'|];
         split; [split; intros Hh;
                 [ rewrite (apply_misleading_checks_no_flags R cl f y q Hh) in Hv';
                   injection Hv' as <-; reflexivity
                 | eapply apply_misleading_checks_escalates; [exact Hh| |exact Hv']; left; reflexivity ]
                | intros Hlt; apply Qle_bool_iff in Et; lra ] end.
  all: unfold verify_absolute, bind, num; cbv beta iota zeta.
  all: match goal with |- exists v, apply_misleading_checks (if ?c then _ else _) _ _ _ _ = Ok v /\ _ =>
         destruct c end.
  all: match goal with |- exists v, apply_misleading_checks ?R ?cl ?f ?y ?q = Ok v /\ _ =>
         destruct (apply_misleading_checks_ok R cl f y q) as [v Hv']; exists v; split; [exact Hv'|];
         apply apply_misleading_checks_label in Hv'; destruct Hv' as [[Hv'|Hv'] _] end.
  all: split; [intros Hle; apply Qle_bool_iff in Hle; congruence|intros _].
  all: rewrite Hv'; cbn; auto.
Qed.

(** C7 (amended): for an absolute eps_basic or eps_diluted claim that
    reaches the numeric comparison (the quarter's value is found, the
    definition-gap check passes and the claim is at most 1.3 times a
    positive actual), an absolute difference of at most
    EPS_ABSOLUTE_TOLERANCE (0.015) sets the verdict verified, which
    [_apply_misleading_checks] then turns into misleading exactly when a
    misleading-claim heuristic fires; a larger difference leaves the verdict
    to the percentage bands of the metric, or to a misleading escalation. *)
Theorem eps_absolute_tolerance_first claim t ty tq fmp m y q c n a :
  (m = "eps_basic" \/ m = "eps_diluted") ->
  metric_type claim = Some m -> claim_type claim = Some "absolute" ->
  claimed_value claim = Some c ->
  normalize_claimed_value (Some c) (get_or (unit claim) "dollars") (scale claim) = Ok (Some n) ->
  get_or (gaap_classification claim) "unknown" <> "non_gaap" ->
  error (resolve_periods claim ty tq) = None -> target (resolve_periods claim ty tq) = (y, q) ->
  re_search TTM_KEYWORDS (quote_lower_of claim) = false ->
  cell fmp (y, q) m = Some a ->
  definition_gap_check m (Some n) a (quote_lower_of claim) = Ok None ->
  (a <= 0 \/ n <= a * (13#10)) ->
  exists v, verify_single_claim claim t ty tq fmp = Ok v /\
    (Qabs (n - a) <= EPS_ABSOLUTE_TOLERANCE ->
       (fst (run_all_heuristics claim fmp y q) = [] -> v_verdict v = Some Verified) /\
       (fst (run_all_heuristics claim fmp y q) <> [] -> v_verdict v = Some Misleading)) /\
    (EPS_ABSOLUTE_TOLERANCE < Qabs (n - a) ->
       v_verdict v = Some (band (rel_diff (n - a) a)
                          (get_tolerance m (is_approximate_flag claim || is_approximate (qualifiers claim))))
       \/ v_verdict v = Some Misleading).
Proof.
  intros Hm Hmt Hct Hc Hn Hg He Ht Httm Hcell Hgap Hv.
  pose proof (resolve_periods_quarter claim ty tq He) as Hq; rewrite Ht in Hq; simpl in Hq.
  assert (Em : engine_metric claim = m)
    by (unfold engine_metric; rewrite Hmt; destruct Hm; subst; reflexivity).
  assert (Hcat : get_catalog_entry m = Some (Direct m)) by (destruct Hm; subst; reflexivity).
  rewrite (verify_single_claim_reaches_dispatch claim t ty tq fmp (Direct m));
    [| apply String.eqb_neq; exact Hg | rewrite Hct; reflexivity
     | rewrite Em; destruct Hm; subst; reflexivity | rewrite Hct; reflexivity
     | exact He | rewrite Em; exact Hcat].
  unfold dispatch, engine_ctx; cbv zeta; rewrite Ht, Hct, Em, Hc, Httm; cbn [get_or fst snd c_claim_type].
  cbn [String.eqb Ascii.eqb Bool.eqb]; cbv iota.
  unfold absolute_branch; unfold bind at 1;
    cbn [c_claimed c_unit c_scale c_metric c_claim c_multiperiod c_quarter String.eqb Ascii.eqb Bool.eqb].
  rewrite Hn; cbv iota beta.
  assert (Hs : mem m SEGMENT_METRICS = false) by (destruct Hm; subst; reflexivity).
  rewrite Hs, (proj2 (Z.eqb_neq q 0) Hq); cbn [andb].
  assert (Ht2 : forall X r, c_metric X = m -> absolute_total_expenses X r (Some n) = None)
    by (intros X r0 HX; unfold absolute_total_expenses; rewrite HX; destruct Hm; subst; reflexivity).
  rewrite Ht2 by reflexivity.
  match goal with |- exists v, absolute_single ?X ?R (Some n) = Ok v /\ _ =>
    destruct (absolute_single_eps_tolerance X R n a (source_of fmp y q m)) as [v [Hv' Hr]] end.
  - cbn [c_metric]; exact Hm.
  - reflexivity.
  - cbn [c_fmp c_metric c_year c_quarter]. unfold lookup_value; rewrite Hcell; reflexivity.
  - exact Hgap.
  - exact Hv.
  - exists v; split; [exact Hv'|exact Hr].
Qed.

(** Witness of C7: diluted EPS 1.62 against 1.61 is verified. *)
Lemma eps_absolute_tolerance_first_witness :
  exists v, verify_single_claim eps_162_claim "X" 2025 4 sample_store = Ok v /\
    v_verdict v = Some Verified.
Proof.
  destruct (eps_absolute_tolerance_first eps_162_claim "X" 2025 4 sample_store "eps_diluted" 2025 4
              (162 # 100) (162 # 100) (161 # 100)) as [v [Hv [H1 _]]].
  - right; reflexivity.
  - reflexivity.
  - reflexivity.
  - reflexivity.
  - vm_compute; reflexivity.
  - discriminate.
  - vm_compute; reflexivity.
  - vm_compute; reflexivity.
  - vm_compute; reflexivity.
  - vm_compute; reflexivity.
  - vm_compute; reflexivity.
  - right; vm_compute; discriminate.
  - exists v; split; [exact Hv|]. apply H1; [vm_compute; discriminate | vm_compute; reflexivity].
Defined.

(** C7 (counterexample): diluted EPS claimed 0.06 against 0.05, GAAP basis
    unknown, is within the absolute tolerance but answered misleading: the
    GAAP/non-GAAP mixing heuristic fires (20% above the actual). *)
Lemma eps_within_tolerance_misleading :
  outcome (verify_single_claim eps_006_claim "X" 2025 4 small_eps_store) = Some (Some Misleading, []).
Proof. vm_compute. reflexivity. Qed.

(** C9: [parse_period] reads "Q3 2024", "3Q 2024", "3Q24" as (2024, 3)
    and "FY 2024", "FISCAL 2024" as (2024, 0); an unparseable period falls
    back to the transcript's quarter; for a quarterly yoy_growth claim the
    baseline is the parsed comparison period, else (year - 1, quarter); for
    a quarterly qoq_growth claim it is the previous quarter (Q1 wraps to Q4
    of the year before); a full-year period (quarter 0) gets the error
    full_year and no baseline. *)
Theorem resolve_periods_behaviour :
  parse_period (Some "Q3 2024") = Some (2024, 3)%Z /\
  parse_period (Some "3Q 2024") = Some (2024, 3)%Z /\
  parse_period (Some "3Q24") = Some (2024, 3)%Z /\
  parse_period (Some "FY 2024") = Some (2024, 0)%Z /\
  parse_period (Some "FISCAL 2024") = Some (2024, 0)%Z /\
  (forall claim ty tq, parse_period (period claim) = None -> tq <> 0%Z ->
     target (resolve_periods claim ty tq) = (ty, tq) /\ error (resolve_periods claim ty tq) = None) /\
  (forall claim ty tq y q, parse_period (period claim) = Some (y, q) -> q <> 0%Z ->
     get_or (claim_type claim) "" = "yoy_growth" ->
     baseline (resolve_periods claim ty tq)
     = Some (match option_map (fun cp => parse_period (Some cp)) (truthy (comparison_period claim)) with
             | Some (Some b) => b
             | _ => (y - 1, q)%Z
             end)) /\
  (forall claim ty tq y q, parse_period (period claim) = Some (y, q) -> q <> 0%Z ->
     get_or (claim_type claim) "" = "qoq_growth" ->
     baseline (resolve_periods claim ty tq) = Some (previous_quarter y q)) /\
  (forall claim ty tq y, parse_period (period claim) = Some (y, 0%Z) ->
     error (resolve_periods claim ty tq) = Some "full_year" /\ baseline (resolve_periods claim ty tq) = None).
Proof.
  split; [vm_compute; reflexivity|].
  split; [vm_compute; reflexivity|].
  split; [vm_compute; reflexivity|].
  split; [vm_compute; reflexivity|].
  split; [vm_compute; reflexivity|].
  split.
  { intros claim ty tq Hp Hq; unfold resolve_periods; rewrite Hp.
    apply Z.eqb_neq in Hq; rewrite Hq.
    repeat match goal with |- context [match ?s with _ => _ end] => destruct s end;
    split; reflexivity. }
  split.
  { intros claim ty tq y q Hp Hq Hc; unfold resolve_periods; rewrite Hp.
    apply Z.eqb_neq in Hq; rewrite Hq; cbv zeta; rewrite Hc; simpl.
    destruct (option_map _ _) as [[b|]|]; reflexivity. }
  split.
  { intros claim ty tq y q Hp Hq Hc; unfold resolve_periods; rewrite Hp.
    apply Z.eqb_neq in Hq; rewrite Hq; cbv zeta; rewrite Hc; simpl.
    unfold previous_quarter; destruct (Z.eqb q 1); reflexivity. }
  intros claim ty tq y Hp; unfold resolve_periods; rewrite Hp; split; reflexivity.
Qed.

Lemma margin_bps_change_zero_den x r nf df ln by_ bq cn s1 cd s2 pn s3 pd s4 :
  resolve_margin_change_baseline (c_claim x) (c_year x) (c_quarter x) (c_quote x) = Some (by_, bq) ->
  ln (c_year x) (c_quarter x) = Some (cn, s1) ->
  lookup_value (c_fmp x) df (c_year x) (c_quarter x) (c_alias x) = Some (cd, s2) ->
  ln by_ bq = Some (pn, s3) ->
  lookup_value (c_fmp x) df by_ bq (c_alias x) = Some (pd, s4) ->
  (cd == 0 \/ pd == 0) ->
  margin_bps_change x r nf df ln
  = Ok (set_flags (v_flags r ++ ["margin_change_bps"])
          (set_explanation [txt "Denominator is zero."] (set_verdict Unverifiable r))).
Proof.
  intros Hb H1 H2 H3 H4 Hz.
  unfold margin_bps_change; rewrite Hb; cbv beta iota zeta.
  rewrite H1, H2, H3, H4.
  assert (E : Qneqb cd 0 && Qneqb pd 0 = false).
  { unfold Qneqb; destruct Hz as [Hz|Hz]; apply Qeq_bool_iff in Hz; rewrite Hz;
    [reflexivity | apply andb_false_r]. }
  rewrite E; reflexivity.
Qed.

(** C3 (amended): a zero prior value in a growth comparison gives
    unverifiable with an explanation and no flag added; a zero denominator in
    the comparison of a quarter's margin level gives unverifiable with the
    explanation "Denominator is zero." and no flag added, while in a margin
    change stated in basis points it gives unverifiable with the flag
    margin_change_bps; a zero actual value in an absolute comparison gives a
    difference_pct of infinity, which the bands classify as mismatch. *)
Theorem zero_denominator_handling :
  (forall x r b q f cv,
     growth_compare x r b q f cv 0
     = Ok (set_explanation [txt "Prior period value is zero, cannot compute growth."]
             (set_verdict Unverifiable r))) /\
  (forall x r nf df tm n,
     margin_compare x r nf df tm n 0
     = Ok (set_explanation [txt "Denominator is zero."] (set_verdict Unverifiable r))) /\
  (forall x r nf df ln by_ bq cn s1 cd s2 pn s3 pd s4,
     resolve_margin_change_baseline (c_claim x) (c_year x) (c_quarter x) (c_quote x) = Some (by_, bq) ->
     ln (c_year x) (c_quarter x) = Some (cn, s1) ->
     lookup_value (c_fmp x) df (c_year x) (c_quarter x) (c_alias x) = Some (cd, s2) ->
     ln by_ bq = Some (pn, s3) ->
     lookup_value (c_fmp x) df by_ bq (c_alias x) = Some (pd, s4) ->
     (cd == 0 \/ pd == 0) ->
     margin_bps_change x r nf df ln
     = Ok (set_flags (v_flags r ++ ["margin_change_bps"])
             (set_explanation [txt "Denominator is zero."] (set_verdict Unverifiable r)))) /\
  (forall c, Qeq_bool c 0 = false -> verify_absolute (Some c) 0 = Ok (mkAbsComp (c - 0) Inf)) /\
  (forall d, rel_diff d 0 = Inf) /\
  (forall t, band Inf t = Mismatch).
Proof.
  split; [reflexivity|].
  split; [reflexivity|].
  split; [exact margin_bps_change_zero_den|].
  split; [intros c Hc; unfold verify_absolute, Qneqb, bind, num; rewrite Hc; reflexivity|].
  split; reflexivity.
Qed.

(** C3 (counterexample): revenue of 100 claimed for Q3 2024, where the
    store holds 0, is answered mismatch, with no flag and an infinite
    difference_pct. *)
Lemma zero_actual_claim_mismatch :
  outcome (verify_single_claim zero_actual_claim "X" 2025 4 sample_store) = Some (Some Mismatch, []) /\
  outcome_pct (verify_single_claim zero_actual_claim "X" 2025 4 sample_store) = Some (Some Inf).
Proof. split; vm_compute; reflexivity. Qed.

(** C9 (failing input): a yoy_growth claim for FY 2025 resolved in Q4 2025
    gets the error full_year and no baseline, where a (2024, 0) baseline is
    meant. *)
Lemma fy_growth_claim_no_baseline :
  error (resolve_periods fy_growth_claim 2025 4) = Some "full_year" /\
  baseline (resolve_periods fy_growth_claim 2025 4) = None.
Proof. split; vm_compute; reflexivity. Qed.

(* ================================================================== *)
(** * Further properties of the code *)

(* ------------------------------------------------------------------ *)
(** ** Period shifting *)

Lemma all_from_spec n y f z :
  all_from n y f = true -> (y <= z < y + Z.of_nat n)%Z -> f z = true.
Proof.
  revert y; induction n as [|n IH]; intros y H Hz; [lia|].
  cbn [all_from] in H; apply andb_true_iff in H as [H1 H2].
  destruct (Z.eq_dec z y) as [->|Hne]; [exact H1|].
  apply (IH (y + 1)%Z H2); lia.
Qed.

Lemma fmt_round_trip_all_true :
  all_from (90 * 100) 1000 (fun y => all_from 10 0 (fmt_check y)) = true.
Proof. vm_compute. reflexivity. Qed.

Lemma digit_val_range d : is_digit d = true -> (0 <= digit_val d <= 9)%Z.
Proof.
  unfold is_digit, digit_val; intros H; apply andb_true_iff in H as [H1 H2].
  apply Nat.leb_le in H1, H2; lia.
Qed.

Lemma parse_period_quarter_range p y q :
  parse_period p = Some (y, q) -> (0 <= q <= 9)%Z.
Proof.
  destruct p as [s|]; [|discriminate]; destruct s as [|c s]; [discriminate|].
  unfold parse_period; generalize (upper (strip (String c s))); intros u.
  unfold parse_period_upper, first_some; cbn [fold_right].
  destruct (pat_q_n u) as [[y1 q1]|] eqn:E1.
  { intros H; injection H as <- <-; unfold pat_q_n in E1.
    destruct u as [|a [|d r]]; try discriminate.
    destruct (Ascii.eqb a "Q"%char && is_digit d) eqn:C; [|discriminate].
    apply andb_true_iff in C as [_ C].
    destruct (ws_fy_year r); [|discriminate]; injection E1 as _ <-; exact (digit_val_range d C). }
  destruct (pat_n_q u) as [[y1 q1]|] eqn:E2.
  { intros H; injection H as <- <-; unfold pat_n_q in E2.
    destruct u as [|d [|a r]]; try discriminate.
    destruct (is_digit d && Ascii.eqb a "Q"%char) eqn:C; [|discriminate].
    apply andb_true_iff in C as [C _].
    destruct (ws_fy_year r); [|discriminate]; injection E2 as _ <-; exact (digit_val_range d C). }
  destruct (pat_n_q_yy u) as [[y1 q1]|] eqn:E3.
  { intros H; injection H as <- <-; unfold pat_n_q_yy in E3.
    destruct u as [|d [|a [|b1 [|b2 [|]]]]]; try discriminate.
    destruct (is_digit d && Ascii.eqb a "Q"%char && is_digit b1 && is_digit b2) eqn:C; [|discriminate].
    rewrite !andb_true_iff in C; destruct C as [[[C _] _] _].
    injection E3 as _ <-; exact (digit_val_range d C). }
  destruct (pat_fy u) as [[y1 q1]|] eqn:E4.
  { intros H; injection H as <- <-; unfold pat_fy in E4.
    destruct (drop_prefix "FY" u); [|discriminate].
    destruct (four_digits _); [|discriminate]; injection E4 as _ <-; lia. }
  destruct (pat_fiscal u) as [[y1 q1]|] eqn:E5; [|discriminate].
  intros H; injection H as <- <-; unfold pat_fiscal in E5.
  destruct (drop_prefix "FISCAL" u); [|discriminate].
  destruct (ws_year_year _); [|discriminate]; injection E5 as _ <-; lia.
Qed.

Lemma fmt_period_parses y q :
  (1000 <= y <= 9999)%Z -> (0 <= q <= 9)%Z -> parse_period (Some (fmt_period y q)) = Some (y, q).
Proof.
  intros Hy Hq.
  assert (A : fmt_check y q = true).
  { apply (all_from_spec 10 0 (fmt_check y) q).
    - apply (all_from_spec (90 * 100) 1000 (fun y => all_from 10 0 (fmt_check y)) y).
      + exact fmt_round_trip_all_true.
      + lia.
    - cbn -[Z.add]; lia. }
  unfold fmt_check in A.
  destruct (parse_period (Some (fmt_period y q))) as [[y' q']|]; [|discriminate].
  apply andb_true_iff in A as [A1 A2]; apply Z.eqb_eq in A1, A2; subst; reflexivity.
Qed.

Lemma shift_period_string_parse s y q d :
  parse_period (Some s) = Some (y, q) ->
  shift_period_string (Some s) d = Some (fmt_period (y + d) q).
Proof.
  intros H; unfold shift_period_string, fmt_period; rewrite H.
  destruct (Z.eqb q 0); reflexivity.
Qed.

Lemma parse_shift_period_string p d :
  years_in_range d p ->
  parse_period (shift_period_string p d) = option_map (shift_yq d) (parse_period p).
Proof.
  intros H; destruct p as [s|]; [|reflexivity].
  destruct (parse_period (Some s)) as [[y q]|] eqn:E.
  - rewrite (shift_period_string_parse s y q d E).
    apply fmt_period_parses; [exact (H y q E) | exact (parse_period_quarter_range _ _ _ E)].
  - unfold shift_period_string; rewrite E; exact E.
Qed.

Lemma truthy_shift_period_string p d :
  option_map (fun cp => parse_period (Some cp)) (truthy (shift_period_string p d))
  = option_map (fun cp => parse_period (shift_period_string (Some cp) d)) (truthy p).
Proof.
  destruct p as [[|c s]|]; try reflexivity.
  cbn [truthy option_map]; unfold shift_period_string.
  destruct (parse_period (Some (String c s))) as [[y q]|] eqn:E; [|reflexivity].
  destruct (Z.eqb q 0); reflexivity.
Qed.

Lemma truthy_parse_shift p d :
  years_in_range d (truthy p) ->
  option_map (fun cp => parse_period (Some cp)) (truthy (shift_period_string p d))
  = option_map (option_map (shift_yq d)) (option_map (fun cp => parse_period (Some cp)) (truthy p)).
Proof.
  intros H; rewrite truthy_shift_period_string.
  destruct p as [[|c s]|]; try reflexivity.
  cbn [truthy option_map]; f_equal; apply parse_shift_period_string; exact H.
Qed.

Lemma parse_shift_id p : option_map (shift_yq 0) (parse_period p) = parse_period p.
Proof.
  destruct (parse_period p) as [[y q]|]; [|reflexivity].
  unfold shift_yq; cbn; rewrite Z.add_0_r; reflexivity.
Qed.

Ltac periods_eq :=
  repeat match goal with
  | |- ?a = ?a => reflexivity
  | |- mkPeriods _ _ _ = mkPeriods _ _ _ => f_equal
  | |- Some _ = Some _ => f_equal
  | |- pair _ _ = pair _ _ => f_equal
  | |- @eq Z _ _ => lia
  end.

(** X2: when the years of the period and of the comparison period stay
    four-digit, resolving the periods of [_claim_with_period_shift claim d]
    against a transcript year moved by [d] gives the periods of [claim]
    moved by [d] years. *)
Theorem resolve_periods_shift claim d ty tq :
  years_in_range d (period claim) -> years_in_range d (truthy (comparison_period claim)) ->
  resolve_periods (claim_with_period_shift claim d) (ty + d) tq
  = shift_periods d (resolve_periods claim ty tq).
Proof.
  intros Hp Hc.
  assert (P : parse_period (period (claim_with_period_shift claim d))
              = option_map (shift_yq d) (parse_period (period claim))).
  { unfold claim_with_period_shift; destruct (Z.eqb_spec d 0) as [->|_].
    - symmetry; apply parse_shift_id.
    - exact (parse_shift_period_string _ _ Hp). }
  assert (C : option_map (fun cp => parse_period (Some cp))
                (truthy (comparison_period (claim_with_period_shift claim d)))
              = option_map (option_map (shift_yq d))
                  (option_map (fun cp => parse_period (Some cp)) (truthy (comparison_period claim)))).
  { unfold claim_with_period_shift; destruct (Z.eqb_spec d 0) as [->|_].
    - destruct (truthy (comparison_period claim)); [|reflexivity].
      cbn [option_map]; rewrite parse_shift_id; reflexivity.
    - exact (truthy_parse_shift _ _ Hc). }
  assert (T : claim_type (claim_with_period_shift claim d) = claim_type claim)
    by (unfold claim_with_period_shift; destruct (Z.eqb d 0); reflexivity).
  unfold resolve_periods; rewrite P, C, T.
  destruct (parse_period (period claim)) as [[y q]|]; cbn [option_map shift_yq fst snd];
  [ set (y0 := y) ; set (q0 := q) | set (y0 := ty) ; set (q0 := tq) ];
  (destruct (Z.eqb q0 0); [unfold shift_periods, shift_yq; reflexivity|]);
  (destruct (String.eqb _ "yoy_growth");
   [ destruct (option_map _ (truthy (comparison_period claim))) as [[[by0 bq]|]|];
     unfold shift_periods, shift_yq; cbn; periods_eq
   | destruct (String.eqb _ "qoq_growth");
     [ destruct (Z.eqb q0 1); unfold shift_periods, shift_yq; cbn; periods_eq
     | unfold shift_periods, shift_yq; reflexivity ] ]).
Qed.

Lemma resolve_periods_shift_witness :
  years_in_range 1 (period growth_claim_q3) /\
  years_in_range 1 (truthy (comparison_period growth_claim_q3)) /\
  resolve_periods (claim_with_period_shift growth_claim_q3 1) (2024 + 1) 3
  = shift_periods 1 (resolve_periods growth_claim_q3 2024 3).
Proof.
  assert (H1 : years_in_range 1 (period growth_claim_q3)).
  { intros y q H; vm_compute in H; injection H as <- <-; lia. }
  assert (H2 : years_in_range 1 (truthy (comparison_period growth_claim_q3))).
  { intros y q H; vm_compute in H; injection H as <- <-; lia. }
  split; [exact H1|]; split; [exact H2|].
  exact (resolve_periods_shift growth_claim_q3 1 2024 3 H1 H2).
Defined.

(** X1: when [parse_period] reads [s] as year [y] and quarter [q] and
    [y + d] has four digits, the string [_shift_period_string] builds for
    [d] parses to [(y + d, q)], and shifting it back by [-d] gives the
    string of [s] shifted by 0. *)
Theorem shift_period_string_round_trip s y q d :
  parse_period (Some s) = Some (y, q) -> (1000 <= y + d <= 9999)%Z ->
  parse_period (shift_period_string (Some s) d) = Some ((y + d)%Z, q) /\
  shift_period_string (shift_period_string (Some s) d) (- d) = shift_period_string (Some s) 0.
Proof.
  intros H Hr.
  pose proof (parse_period_quarter_range _ _ _ H) as Hq.
  rewrite (shift_period_string_parse s y q d H).
  assert (P : parse_period (Some (fmt_period (y + d) q)) = Some ((y + d)%Z, q))
    by (apply fmt_period_parses; lia).
  split; [exact P|].
  rewrite (shift_period_string_parse _ _ _ (- d) P), (shift_period_string_parse s y q 0 H).
  do 2 f_equal; lia.
Qed.


Lemma shift_period_string_round_trip_witness :
  parse_period (Some "Q3 2024") = Some (2024%Z, 3%Z) /\ (1000 <= 2024 + 1 <= 9999)%Z /\
  parse_period (shift_period_string (Some "Q3 2024") 1) = Some ((2024 + 1)%Z, 3%Z) /\
  shift_period_string (shift_period_string (Some "Q3 2024") 1) (- 1) = shift_period_string (Some "Q3 2024") 0.
Proof.
  assert (H : parse_period (Some "Q3 2024") = Some (2024%Z, 3%Z)) by (vm_compute; reflexivity).
  split; [exact H|]; split; [lia|].
  apply (shift_period_string_round_trip "Q3 2024" 2024 3 1); [exact H | lia].
Defined.

(* ------------------------------------------------------------------ *)
(** ** Tolerances and bands *)

Lemma TOLERANCES_cases m :
  TOLERANCES m = None \/
  In (TOLERANCES m) [Some (5#1000, 2#100, 5#100); Some (1#100, 3#100, 5#100);
                     Some (1#100, 2#100, 5#100); Some (3#1000, 1#100, 2#100);
                     Some (2#100, 5#100, 10#100)].
Proof.
  unfold TOLERANCES.
  repeat match goal with |- context [match ?x with _ => _ end] => destruct x end;
  first [left; reflexivity | right; cbn; tauto].
Qed.

Lemma ext_le_mono d1 d2 t :
  ext_leb d1 d2 = true -> ext_le d2 t = true -> ext_le d1 t = true.
Proof.
  destruct d1 as [a|], d2 as [b|]; cbn; try discriminate.
  rewrite !Qle_bool_iff; intros; lra.
Qed.

Lemma ext_le_tol d t1 t2 : t1 <= t2 -> ext_le d t1 = true -> ext_le d t2 = true.
Proof. destruct d as [a|]; cbn; [rewrite !Qle_bool_iff; intros; lra | discriminate]. Qed.

Lemma band_rank_mono d1 d2 t1 t2 :
  ext_leb d1 d2 = true -> tight t2 <= tight t1 -> loose t2 <= loose t1 ->
  (label_rank (band d1 t1) <= label_rank (band d2 t2))%nat.
Proof.
  intros Hd Ht Hl; unfold band.
  destruct (ext_le d2 (tight t2)) eqn:E1.
  - rewrite (ext_le_mono _ _ _ Hd (ext_le_tol _ _ _ Ht E1)); cbn; lia.
  - destruct (ext_le d2 (loose t2)) eqn:E2.
    + rewrite (ext_le_mono _ _ _ Hd (ext_le_tol _ _ _ Hl E2)).
      destruct (ext_le d1 (tight t1)); cbn; lia.
    + destruct (ext_le d1 (tight t1)), (ext_le d1 (loose t1)); cbn; lia.
Qed.

(** X4: the verdict band is monotone: a smaller difference judged with
    tolerances at least as wide never gets a worse label. *)
Theorem band_monotone d1 d2 t1 t2 :
  ext_leb d1 d2 = true -> tight t2 <= tight t1 -> loose t2 <= loose t1 ->
  (label_rank (band d1 t1) <= label_rank (band d2 t2))%nat.
Proof. exact (band_rank_mono d1 d2 t1 t2). Qed.

Lemma band_monotone_witness :
  ext_leb (Fin (1#100)) (Fin (3#100)) = true /\ tight (get_tolerance "revenue" false) <= tight (get_tolerance "revenue" true) /\
  loose (get_tolerance "revenue" false) <= loose (get_tolerance "revenue" true) /\
  (label_rank (band (Fin (1#100)) (get_tolerance "revenue" true))
   <= label_rank (band (Fin (3#100)) (get_tolerance "revenue" false)))%nat.
Proof.
  assert (A : ext_leb (Fin (1#100)) (Fin (3#100)) = true) by reflexivity.
  assert (B : tight (get_tolerance "revenue" false) <= tight (get_tolerance "revenue" true))
    by (vm_compute; discriminate).
  assert (C : loose (get_tolerance "revenue" false) <= loose (get_tolerance "revenue" true))
    by (vm_compute; discriminate).
  split; [exact A|]; split; [exact B|]; split; [exact C|].
  exact (band_monotone _ _ _ _ A B C).
Defined.

(** X3: every tolerance has tight <= loose, the approximate tolerances
    are at least as wide as the exact ones (also for growth rates), so a
    claim marked approximate never gets a worse band than the same
    difference judged exactly. *)
Theorem approximate_tolerance_wider m :
  tight (get_tolerance m false) <= loose (get_tolerance m false) /\
  tight (get_tolerance m true) <= loose (get_tolerance m true) /\
  tight (get_tolerance m false) <= tight (get_tolerance m true) /\
  loose (get_tolerance m false) <= loose (get_tolerance m true) /\
  tight (get_growth_tolerance false) <= loose (get_growth_tolerance false) /\
  tight (get_growth_tolerance true) <= loose (get_growth_tolerance true) /\
  tight (get_growth_tolerance false) <= tight (get_growth_tolerance true) /\
  loose (get_growth_tolerance false) <= loose (get_growth_tolerance true) /\
  (forall d, (label_rank (band d (get_tolerance m true)) <= label_rank (band d (get_tolerance m false)))%nat) /\
  (forall d, (label_rank (band d (get_growth_tolerance true))
              <= label_rank (band d (get_growth_tolerance false)))%nat).
Proof.
  assert (H : tight (get_tolerance m false) <= loose (get_tolerance m false) /\
              tight (get_tolerance m true) <= loose (get_tolerance m true) /\
              tight (get_tolerance m false) <= tight (get_tolerance m true) /\
              loose (get_tolerance m false) <= loose (get_tolerance m true)).
  { unfold get_tolerance.
    destruct (TOLERANCES_cases m) as [E | E]; [rewrite E; cbn; repeat split; lra|].
    cbn in E; repeat destruct E as [E | E]; try contradiction; rewrite <- E; cbn; repeat split; lra. }
  destruct H as [H1 [H2 [H3 H4]]].
  assert (G1 : tight (get_growth_tolerance false) <= tight (get_growth_tolerance true))
    by (cbn; unfold GROWTH_RATE_TOLERANCE_PP; lra).
  assert (G2 : loose (get_growth_tolerance false) <= loose (get_growth_tolerance true))
    by (cbn; unfold GROWTH_RATE_LOOSE_PP; lra).
  assert (G3 : tight (get_growth_tolerance false) <= loose (get_growth_tolerance false))
    by (cbn; unfold GROWTH_RATE_TOLERANCE_PP, GROWTH_RATE_LOOSE_PP; lra).
  assert (G4 : tight (get_growth_tolerance true) <= loose (get_growth_tolerance true))
    by (cbn; unfold GROWTH_RATE_TOLERANCE_PP, GROWTH_RATE_LOOSE_PP; lra).
  repeat split; try assumption.
  - intros d; apply band_rank_mono; [destruct d; cbn; [apply Qle_bool_iff; lra | reflexivity] | exact H3 | exact H4].
  - intros d; apply band_rank_mono; [destruct d; cbn; [apply Qle_bool_iff; lra | reflexivity] | exact G1 | exact G2].
Qed.

(* ------------------------------------------------------------------ *)
(** ** Growth, margin and absolute comparison (compute.py) *)

Lemma Qabs_pos_nz p : ~ p == 0 -> 0 < Qabs p.
Proof.
  intros Hp; destruct (Qlt_le_dec 0 p) as [Hlt|Hle];
  [rewrite Qabs_pos by lra; exact Hlt | rewrite Qabs_neg by lra].
  destruct (Qeq_dec p 0); [contradiction|]; lra.
Qed.

Lemma Qeq_bool_false p : ~ p == 0 -> Qeq_bool p 0 = false.
Proof. intros Hp; destruct (Qeq_bool p 0) eqn:E; [apply Qeq_bool_iff in E; contradiction | reflexivity]. Qed.

Lemma Qmult_pos_iff x k : 0 < k -> (0 < x * k <-> 0 < x).
Proof.
  intros Hk; split; intros H.
  - destruct (Qlt_le_dec 0 x) as [|Hx]; [assumption|].
    exfalso; assert (x * k <= 0 * k) by (apply Qmult_le_compat_r; lra). lra.
  - assert (0 * k < x * k) by (apply Qmult_lt_compat_r; assumption). lra.
Qed.

Lemma Qmult_zero_iff x k : 0 < k -> (x * k == 0 <-> x == 0).
Proof.
  intros Hk; split; intros H.
  - destruct (Qeq_dec x 0) as [|Hx]; [assumption|].
    exfalso; apply (Qmult_integral x k) in H as [H|H]; [contradiction | lra].
  - rewrite H; ring.
Qed.

(** X5: with a nonzero prior, [compute_yoy_growth] gives a value that is
    positive exactly when the value grew and zero exactly when it is
    unchanged; the value [prior + |prior| * target / 100] has growth
    [target]. *)
Theorem yoy_growth_sign_and_inverse current prior :
  ~ prior == 0 ->
  exists g, compute_yoy_growth current prior = Some g /\
    (0 < g <-> prior < current) /\ (g == 0 <-> current == prior) /\
    (forall target, exists g', compute_yoy_growth (prior + Qabs prior * target / 100) prior = Some g'
                               /\ g' == target).
Proof.
  intros Hp; pose proof (Qabs_pos_nz _ Hp) as Ha.
  assert (Hk : 0 < 100 / Qabs prior).
  { unfold Qdiv; apply Qmult_lt_0_compat; [reflexivity | apply Qinv_lt_0_compat; exact Ha]. }
  assert (E : forall x, x / Qabs prior * 100 == x * (100 / Qabs prior))
    by (intros x; field; lra).
  unfold compute_yoy_growth; rewrite (Qeq_bool_false _ Hp).
  eexists; split; [reflexivity|]; split; [|split].
  - rewrite E, (Qmult_pos_iff _ _ Hk); lra.
  - rewrite E, (Qmult_zero_iff _ _ Hk); lra.
  - intros t; eexists; split; [reflexivity|]. field; lra.
Qed.

Lemma yoy_growth_sign_and_inverse_witness :
  ~ (80 : Q) == 0 /\
  exists g, compute_yoy_growth 100 80 = Some g /\
    (0 < g <-> 80 < 100) /\ (g == 0 <-> 100 == 80) /\
    (forall target, exists g', compute_yoy_growth (80 + Qabs 80 * target / 100) 80 = Some g'
                               /\ g' == target).
Proof.
  assert (H : ~ (80 : Q) == 0) by (vm_compute; discriminate).
  split; [exact H|]. exact (yoy_growth_sign_and_inverse 100 80 H).
Defined.

(** X6: with a positive denominator, [compute_margin] gives a percentage
    in [0, 100] when [0 <= numerator <= denominator], and the margin times
    the denominator gives back the numerator. *)
Theorem margin_range_and_inverse numerator denominator :
  0 < denominator ->
  exists m, compute_margin numerator denominator = Some m /\
    (0 <= numerator <= denominator -> 0 <= m <= 100) /\
    m / 100 * denominator == numerator.
Proof.
  intros Hd.
  assert (Hz : ~ denominator == 0) by lra.
  unfold compute_margin; rewrite (Qeq_bool_false _ Hz).
  eexists; split; [reflexivity|]; split.
  - intros [H0 H1].
    assert (Hi : 0 < / denominator) by (apply Qinv_lt_0_compat; exact Hd).
    assert (A : 0 <= numerator / denominator).
    { unfold Qdiv; apply Qmult_le_0_compat; lra. }
    assert (B : numerator / denominator <= 1).
    { setoid_replace 1 with (denominator / denominator) by (field; exact Hz).
      unfold Qdiv; apply Qmult_le_compat_r; lra. }
    lra.
  - field; exact Hz.
Qed.

Lemma margin_range_and_inverse_witness :
  (0 : Q) < 400 /\
  exists m, compute_margin 100 400 = Some m /\
    (0 <= 100 <= 400 -> 0 <= m <= 100) /\ m / 100 * 400 == 100.
Proof.
  assert (H : (0 : Q) < 400) by reflexivity.
  split; [exact H|]. exact (margin_range_and_inverse 100 400 H).
Defined.

(** X7: [verify_absolute] never raises on a present claimed value; the
    difference is [claimed - actual]; the percentage is [float("inf")]
    exactly when the actual value is zero and the claimed one is not, and
    otherwise it is nonnegative and zero exactly when the values agree. *)
Theorem verify_absolute_pct claimed actual :
  exists cmp, verify_absolute (Some claimed) actual = Ok cmp /\
    ac_difference cmp == claimed - actual /\
    ((ac_difference_pct cmp = Inf <-> actual == 0 /\ ~ claimed == 0) /\
     (forall x, ac_difference_pct cmp = Fin x -> 0 <= x /\ (x == 0 <-> claimed == actual))).
Proof.
  unfold verify_absolute, Qneqb; cbn [num bind].
  eexists; split; [reflexivity|]; cbn [ac_difference ac_difference_pct]; split; [lra|].
  destruct (Qeq_bool actual 0) eqn:Ea; cbn [negb].
  - apply Qeq_bool_iff in Ea.
    destruct (Qeq_bool claimed 0) eqn:Ec; cbn [negb].
    + apply Qeq_bool_iff in Ec; split.
      * split; [discriminate | intros [_ H]; contradiction].
      * intros x Hx; injection Hx as <-; split; [lra|split; intros; lra].
    + assert (~ claimed == 0) by (intros H; apply Qeq_bool_iff in H; congruence).
      split; [split; [intros _; split; assumption | reflexivity] | discriminate].
  - assert (Hz : ~ actual == 0) by (intros H; apply Qeq_bool_iff in H; congruence).
    split; [split; [discriminate | intros [H _]; contradiction]|].
    intros x Hx.
    assert (Ex : Qabs ((claimed - actual) / actual) * 100 = x) by (injection Hx; auto).
    subst x.
    split; [apply Qmult_le_0_compat; [apply Qabs_nonneg | discriminate]|].
    assert (E : Qabs ((claimed - actual) / actual) == 0 <-> claimed == actual).
    { split; intros H.
      - assert (H0 : (claimed - actual) / actual == 0).
        { destruct (Qeq_dec ((claimed - actual) / actual) 0) as [|Hne]; [assumption|].
          exfalso; apply Hne.
          destruct (Qlt_le_dec 0 ((claimed - actual) / actual)) as [L|L];
          [rewrite Qabs_pos in H by lra | rewrite Qabs_neg in H by lra]; lra. }
        assert (H1 : claimed - actual == (claimed - actual) / actual * actual) by (field; exact Hz).
        rewrite H0 in H1; lra.
      - setoid_replace ((claimed - actual) / actual) with 0 by (rewrite H; field; exact Hz).
        reflexivity. }
    rewrite <- E; split; intros H.
    + assert (H' : Qabs ((claimed - actual) / actual) == Qabs ((claimed - actual) / actual) * 100 / 100)
        by field. rewrite H', H; reflexivity.
    + rewrite H; reflexivity.
Qed.

(* ------------------------------------------------------------------ *)
(** ** Normalisation and verdict-engine helpers *)

Lemma scale_multiplier_pos s : 0 < scale_multiplier s.
Proof.
  unfold scale_multiplier.
  repeat match goal with |- context [match ?x with _ => _ end] => destruct x end;
  reflexivity.
Qed.

(** X8: [normalize_claimed_value] keeps the order of claimed values for
    every unit and scale; a missing value gives [None] or raises
    [TypeError]. *)
Theorem normalize_claimed_value_monotone unit scale v1 v2 :
  v1 <= v2 ->
  exists n1 n2, normalize_claimed_value (Some v1) unit scale = Ok (Some n1) /\
    normalize_claimed_value (Some v2) unit scale = Ok (Some n2) /\ n1 <= n2 /\
    (normalize_claimed_value None unit scale = Ok None \/
     normalize_claimed_value None unit scale = Raise TypeError).
Proof.
  intros H; pose proof (scale_multiplier_pos scale) as Hs.
  unfold normalize_claimed_value; cbn [num bind].
  destruct (String.eqb unit "percent"); [do 2 eexists; repeat split; [exact H | left; reflexivity]|].
  destruct (String.eqb unit "basis_points").
  { do 2 eexists; repeat split; [|right; reflexivity].
    unfold Qdiv; apply Qmult_le_compat_r; [exact H | discriminate]. }
  destruct (String.eqb unit "per_share"); [do 2 eexists; repeat split; [exact H | left; reflexivity]|].
  destruct (String.eqb unit "ratio"); [do 2 eexists; repeat split; [exact H | left; reflexivity]|].
  do 2 eexists; repeat split; [|right; reflexivity].
  apply Qmult_le_compat_r; lra.
Qed.

Lemma normalize_claimed_value_monotone_witness :
  (3 : Q) <= 5 /\
  exists n1 n2, normalize_claimed_value (Some 3) "dollars" (Some "billions") = Ok (Some n1) /\
    normalize_claimed_value (Some 5) "dollars" (Some "billions") = Ok (Some n2) /\ n1 <= n2 /\
    (normalize_claimed_value None "dollars" (Some "billions") = Ok None \/
     normalize_claimed_value None "dollars" (Some "billions") = Raise TypeError).
Proof.
  assert (H : (3 : Q) <= 5) by (vm_compute; discriminate).
  split; [exact H|]. exact (normalize_claimed_value_monotone _ _ _ _ H).
Defined.

Lemma Qabs_idem x : Qabs (Qabs x) == Qabs x.
Proof. apply Qabs_pos, Qabs_nonneg. Qed.

(** X9: [_signed_bps_value] keeps the magnitude of the claimed value; it
    is nonpositive when the quote has a negative word, nonnegative when it
    has only a positive word, and the claimed value when it has neither. *)
Theorem signed_bps_value_magnitude claimed quote :
  exists v, signed_bps_value (Some claimed) quote = Ok v /\ Qabs v == Qabs claimed /\
    (any_in BPS_NEGATIVE_WORDS quote = true -> v <= 0) /\
    (any_in BPS_NEGATIVE_WORDS quote = false -> any_in BPS_POSITIVE_WORDS quote = true -> 0 <= v) /\
    (any_in BPS_NEGATIVE_WORDS quote = false -> any_in BPS_POSITIVE_WORDS quote = false -> v = claimed).
Proof.
  unfold signed_bps_value; cbn [num bind].
  pose proof (Qabs_nonneg claimed).
  destruct (any_in BPS_NEGATIVE_WORDS quote).
  - eexists; split; [reflexivity|]. rewrite Qabs_opp, Qabs_idem.
    repeat split; intros; try discriminate; lra.
  - destruct (any_in BPS_POSITIVE_WORDS quote); eexists; (split; [reflexivity|]).
    + rewrite Qabs_idem; repeat split; intros; try discriminate; lra.
    + repeat split; intros; try discriminate; lra || reflexivity.
Qed.

Lemma previous_quarter_in_1_4 y q : in_1_4 q = true -> in_1_4 (snd (previous_quarter y q)) = true.
Proof.
  unfold in_1_4, previous_quarter; rewrite andb_true_iff, !Z.leb_le; intros H.
  destruct (Z.eqb_spec q 1); cbn [snd]; apply andb_true_iff; rewrite !Z.leb_le; lia.
Qed.

(** X10: every baseline [_resolve_margin_change_baseline] returns has a
    quarter in 1..4, and it returns one whenever the target quarter is in
    1..4. *)
Theorem margin_change_baseline_quarter claim y q quote :
  (forall p, resolve_margin_change_baseline claim y q quote = Some p -> (1 <= snd p <= 4)%Z) /\
  (in_1_4 q = true -> resolve_margin_change_baseline claim y q quote <> None).
Proof.
  assert (R : forall p : Z * Z, in_1_4 (snd p) = true -> (1 <= snd p <= 4)%Z)
    by (intros p; unfold in_1_4; rewrite andb_true_iff, !Z.leb_le; tauto).
  unfold resolve_margin_change_baseline.
  match goal with |- context [match ?fc with Some p => Some p | None => _ end] =>
    destruct fc as [p0|] eqn:F end.
  - assert (Ep : in_1_4 (snd p0) = true).
    { destruct (option_map _ _) as [[p1|]|]; try discriminate.
      destruct (in_1_4 (snd p1)) eqn:E1; [injection F as <-; exact E1 | discriminate]. }
    split; [intros p Hp; injection Hp as <-; auto | discriminate].
  - destruct (in_1_4 q) eqn:Eq; cbn [negb]; [|split; discriminate].
    split; [|intros _; destruct (any_in YOY_WORDS quote); [|destruct (any_in SEQUENTIAL_WORDS quote)]; discriminate].
    intros p Hp; apply R.
    destruct (any_in YOY_WORDS quote); [injection Hp as <-; exact Eq|].
    destruct (any_in SEQUENTIAL_WORDS quote); injection Hp as <-; apply previous_quarter_in_1_4; exact Eq.
Qed.

Lemma Qlt_bool_false a b : Qlt a b = false <-> b <= a.
Proof. apply (Qgt_false b a). Qed.

(** X11: when the claimed value is within 96% to 105% of a nonzero actual
    value, [_definition_gap_check] finds no definition gap; a missing
    claimed value raises [TypeError] unless the actual value is zero. *)
Theorem definition_gap_within_band metric n actual quote :
  ~ actual == 0 -> 96#100 <= n / actual <= 105#100 ->
  definition_gap_check metric (Some n) actual quote = Ok None /\
  definition_gap_check metric None actual quote = Raise TypeError /\
  definition_gap_check metric None 0 quote = Ok None.
Proof.
  intros Ha [Hl Hu].
  split; [|split; [unfold definition_gap_check; rewrite (Qeq_bool_false _ Ha); reflexivity | reflexivity]].
  unfold definition_gap_check; rewrite (Qeq_bool_false _ Ha); cbn [num bind].
  assert (P : Qabs (n - actual) / Qabs actual <= 5#100).
  { assert (E : Qabs (n - actual) / Qabs actual == Qabs (n / actual - 1)).
    { setoid_replace (n / actual - 1) with ((n - actual) * / actual) by (field; exact Ha).
      rewrite Qabs_Qmult, Qabs_Qinv; reflexivity. }
    rewrite E; apply Qabs_Qle_condition; lra. }
  rewrite (proj2 (Qgt_false _ _) P), andb_false_r.
  assert (G : Qgt (n / actual) (13#10) = false) by (apply Qgt_false; lra).
  assert (A1 : Qlt (n / actual) (8#10) = false) by (apply Qlt_bool_false; lra).
  assert (A2 : Qlt (105#100) (n / actual) = false) by (apply Qlt_bool_false; lra).
  assert (A3 : Qlt (n / actual) (95#100) = false) by (apply Qlt_bool_false; lra).
  assert (A4 : Qlt (n / actual) (96#100) = false) by (apply Qlt_bool_false; lra).
  rewrite G, A1, A2, A3, A4; repeat rewrite ?andb_false_r, ?andb_false_l.
  reflexivity.
Qed.

Lemma definition_gap_within_band_witness :
  ~ (100 : Q) == 0 /\ 96#100 <= 102 / 100 <= 105#100 /\
  definition_gap_check "revenue" (Some 102) 100 "Revenue was 102" = Ok None /\
  definition_gap_check "revenue" None 100 "Revenue was 102" = Raise TypeError /\
  definition_gap_check "revenue" None 0 "Revenue was 102" = Ok None.
Proof.
  assert (H1 : ~ (100 : Q) == 0) by (vm_compute; discriminate).
  assert (H2 : 96#100 <= 102 / 100 <= 105#100) by (split; vm_compute; discriminate).
  split; [exact H1|]; split; [exact H2|].
  exact (definition_gap_within_band "revenue" 102 100 "Revenue was 102" H1 H2).
Defined.

(** X12: [_remap_other_metric] changes only the metric [other], and maps it
    either to itself or to a metric of the catalog. *)
Theorem remap_other_metric_catalog metric quote :
  (metric <> "other" -> remap_other_metric metric quote = metric) /\
  (remap_other_metric "other" quote = "other" \/
   get_catalog_entry (remap_other_metric "other" quote) <> None).
Proof.
  split.
  - intros H; unfold remap_other_metric.
    apply String.eqb_neq in H; rewrite H; reflexivity.
  - unfold remap_other_metric; cbn [String.eqb negb Ascii.eqb Bool.eqb].
    repeat match goal with |- context [if ?b then _ else _] => destruct b end;
    first [left; reflexivity | right; discriminate].
Qed.

(* ------------------------------------------------------------------ *)
(** ** Misleading-claim heuristics *)

Lemma Qlt_bool_true a b : Qlt a b = true <-> a < b.
Proof. apply (Qgt_true b a). Qed.

Lemma cherry_picking_trigger claim fmp y q :
  check_cherry_picking_timeframe claim fmp y q = ([], []) \/
  exists p, check_cherry_picking_timeframe claim fmp y q = (["cherry_picking_timeframe"], [p]) /\
    get_or (claim_type claim) "" = "qoq_growth" /\ 0 < claimed_or_zero claim /\
    exists cur prior g, cell fmp (y, q) (get_or (metric_type claim) "") = Some cur /\
      cell fmp (y - 1, q)%Z (get_or (metric_type claim) "") = Some prior /\
      compute_yoy_growth cur prior = Some g /\ g < -5.
Proof.
  unfold check_cherry_picking_timeframe.
  destruct (String.eqb_spec (get_or (claim_type claim) "") "qoq_growth") as [Ct|]; [|left; reflexivity].
  destruct (Qle_bool (claimed_or_zero claim) 0) eqn:Cv; [left; reflexivity|].
  cbn [negb orb].
  destruct (has_row fmp (y, q) && has_row fmp (y - 1, q)%Z); cbn [negb]; [|left; reflexivity].
  destruct (cell fmp (y, q) _) as [cur|] eqn:E1; [|left; reflexivity].
  destruct (cell fmp (y - 1, q)%Z _) as [prior|] eqn:E2; [|left; reflexivity].
  destruct (compute_yoy_growth cur prior) as [g|] eqn:E3; [|left; reflexivity].
  destruct (Qlt g (-5)) eqn:E4; [right|left; reflexivity].
  eexists; split; [reflexivity|]; split; [exact Ct|]; split.
  - destruct (Qlt_le_dec 0 (claimed_or_zero claim)) as [L|L]; [exact L|].
    apply Qle_bool_iff in L; congruence.
  - exists cur, prior, g; repeat split; try assumption. apply Qlt_bool_true; exact E4.
Qed.

Lemma gaap_mixing_trigger claim fmp y q :
  check_gaap_nongaap_mixing claim fmp y q = ([], []) \/
  exists p, check_gaap_nongaap_mixing claim fmp y q = (["gaap_nongaap_mixing"], [p]) /\
    get_or (gaap_classification claim) "unknown" = "unknown" /\
    get_or (claim_type claim) "" = "absolute" /\
    mem (get_or (metric_type claim) "") ["eps_basic"; "eps_diluted"; "ebitda"] = true /\
    any_in NONGAAP_KEYWORDS (quote_lower_of claim) = false /\
    exists cv g, claimed_value claim = Some cv /\
      cell fmp (y, q) (get_or (metric_type claim) "") = Some g /\
      ~ g == 0 /\ 15#100 < (cv - g) / Qabs g.
Proof.
  unfold check_gaap_nongaap_mixing.
  destruct (String.eqb_spec (get_or (gaap_classification claim) "unknown") "unknown") as [Hg|];
  [|left; reflexivity].
  destruct (String.eqb_spec (get_or (claim_type claim) "") "absolute") as [Hc|];
  [|left; reflexivity]. cbn [negb orb].
  destruct (mem _ _) eqn:Hm; cbn [negb]; [|left; reflexivity].
  destruct (claimed_value claim) as [cv|] eqn:Hv; [|left; reflexivity].
  destruct (cell fmp (y, q) _) as [g|] eqn:Hcell; [|left; reflexivity].
  destruct (Qeq_bool g 0) eqn:Hz; [left; reflexivity|].
  destruct (Qgt ((cv - g) / Qabs g) (15#100)) eqn:Hp; cbn [andb]; [|left; reflexivity].
  destruct (any_in NONGAAP_KEYWORDS (quote_lower_of claim)) eqn:Hk; cbn [negb]; [left; reflexivity|].
  right; eexists; split; [reflexivity|]; repeat split; try assumption.
  exists cv, g; repeat split; try assumption.
  - intros H; apply Qeq_bool_iff in H; congruence.
  - apply Qgt_true; exact Hp.
Qed.

Lemma low_base_trigger claim fmp y q :
  check_low_base_exaggeration claim fmp y q = ([], []) \/
  exists p, check_low_base_exaggeration claim fmp y q = (["low_base_exaggeration"], [p]) /\
    mem (get_or (claim_type claim) "") ["yoy_growth"; "qoq_growth"] = true /\
    50 <= Qabs (claimed_or_zero claim) /\
    exists bv rev, cell fmp (low_base_baseline claim y q) (get_or (metric_type claim) "") = Some bv /\
      cell fmp (y, q) "revenue" = Some rev /\ ~ rev == 0 /\ Qabs bv / Qabs rev < 1#100.
Proof.
  unfold check_low_base_exaggeration.
  destruct (mem _ _) eqn:Hm; cbn [negb]; [|left; reflexivity].
  destruct (Qlt (Qabs (claimed_or_zero claim)) 50) eqn:Hl; [left; reflexivity|].
  change (if String.eqb (get_or (claim_type claim) "") "yoy_growth" then (y - 1, q)%Z
          else if Z.gtb q 1 then (y, q - 1)%Z else (y - 1, 4)%Z) with (low_base_baseline claim y q).
  destruct (has_row fmp (low_base_baseline claim y q) && has_row fmp (y, q)); cbn [negb]; [|left; reflexivity].
  destruct (cell fmp (low_base_baseline claim y q) _) as [bv|] eqn:Hb; [|left; reflexivity].
  destruct (cell fmp (y, q) "revenue") as [rev|] eqn:Hr; [|left; reflexivity].
  destruct (Qeq_bool rev 0) eqn:Hz; [left; reflexivity|].
  destruct (Qlt (Qabs bv / Qabs rev) (1#100)) eqn:Hq; [right|left; reflexivity].
  eexists; split; [reflexivity|]; split; [first [exact Hm | reflexivity]|]; split.
  - apply (Qgt_false 50); exact Hl.
  - exists bv, rev; repeat split; try assumption.
    + intros H; apply Qeq_bool_iff in H; congruence.
    + apply (Qgt_true (1#100)); exact Hq.
Qed.


(** X13: [run_all_heuristics] returns one reason per flag, no flag twice,
    only the three heuristic names, and each flag only when every value test
    of its check holds. *)
Theorem run_all_heuristics_flags claim fmp y q :
  let '(fl, rs) := run_all_heuristics claim fmp y q in
  length fl = length rs /\ NoDup fl /\
  (In "cherry_picking_timeframe" fl ->
     get_or (claim_type claim) "" = "qoq_growth" /\ 0 < claimed_or_zero claim /\
     exists cur prior g, cell fmp (y, q) (get_or (metric_type claim) "") = Some cur /\
       cell fmp (y - 1, q)%Z (get_or (metric_type claim) "") = Some prior /\
       compute_yoy_growth cur prior = Some g /\ g < -5) /\
  (In "gaap_nongaap_mixing" fl ->
     get_or (gaap_classification claim) "unknown" = "unknown" /\
     get_or (claim_type claim) "" = "absolute" /\
     mem (get_or (metric_type claim) "") ["eps_basic"; "eps_diluted"; "ebitda"] = true /\
     any_in NONGAAP_KEYWORDS (quote_lower_of claim) = false /\
     exists cv g, claimed_value claim = Some cv /\
       cell fmp (y, q) (get_or (metric_type claim) "") = Some g /\
       ~ g == 0 /\ 15#100 < (cv - g) / Qabs g) /\
  (In "low_base_exaggeration" fl ->
     mem (get_or (claim_type claim) "") ["yoy_growth"; "qoq_growth"] = true /\
     50 <= Qabs (claimed_or_zero claim) /\
     exists bv rev, cell fmp (low_base_baseline claim y q) (get_or (metric_type claim) "") = Some bv /\
       cell fmp (y, q) "revenue" = Some rev /\ ~ rev == 0 /\ Qabs bv / Qabs rev < 1#100) /\
  (forall f, In f fl ->
     In f ["cherry_picking_timeframe"; "gaap_nongaap_mixing"; "low_base_exaggeration"]).
Proof.
  unfold run_all_heuristics.
  destruct (cherry_picking_trigger claim fmp y q) as [E1 | [p1 [E1 C]]];
  destruct (gaap_mixing_trigger claim fmp y q) as [E2 | [p2 [E2 G]]];
  destruct (low_base_trigger claim fmp y q) as [E3 | [p3 [E3 L]]];
  rewrite E1, E2, E3; cbn [app length].
  all: (split; [reflexivity|]).
  all: (split; [repeat constructor|]).
  all: try match goal with |- ~ In _ _ =>
    cbn [In]; intros H; repeat (destruct H as [H|H]; [discriminate H|]); exact H end.
  all: split; [intros H; cbn [In] in H|].
  all: try (repeat (destruct H as [H|H]; [first [discriminate H | exact C]|]); contradiction H).
  all: split; [intros H; cbn [In] in H|].
  all: try (repeat (destruct H as [H|H]; [first [discriminate H | exact G]|]); contradiction H).
  all: split; [intros H; cbn [In] in H|].
  all: try (repeat (destruct H as [H|H]; [first [discriminate H | exact L]|]); contradiction H).
  all: intros f H; cbn [In] in H |- *.
  all: repeat (destruct H as [H|H]; [subst f; tauto|]); contradiction H.
Qed.


(** X14: [_apply_misleading_checks] never raises and never changes the
    values of a result; it leaves unverifiable results and results without
    flags as they are, and otherwise records the flags and turns a
    verified or close match into misleading. *)
Theorem apply_misleading_checks_outcome r claim fmp y q :
  exists v, apply_misleading_checks r claim fmp y q = Ok v /\
    v_claimed_value v = v_claimed_value r /\ v_actual_value v = v_actual_value r /\
    v_difference v = v_difference r /\ v_difference_pct v = v_difference_pct r /\
    (v_verdict r = Some Unverifiable -> v = r) /\
    (fst (run_all_heuristics claim fmp y q) = [] -> v = r) /\
    (v_verdict r <> Some Unverifiable -> fst (run_all_heuristics claim fmp y q) <> [] ->
       v_misleading_flags v = fst (run_all_heuristics claim fmp y q) /\
       v_verdict v = match v_verdict r with
                     | Some Verified | Some CloseMatch => Some Misleading
                     | l => l
                     end).
Proof.
  unfold apply_misleading_checks.
  destruct (run_all_heuristics claim fmp y q) as [fl rs]; cbn [fst].
  destruct (v_verdict r) as [l|] eqn:Ev;
  [destruct l; [| | | | eexists; split; [reflexivity|]; repeat split; intros; congruence] |].
  all: destruct fl as [|f fl];
    [eexists; split; [reflexivity|]; repeat split; intros; congruence|].
  all: cbn [set_misleading v_verdict]; rewrite Ev;
    eexists; (split; [reflexivity|]); repeat split; intros; try congruence.
  all: unfold set_misleading; cbn [v_verdict]; exact Ev.
Qed.

Lemma lookup_value_alias_direct fmp m y q x :
  lookup_value fmp m y q false = Some x -> lookup_value fmp m y q true = Some x.
Proof.
  unfold lookup_value; destruct (cell fmp (y, q) m); [tauto | discriminate].
Qed.

Lemma sum_loop_alias_direct fmp m ps t s f ms :
  (forall p, In p ps -> lookup_missing fmp m false p = false) ->
  sum_loop fmp m true ps t s f ms = sum_loop fmp m false ps t s f ms.
Proof.
  revert t s f ms; induction ps as [|[y q] ps IH]; intros t s f ms H; [reflexivity|].
  cbn [sum_loop].
  assert (Hp := H (y, q) (or_introl eq_refl)); unfold lookup_missing in Hp; cbn [fst snd] in Hp.
  destruct (lookup_value fmp m y q false) as [x|] eqn:E; [|discriminate].
  rewrite (lookup_value_alias_direct _ _ _ _ _ E).
  destruct x as [v src]; apply IH; intros p Hin; apply H; right; exact Hin.
Qed.

Lemma filter_nil_forall {A} (g : A -> bool) (l : list A) :
  filter g l = [] -> forall a, In a l -> g a = false.
Proof.
  induction l as [|b l IH]; cbn [filter In]; [contradiction|].
  destruct (g b) eqn:Eb; [discriminate|]; intros H a [<-|Ha]; [exact Eb | exact (IH H a Ha)].
Qed.

(** X15: the calendar alias only fills gaps: a period missing with the
    alias is missing without it, and a sum that is complete without the
    alias is the same with it. *)
Theorem calendar_alias_only_fills_gaps fmp m ps :
  (forall p, lookup_missing fmp m true p = true -> lookup_missing fmp m false p = true) /\
  (sum_missing (sum_metric_for_periods fmp m ps false) = [] ->
   sum_metric_for_periods fmp m ps true = sum_metric_for_periods fmp m ps false).
Proof.
  split.
  - intros [y q]; unfold lookup_missing; cbn [fst snd].
    destruct (lookup_value fmp m y q false) as [x|] eqn:E; [|reflexivity].
    rewrite (lookup_value_alias_direct _ _ _ _ _ E); discriminate.
  - intros Hm.
    destruct (sum_metric_for_periods_spec fmp m ps false) as [H1 _].
    rewrite Hm in H1; symmetry in H1; apply map_eq_nil in H1.
    unfold sum_metric_for_periods; rewrite sum_loop_alias_direct; [reflexivity|].
    exact (filter_nil_forall _ _ H1).
Qed.

(* ------------------------------------------------------------------ *)
(** ** Full-year sums and the conflict reducer *)

Lemma append_new_not_nil x xs : append_new x xs <> [].
Proof.
  unfold append_new; destruct (existsb (String.eqb x) xs) eqn:E.
  - destruct xs; [discriminate | discriminate].
  - destruct xs; discriminate.
Qed.

Lemma dedup_nil l : dedup l = [] -> l = [].
Proof.
  unfold dedup.
  assert (G : forall l acc, fold_left (fun acc x => append_new x acc) l acc = [] -> l = [] /\ acc = []).
  { induction l0 as [|a l0 IH]; intros acc H; [split; [reflexivity | exact H]|].
    cbn [fold_left] in H; destruct (IH _ H) as [_ H']; exfalso; exact (append_new_not_nil _ _ H'). }
  intros H; exact (proj1 (G l [] H)).
Qed.

(** X16: [_compute_full_year_margin] gives a margin only when no quarter is
    missing and the denominator total is nonzero, and then it is the
    numerator total over the denominator total times 100; without a margin
    the denominator is zero or some quarter is missing. *)
Theorem full_year_margin_complete fmp num_m den_m y alias :
  let r := compute_full_year_margin fmp num_m den_m y alias in
  (forall m, fym_margin r = Some m ->
     fym_missing r = [] /\
     exists ns ds, fym_num r = Some ns /\ fym_den r = Some ds /\ ~ ds == 0 /\ m = ns / ds * 100 /\
       sum_total (sum_full_year_metric fmp num_m y alias) = Some ns /\
       sum_total (sum_full_year_metric fmp den_m y alias) = Some ds) /\
  (fym_margin r = None ->
     (exists ds, fym_den r = Some ds /\ ds == 0) \/ fym_missing r <> []).
Proof.
  unfold compute_full_year_margin, Qneqb; cbn zeta.
  destruct (sum_full_year_metric fmp num_m y alias) as [nt ns nf nm] eqn:En.
  destruct (sum_full_year_metric fmp den_m y alias) as [dt ds df dm] eqn:Ed.
  cbn [sum_total sum_missing sum_sources sum_facts].
  pose proof (sum_metric_for_periods_spec fmp num_m (full_year_periods y) alias) as [Sn [Tn _]].
  pose proof (sum_metric_for_periods_spec fmp den_m (full_year_periods y) alias) as [Sd [Td _]].
  fold (sum_full_year_metric fmp num_m y alias) in Sn, Tn.
  fold (sum_full_year_metric fmp den_m y alias) in Sd, Td.
  rewrite En in Sn, Tn; rewrite Ed in Sd, Td; cbn [sum_total sum_missing] in Sn, Tn, Sd, Td.
  destruct nt as [n|], dt as [d|]; cbn [fym_margin fym_missing fym_num fym_den].
  - destruct (Qeq_bool d 0) eqn:Z; cbn [negb fym_margin fym_missing fym_num fym_den].
    + split; [discriminate|]; intros _; left; exists d; split; [reflexivity|].
      apply Qeq_bool_iff; exact Z.
    + split; [|discriminate]. intros m Hm; injection Hm as <-; split; [reflexivity|].
      exists n, d; repeat split; try reflexivity.
      intros H; apply Qeq_bool_iff in H; congruence.
  - split; [discriminate|]; intros _; right.
    intros H; apply dedup_nil, app_eq_nil in H as [_ H].
    rewrite Sd in H; apply map_eq_nil in H; exact (proj1 Td eq_refl H).
  - split; [discriminate|]; intros _; right.
    intros H; apply dedup_nil, app_eq_nil in H as [H _].
    rewrite Sn in H; apply map_eq_nil in H; exact (proj1 Tn eq_refl H).
  - split; [discriminate|]; intros _; right.
    intros H; apply dedup_nil, app_eq_nil in H as [H _].
    rewrite Sn in H; apply map_eq_nil in H; exact (proj1 Tn eq_refl H).
Qed.

Lemma downgrade_map_form (items : list Item) :
  downgrade_conflicting_mismatches items = map (conflict_outcome items) items.
Proof.
  destruct (grouped_ok items) as [Hnd [Hfil Hcov]].
  assert (Hp : processed items (group_indices 0 items [])
                 (downgrade_conflicting_mismatches items)).
  { unfold downgrade_conflicting_mismatches.
    apply (process_groups_ok items _ [] items); [exact Hfil|].
    intro j; destruct (nth_error items j); reflexivity. }
  apply nth_error_ext. intro j. rewrite Hp, nth_error_map.
  destruct (nth_error items j) as [it|] eqn:Ej; [simpl|reflexivity].
  destruct (in_groups (group_indices 0 items []) j) eqn:Eg; [reflexivity|].
  destruct (conflict_key it) as [k|] eqn:Ek.
  - exfalso.
    assert (Hk : key_at items k j = true) by (unfold key_at; rewrite Ej, Ek; apply key_eqb_refl).
    assert (Hj : (j < length items)%nat) by (apply nth_error_Some; congruence).
    destruct (proj1 (in_map_iff _ _ _) (Hcov k j Hj Hk)) as [[k' is] [Hk' Hin]].
    simpl in Hk'; subst k'.
    assert (Hjis : In j is) by (rewrite (Hfil _ _ Hin); apply filter_In; split; [apply in_seq; lia|assumption]).
    assert (Hg : in_groups (group_indices 0 items []) j = true).
    { apply existsb_exists. exists (k, is); split; [assumption|].
      apply existsb_exists. exists j; split; [assumption | apply Nat.eqb_refl]. }
    congruence.
  - unfold conflict_outcome; rewrite Ek; reflexivity.
Qed.

Lemma downgrade_one_cases rid v :
  downgrade_one rid v = v \/ v_verdict (downgrade_one rid v) = Some Unverifiable.
Proof.
  unfold downgrade_one.
  destruct (v_verdict v) as [[]|]; try (left; reflexivity).
  destruct (v_difference_pct v) as [d|]; [|left; reflexivity].
  destruct (ext_lt (ext_abs d) 3); [left; reflexivity | right; reflexivity].
Qed.

Lemma conflict_key_unverifiable c v :
  v_verdict v = Some Unverifiable -> conflict_key (c, v) = None.
Proof.
  intros E; unfold conflict_key; rewrite E.
  destruct (negb _); reflexivity.
Qed.

Lemma conflict_outcome_fst items it : fst (conflict_outcome items it) = fst it.
Proof.
  destruct it as [c v]; destruct (conflict_outcome_shape items c v) as [->|[rid ->]]; reflexivity.
Qed.

Lemma ref_pred_map items k j :
  (match nth_error (map (conflict_outcome items) items) j with
   | Some it => match conflict_key it with
                | Some k' => key_eqb k k' && is_reference (snd it)
                | None => false
                end
   | None => false
   end) =
  (match nth_error items j with
   | Some it => match conflict_key it with
                | Some k' => key_eqb k k' && is_reference (snd it)
                | None => false
                end
   | None => false
   end).
Proof.
  rewrite nth_error_map.
  destruct (nth_error items j) as [[c v]|]; [cbn [option_map]|reflexivity].
  destruct (conflict_outcome_shape items c v) as [->|[rid ->]]; [reflexivity|].
  destruct (downgrade_one_cases rid v) as [E|E]; [rewrite E; reflexivity|].
  rewrite (conflict_key_unverifiable _ _ E).
  destruct (conflict_key (c, v)); [|reflexivity].
  cbn [snd]; rewrite <- (downgrade_one_reference rid v).
  unfold is_reference; rewrite E; symmetry; apply andb_false_r.
Qed.

Lemma conflict_outcome_map_stable items it :
  conflict_outcome (map (conflict_outcome items) items) it = conflict_outcome items it.
Proof.
  set (f := conflict_outcome items).
  unfold conflict_outcome at 1.
  destruct (conflict_key it) as [k|] eqn:Ek; [|unfold f, conflict_outcome; rewrite Ek; reflexivity].
  rewrite length_map.
  erewrite find_ext_in by (intros j _; apply ref_pred_map).
  destruct (find _ (seq 0 (length items))) as [r|] eqn:Ef;
  [|unfold f, conflict_outcome; rewrite Ek, Ef; reflexivity].
  rewrite nth_error_map.
  destruct (nth_error items r) as [[rc rv]|] eqn:Er;
  [|unfold f, conflict_outcome; rewrite Ek, Ef, Er; reflexivity].
  cbn [option_map]. pose proof (conflict_outcome_fst items (rc, rv)) as F; fold f in F.
  destruct (f (rc, rv)) as [rc' rv']; cbn in F; subst rc'.
  unfold f, conflict_outcome; rewrite Ek, Ef, Er; reflexivity.
Qed.

Lemma conflict_outcome_idem items it :
  conflict_outcome items (conflict_outcome items it) = conflict_outcome items it.
Proof.
  destruct it as [c v].
  destruct (conflict_outcome_shape items c v) as [E|[rid E]]; rewrite E; [exact E|].
  destruct (downgrade_one_cases rid v) as [D|D].
  - rewrite D in E |- *; exact E.
  - unfold conflict_outcome at 1; rewrite (conflict_key_unverifiable _ _ D); reflexivity.
Qed.

(** X17: [_downgrade_conflicting_mismatches] is idempotent and keeps the
    number and the claims of the items. *)
Theorem downgrade_conflicting_mismatches_idempotent items :
  downgrade_conflicting_mismatches (downgrade_conflicting_mismatches items)
  = downgrade_conflicting_mismatches items /\
  length (downgrade_conflicting_mismatches items) = length items /\
  map fst (downgrade_conflicting_mismatches items) = map fst items.
Proof.
  rewrite !downgrade_map_form, map_map.
  split; [|split; [apply length_map | rewrite map_map; apply map_ext; apply conflict_outcome_fst]].
  apply map_ext; intros it.
  rewrite conflict_outcome_map_stable; apply conflict_outcome_idem.
Qed.

(* ------------------------------------------------------------------ *)
(** ** Number and scale extraction *)

Lemma span_app p u s :
  str_all p u = true -> head_not p s = true -> span p (u ++ s) = (u, s).
Proof.
  induction u as [|c u IH]; intros Hu Hs; cbn [append str_all] in *.
  - destruct s as [|c s]; [reflexivity|]; cbn in *; apply negb_true_iff in Hs; rewrite Hs; reflexivity.
  - apply andb_true_iff in Hu as [Hc Hu]; cbn [span]; rewrite Hc, (IH Hu Hs); reflexivity.
Qed.

Lemma span_split p s : fst (span p s) ++ snd (span p s) = s.
Proof.
  induction s as [|c s IH]; [reflexivity|]; cbn [span].
  destruct (p c); [|reflexivity].
  destruct (span p s) as [a b]; cbn in *; rewrite IH; reflexivity.
Qed.

Lemma span_fst_all p s : str_all p (fst (span p s)) = true.
Proof.
  induction s as [|c s IH]; [reflexivity|]; cbn [span].
  destruct (p c) eqn:E; [|reflexivity].
  destruct (span p s) as [a b]; cbn in *; rewrite E, IH; reflexivity.
Qed.

Lemma num_char_not_space c : is_num_char c = true -> is_space c = false.
Proof.
  unfold is_num_char, is_digit, is_space; intros H.
  destruct c as [[] [] [] [] [] [] [] []]; cbn in *; try discriminate; reflexivity.
Qed.

Lemma num_char_not_dollar c : is_num_char c = true -> Ascii.eqb c "$"%char = false.
Proof.
  unfold is_num_char, is_digit; intros H.
  destruct c as [[] [] [] [] [] [] [] []]; cbn in *; try discriminate; reflexivity.
Qed.

Lemma span_space_cons c s :
  is_space c = true -> snd (span is_space (String c s)) = snd (span is_space s).
Proof. intros H; cbn [span]; rewrite H; destruct (span is_space s); reflexivity. Qed.

Lemma span_space_stop c s :
  is_space c = false -> snd (span is_space (String c s)) = String c s.
Proof. intros H; cbn [span]; rewrite H; reflexivity. Qed.

(** Before the first [[\d,]] character, a match either fails or reaches it. *)
Lemma num_group_at_prefix p t :
  str_all (fun c => negb (is_num_char c)) p = true ->
  num_group_at (p ++ t) = None \/ num_group_at (p ++ t) = num_group_at t.
Proof.
  induction p as [|c p IH]; intros Hp; [right; reflexivity|].
  cbn [str_all] in Hp; apply andb_true_iff in Hp as [Hc Hp]; apply negb_true_iff in Hc.
  cbn [append].
  destruct (is_space c) eqn:Es.
  - assert (E : num_group_at (String c (p ++ t)) = num_group_at (p ++ t))
      by (unfold num_group_at; rewrite (span_space_cons _ _ Es); reflexivity).
    rewrite E; exact (IH Hp).
  - left; unfold num_group_at; rewrite (span_space_stop _ _ Es); cbn [span]; rewrite Hc; reflexivity.
Qed.

Lemma num_group_at_start c t :
  is_num_char c = true -> num_group_at (String c t) <> None.
Proof.
  intros Hc; unfold num_group_at; rewrite (span_space_stop _ _ (num_char_not_space _ Hc)).
  cbn [span]; rewrite Hc; destruct (span is_num_char t) as [a b].
  destruct b as [|d b]; [discriminate|]; destruct (Ascii.eqb d "."%char); discriminate.
Qed.

Lemma num_search_prefix p t :
  str_all (fun c => negb (is_num_char c)) p = true ->
  (forall c t', t = String c t' -> is_num_char c = true) ->
  num_search (p ++ t) = num_search t.
Proof.
  intros Hp Ht; induction p as [|c p IH]; [reflexivity|].
  cbn [str_all] in Hp; apply andb_true_iff in Hp as [Hc Hp].
  cbn [append num_search].
  assert (H1 := num_group_at_prefix (String c p) t); cbn [append str_all] in H1.
  rewrite Hc, Hp in H1; specialize (H1 eq_refl).
  assert (M : num_match_at (String c (p ++ t)) = None \/
              num_match_at (String c (p ++ t)) = num_group_at t).
  { unfold num_match_at.
    destruct (Ascii.eqb c "$"%char); [|exact H1].
    destruct (num_group_at_prefix p t Hp) as [-> | ->]; [exact H1|].
    destruct (num_group_at t); [right; reflexivity | exact H1]. }
  rewrite (IH Hp).
  destruct t as [|d t']; [destruct M as [-> | ->]; reflexivity|].
  assert (Hd := Ht d t' eq_refl).
  destruct M as [-> | ->]; [reflexivity|].
  cbn [num_search]; unfold num_match_at at 2; rewrite (num_char_not_dollar _ Hd).
  destruct (num_group_at (String d t')) eqn:Eg; [reflexivity|].
  exfalso; exact (num_group_at_start _ _ Hd Eg).
Qed.

Lemma str_all_app p a b : str_all p (a ++ b) = str_all p a && str_all p b.
Proof. induction a as [|c a IH]; [reflexivity|]; cbn; rewrite IH, andb_assoc; reflexivity. Qed.

Lemma append_empty_r s : s ++ EmptyString = s.
Proof. induction s as [|c s IH]; [reflexivity|]; cbn; rewrite IH; reflexivity. Qed.

Lemma remove_commas_app a b : remove_commas (a ++ b) = remove_commas a ++ remove_commas b.
Proof.
  induction a as [|c a IH]; [reflexivity|]; cbn.
  destruct (Ascii.eqb c ","%char); rewrite IH; reflexivity.
Qed.

Lemma remove_commas_digits s : str_all is_digit s = true -> remove_commas s = s.
Proof.
  induction s as [|c s IH]; [reflexivity|]; cbn; intros H; apply andb_true_iff in H as [Hc H].
  rewrite (IH H).
  destruct (Ascii.eqb c ","%char) eqn:E; [|reflexivity].
  apply Ascii.eqb_eq in E; subst c; discriminate Hc.
Qed.

Lemma remove_commas_only_commas s :
  str_all is_num_char s = true -> str_all (fun c => negb (is_digit c)) s = true ->
  remove_commas s = EmptyString.
Proof.
  induction s as [|c s IH]; [reflexivity|]; cbn; intros H1 H2.
  apply andb_true_iff in H1 as [C1 H1]; apply andb_true_iff in H2 as [C2 H2].
  unfold is_num_char in C1; apply negb_true_iff in C2; rewrite C2 in C1; cbn in C1.
  rewrite C1; exact (IH H1 H2).
Qed.

Lemma span_none p s : str_all (fun c => negb (p c)) s = true -> fst (span p s) = EmptyString.
Proof.
  destruct s as [|c s]; [reflexivity|]; cbn; intros H; apply andb_true_iff in H as [H _].
  apply negb_true_iff in H; rewrite H; reflexivity.
Qed.

Lemma str_all_span_snd p q s : str_all q s = true -> str_all q (snd (span p s)) = true.
Proof.
  intros H; rewrite <- (span_split p s), str_all_app in H; apply andb_true_iff in H; tauto.
Qed.

Lemma str_all_span_fst p q s : str_all q s = true -> str_all q (fst (span p s)) = true.
Proof.
  intros H; rewrite <- (span_split p s), str_all_app in H; apply andb_true_iff in H; tauto.
Qed.

Lemma num_group_no_digit s g :
  str_all (fun c => negb (is_digit c)) s = true -> num_group_at s = Some g ->
  remove_commas g = EmptyString \/ remove_commas g = "."%string.
Proof.
  intros Hs; unfold num_group_at.
  assert (H1 := str_all_span_snd is_space _ _ Hs).
  set (t1 := snd (span is_space s)) in *.
  assert (Hg := span_fst_all is_num_char t1).
  assert (Hg' := str_all_span_fst is_num_char _ _ H1).
  assert (Ht2 := str_all_span_snd is_num_char _ _ H1).
  destruct (span is_num_char t1) as [g1 t2]; cbn [fst snd] in Hg, Hg', Ht2.
  assert (R : remove_commas g1 = EmptyString) by exact (remove_commas_only_commas _ Hg Hg').
  destruct g1 as [|c g1]; [discriminate|].
  destruct t2 as [|d t3]; [intros E; injection E as <-; left; exact R|].
  destruct (Ascii.eqb d "."%char); intros E; injection E as <-; [right|left; exact R].
  cbn [str_all] in Ht2; apply andb_true_iff in Ht2 as [_ Ht3].
  assert (A : remove_commas (String c g1 ++ "."%string) = "."%string)
    by (rewrite remove_commas_app, R; reflexivity).
  rewrite (span_none _ _ Ht3); exact A.
Qed.

Lemma num_search_suffix s g :
  num_search s = Some g -> exists pre suf, s = pre ++ suf /\ num_group_at suf = Some g.
Proof.
  induction s as [|c s IH]; cbn [num_search].
  - intros H; exists EmptyString, EmptyString; split; [reflexivity|]; exact H.
  - unfold num_match_at.
    destruct (Ascii.eqb c "$"%char).
    + destruct (num_group_at s) eqn:E1.
      * intros H; injection H as <-; exists (String c EmptyString), s; split; [reflexivity | exact E1].
      * destruct (num_group_at (String c s)) eqn:E2.
        -- intros H; injection H as <-; exists EmptyString, (String c s); split; [reflexivity | exact E2].
        -- intros H; destruct (IH H) as [pre [suf [-> Hs]]].
           exists (String c pre), suf; split; [reflexivity | exact Hs].
    + destruct (num_group_at (String c s)) eqn:E2.
      * intros H; injection H as <-; exists EmptyString, (String c s); split; [reflexivity | exact E2].
      * intros H; destruct (IH H) as [pre [suf [-> Hs]]].
        exists (String c pre), suf; split; [reflexivity | exact Hs].
Qed.

Lemma num_search_some s :
  str_all (fun c => negb (is_num_char c)) s = false -> num_search s <> None.
Proof.
  induction s as [|c s IH]; [discriminate|]; cbn [str_all num_search]; intros H.
  destruct (is_num_char c) eqn:Ec; cbn [negb andb] in H.
  - unfold num_match_at; rewrite (num_char_not_dollar _ Ec).
    destruct (num_group_at (String c s)) eqn:E; [discriminate|].
    exfalso; exact (num_group_at_start _ _ Ec E).
  - destruct (num_match_at (String c s)); [discriminate | exact (IH H)].
Qed.

Lemma contains_comma s : contains "," s = true -> str_all (fun c => negb (is_num_char c)) s = false.
Proof.
  induction s as [|c s IH]; [discriminate|]; cbn [contains starts_with str_all].
  destruct (Ascii.eqb "," c) eqn:E; cbn [andb orb].
  - apply Ascii.eqb_eq in E; subst c; reflexivity.
  - intros H; rewrite (IH H); apply andb_false_r.
Qed.

(** X18: [extract_numeric_from_text] gives [None] exactly when the text
    has no digit and no comma; a text with commas but no digit makes
    [float] raise [ValueError]. *)
Theorem extract_numeric_from_text_cases text :
  (str_all (fun c => negb (is_num_char c)) text = true -> extract_numeric_from_text text = FOk None) /\
  (str_all (fun c => negb (is_num_char c)) text = false -> extract_numeric_from_text text <> FOk None) /\
  (str_all (fun c => negb (is_digit c)) text = true -> contains "," text = true ->
   extract_numeric_from_text text = FValueError).
Proof.
  split; [|split].
  - intros H; unfold extract_numeric_from_text.
    rewrite <- (append_empty_r text), (num_search_prefix _ _ H); [reflexivity|discriminate].
  - intros H; unfold extract_numeric_from_text.
    destruct (num_search text) as [g|] eqn:E; [|exfalso; exact (num_search_some _ H E)].
    destruct (float_of_digits (remove_commas g)); discriminate.
  - intros Hd Hc; unfold extract_numeric_from_text.
    destruct (num_search text) as [g|] eqn:E;
    [|exfalso; exact (num_search_some _ (contains_comma _ Hc) E)].
    destruct (num_search_suffix _ _ E) as [pre [suf [Hs Hg]]].
    rewrite Hs, str_all_app in Hd; apply andb_true_iff in Hd as [_ Hd].
    destruct (num_group_no_digit _ _ Hd Hg) as [-> | ->]; reflexivity.
Qed.

Lemma digits_value_uint u acc :
  digits_value (NilEmpty.string_of_uint u) (Z.of_nat acc) = Z.of_nat (Nat.of_uint_acc u acc).
Proof.
  revert acc; induction u as [|u IH|u IH|u IH|u IH|u IH|u IH|u IH|u IH|u IH|u IH]; intros acc;
  [reflexivity|..]; cbn [NilEmpty.string_of_uint digits_value Nat.of_uint_acc];
  rewrite <- IH; f_equal; rewrite Nat.tail_mul_spec;
  match goal with |- context [digit_val ?d] =>
    let v := eval vm_compute in (digit_val d) in change (digit_val d) with v end; lia.
Qed.

Lemma str_all_digits_uint u : str_all is_digit (NilEmpty.string_of_uint u) = true.
Proof. induction u; cbn [NilEmpty.string_of_uint str_all]; try rewrite IHu; reflexivity. Qed.

Lemma decimal_string_cons n : exists c t, decimal_string n = String c t.
Proof.
  unfold decimal_string.
  destruct (Nat.to_uint n) as [|u|u|u|u|u|u|u|u|u|u] eqn:E; try (do 2 eexists; reflexivity).
  exfalso; assert (H := DecimalNat.Unsigned.of_to n); rewrite E in H; cbn in H; subst n.
  discriminate E.
Qed.

Lemma decimal_string_value n : digits_value (decimal_string n) 0 = Z.of_nat n.
Proof.
  unfold decimal_string; change 0%Z with (Z.of_nat 0); rewrite digits_value_uint.
  change (Nat.of_uint_acc (Nat.to_uint n) 0) with (Nat.of_uint (Nat.to_uint n)).
  rewrite DecimalNat.Unsigned.of_to; reflexivity.
Qed.

(** X19: a natural number written in decimal after a prefix without digits
    or commas, and before a suffix that does not continue the number, is
    extracted as that number. *)
Theorem extract_numeric_round_trip prefix n suffix :
  str_all (fun c => negb (is_num_char c)) prefix = true ->
  head_not (fun c => is_num_char c || Ascii.eqb c "."%char) suffix = true ->
  extract_numeric_from_text (prefix ++ decimal_string n ++ suffix) = FOk (Some (inject_Z (Z.of_nat n))).
Proof.
  intros Hp Hs.
  assert (Hd := str_all_digits_uint (Nat.to_uint n)); fold (decimal_string n) in Hd.
  assert (Hn : str_all is_num_char (decimal_string n) = true).
  { revert Hd; generalize (decimal_string n); induction s as [|c s IH]; [reflexivity|].
    cbn; rewrite !andb_true_iff; unfold is_num_char; intros [-> H]; split; [reflexivity | exact (IH H)]. }
  assert (Hs' : head_not is_num_char suffix = true).
  { destruct suffix as [|c s]; [reflexivity|]; cbn in *.
    destruct (is_num_char c); [discriminate | reflexivity]. }
  destruct (decimal_string_cons n) as [c [t Ect]].
  assert (Hc : is_num_char c = true) by (rewrite Ect in Hn; cbn in Hn; apply andb_true_iff in Hn; tauto).
  unfold extract_numeric_from_text.
  rewrite (num_search_prefix _ _ Hp).
  2: { intros c' t' E; rewrite Ect in E; cbn in E; injection E as <- _; exact Hc. }
  assert (S0 : snd (span is_space (decimal_string n ++ suffix)) = decimal_string n ++ suffix)
    by (rewrite Ect; apply span_space_stop, num_char_not_space, Hc).
  assert (G : num_group_at (decimal_string n ++ suffix) = Some (decimal_string n)).
  { unfold num_group_at; rewrite S0, (span_app _ _ _ Hn Hs'), Ect.
    destruct suffix as [|d s]; [reflexivity|].
    cbn in Hs; rewrite negb_orb in Hs; apply andb_true_iff in Hs as [_ Hs].
    apply negb_true_iff in Hs; rewrite Hs; reflexivity. }
  assert (N : num_match_at (decimal_string n ++ suffix) = Some (decimal_string n)).
  { rewrite <- G; unfold num_match_at; rewrite Ect; cbn [append].
    rewrite (num_char_not_dollar _ Hc); reflexivity. }
  assert (U : forall s, num_search s = match num_match_at s with
                                       | Some g => Some g
                                       | None => match s with EmptyString => None
                                                 | String _ s' => num_search s' end
                                       end) by (intros [|? ?]; reflexivity).
  rewrite U, N.
  rewrite (remove_commas_digits _ Hd).
  unfold float_of_digits.
  pose proof (span_app is_digit _ EmptyString Hd eq_refl) as Sp; rewrite append_empty_r in Sp.
  rewrite Sp, Ect; rewrite <- Ect, decimal_string_value; reflexivity.
Qed.

Lemma extract_numeric_round_trip_witness :
  str_all (fun c => negb (is_num_char c)) "$" = true /\
  head_not (fun c => is_num_char c || Ascii.eqb c "."%char) " billion" = true /\
  extract_numeric_from_text ("$" ++ decimal_string 150 ++ " billion") = FOk (Some (inject_Z (Z.of_nat 150))).
Proof.
  assert (H1 : str_all (fun c => negb (is_num_char c)) "$" = true) by reflexivity.
  assert (H2 : head_not (fun c => is_num_char c || Ascii.eqb c "."%char) " billion" = true) by reflexivity.
  split; [exact H1|]; split; [exact H2|].
  exact (extract_numeric_round_trip "$" 150 " billion" H1 H2).
Defined.

(** X20: [detect_scale_from_text] gives [None] exactly when none of the
    four scale words occurs in the lowercased text; otherwise it gives the
    plural of a word that occurs, whose multiplier is at least 1000. *)
Theorem detect_scale_multiplier text :
  (detect_scale_from_text text = None <->
   forall w, In w ["trillion"; "billion"; "million"; "thousand"] -> contains w (lower text) = false) /\
  (forall s, detect_scale_from_text text = Some s ->
     1000 <= scale_multiplier (Some s) /\
     exists w, In w ["trillion"; "billion"; "million"; "thousand"] /\
               contains w (lower text) = true /\ s = w ++ "s").
Proof.
  unfold detect_scale_from_text.
  destruct (contains "trillion" (lower text)) eqn:E1;
  [|destruct (contains "billion" (lower text)) eqn:E2;
    [|destruct (contains "million" (lower text)) eqn:E3;
      [|destruct (contains "thousand" (lower text)) eqn:E4]]].
  all: split; [split|].
  all: try discriminate.
  all: try (intros _ w Hw; cbn in Hw; repeat destruct Hw as [<-|Hw]; first [assumption | contradiction]).
  all: try (intros H; exfalso;
            match goal with E : contains ?w _ = true |- _ =>
              assert (C := H w ltac:(cbn; tauto)); congruence end).
  all: try (intros _; reflexivity).
  all: intros s Hs; try discriminate Hs; injection Hs as <-.
  all: split; [cbn; lra|]; eexists; split; [|split; [eassumption | reflexivity]]; cbn; tauto.
Qed.

